(** * InventorySaaSApp: the storage layer and the inventory routes

    A shallow embedding of [server/storage.ts] (classes [MemStorage] and
    [DatabaseStorage]) and of the inventory handlers of [server/routes.ts],
    followed by the properties of asset-id issuance, capacity accounting,
    access checks and activity logging that the specification states.

    JavaScript numbers that hold ids and counters are modelled as [Z]
    (all values stay inside the exactly representable integer range),
    strings as [string], [Map<number, T>] as [gmap Z T]. *)

From Stdlib Require Import ZArith Lia Ascii String.
From stdpp Require Import gmap strings pretty list sorting.

Local Open Scope Z_scope.

(** ** JavaScript string primitives used by the issuer *)

(** [Number.prototype.toString()] on an integer: decimal digits, a leading
    minus sign for negative values. *)
Definition toString (n : Z) : string := pretty n.

Fixpoint repeat_char (c : ascii) (n : nat) : string :=
  match n with
  | O => ""
  | S n' => String c (repeat_char c n')
  end.

(** [String.prototype.padStart(targetLength, padString)] with a pad string
    of one character. *)
Definition padStart (s : string) (targetLength : nat) (c : ascii) : string :=
  if (targetLength <=? String.length s)%nat then s
  else repeat_char c (targetLength - String.length s) +:+ s.

Definition is_hash (c : ascii) : bool := Ascii.eqb c "#"%char.

(** The text matched by [/#+/] when the match is [run] characters long. *)
Definition hashes (run : nat) : string := repeat_char "#"%char run.

(** The match pending at the cursor is handed to the callback, if any. *)
Definition flush (f : string -> string) (run : nat) : string :=
  match run with
  | O => ""
  | S _ => f (hashes run)
  end.

(** [s.replace(/#+/g, f)]: scanning left to right, every maximal run of
    ['#'] is one match (the quantifier is greedy) and is replaced by the
    callback's result; [run] counts the ['#'] read since the last other
    character. *)
Fixpoint replace_scan (f : string -> string) (s : string) (run : nat) : string :=
  match s with
  | "" => flush f run
  | String c s' =>
      if is_hash c then replace_scan f s' (S run)
      else flush f run +:+ String c (replace_scan f s' O)
  end.

Definition replace_hash_runs (f : string -> string) (s : string) : string :=
  replace_scan f s O.

(** The callback of [generateAssetId] and the whole substitution:
[[
    pattern.replace(/#+/g, (match) => {
      const paddingLength = match.length;
      return currentId.toString().padStart(paddingLength, '0');
    })
]] *)
Definition pad_counter (currentId : Z) (match_ : string) : string :=
  let paddingLength := String.length match_ in
  padStart (toString currentId) paddingLength "0"%char.

Definition render_asset_id (pattern : string) (currentId : Z) : string :=
  replace_hash_runs (pad_counter currentId) pattern.

(** [a || b] on a string operand: the empty string is falsy. *)
Definition str_or (a : option string) (b : string) : string :=
  match a with
  | Some s => if decide (s = "") then b else s
  | None => b
  end.

(** [a || null] on optional operands: every falsy value becomes [null]. *)
Definition str_or_null (a : option string) : option string :=
  match a with
  | Some s => if decide (s = "") then None else Some s
  | None => None
  end.

Definition num_or_null (a : option Z) : option Z :=
  match a with
  | Some n => if decide (n = 0) then None else Some n
  | None => None
  end.

(** ** Data model *)

(** A [Date], as milliseconds since the epoch. *)
Definition Date : Type := Z.

(** The row types of [@shared/schema]; [shared/schema.ts] is not among the
    sources, so each record takes its fields from section 3 of the
    specification, under the names the storage classes and the routes use. *)

Module Company.
(** Modelled from the spec: type [Company] of [@shared/schema], the Tenant of section 3. *)
Record t : Type := mk {
  id : Z;
  name : string;
  assetIdPattern : string;
  currentAssetId : Z;
  subscriptionTier : string;
  subscriptionStatus : string;
  createdAt : Date
}.
End Company.

Module InsertCompany.
(** Modelled from the spec: type [InsertCompany] of [@shared/schema]; the fields [createCompany] reads. *)
Record t : Type := mk {
  name : string;
  assetIdPattern : option string;
  subscriptionTier : option string;
  subscriptionStatus : option string
}.
End InsertCompany.

Module Department.
(** Modelled from the spec: type [Department] of [@shared/schema] (section 3). *)
Record t : Type := mk {
  id : Z;
  companyId : Z;
  name : string;
  assetCount : Z;
  capacityUsed : Z;
  createdAt : Date
}.
End Department.

Module InsertDepartment.
(** Modelled from the spec: type [InsertDepartment] of [@shared/schema]; the fields [createCompany] passes. *)
Record t : Type := mk {
  name : string;
  companyId : Z
}.
End InsertDepartment.

Module PartialDepartment.
(** Modelled from the spec: [Partial<Department>] over the fields of
    [Department]; every field may be absent. *)
Record t : Type := mk {
  id : option Z;
  companyId : option Z;
  name : option string;
  assetCount : option Z;
  capacityUsed : option Z;
  createdAt : option Date
}.
Definition empty : t := mk None None None None None None.
End PartialDepartment.

Module User.
(** Modelled from the spec: type [User] of [@shared/schema] (section 3). *)
Record t : Type := mk {
  id : Z;
  companyId : Z;
  name : string;
  email : string;
  password : string;
  role : string;
  createdAt : Date
}.
End User.

Module UserDepartment.
(** Modelled from the spec: type [UserDepartment] of [@shared/schema], the membership edge of section 3. *)
Record t : Type := mk {
  id : Z;
  userId : Z;
  departmentId : Z;
  createdAt : Date
}.
End UserDepartment.

Module CustomField.
(** Modelled from the spec: type [CustomField] of [@shared/schema] (section 3). *)
Record t : Type := mk {
  id : Z;
  companyId : Z;
  departmentId : option Z;
  name : string;
  type : string;
  options : option string;
  required : bool;
  createdAt : Date
}.
End CustomField.

Module InventoryItem.
(** Modelled from the spec: type [InventoryItem] of [@shared/schema] (section 3). *)
Record t : Type := mk {
  id : Z;
  companyId : Z;
  departmentId : Z;
  assetId : string;
  name : string;
  description : option string;
  quantity : Z;
  unitPrice : option Z;
  location : option string;
  purchaseDate : option Date;
  status : string;
  customFields : option string;
  createdAt : Date;
  updatedAt : Date;
  createdBy : Z;
  updatedBy : Z
}.
End InventoryItem.

Module InsertInventoryItem.
(** Modelled from the spec: type [InsertInventoryItem] of [@shared/schema]; the fields [createInventoryItem] reads. *)
Record t : Type := mk {
  companyId : Z;
  departmentId : Z;
  name : string;
  description : option string;
  quantity : Z;
  unitPrice : option Z;
  location : option string;
  purchaseDate : option Date;
  status : option string;
  customFields : option string;
  createdBy : Z;
  updatedBy : Z
}.
End InsertInventoryItem.

Module PartialInventoryItem.
(** Modelled from the spec: [Partial<InventoryItem>] over the fields of
    [InventoryItem]; it is also the shape of a JSON request body of the
    inventory routes.  A nullable column that is present holds [Some None]
    for [null]. *)
Record t : Type := mk {
  id : option Z;
  companyId : option Z;
  departmentId : option Z;
  assetId : option string;
  name : option string;
  description : option (option string);
  quantity : option Z;
  unitPrice : option (option Z);
  location : option (option string);
  purchaseDate : option (option Date);
  status : option string;
  customFields : option (option string);
  createdAt : option Date;
  updatedAt : option Date;
  createdBy : option Z;
  updatedBy : option Z
}.
Definition empty : t :=
    mk None None None None None None None None None None None None None None None None.
End PartialInventoryItem.

Module ActivityLog.
(** Modelled from the spec: type [ActivityLog] of [@shared/schema] (section 3). *)
Record t : Type := mk {
  id : Z;
  action : string;
  itemId : Z;
  assetId : string;
  itemName : string;
  departmentName : string;
  userId : Z;
  userName : string;
  companyId : Z;
  createdAt : Date
}.
End ActivityLog.

Module InsertActivityLog.
(** Modelled from the spec: type [InsertActivityLog] of [@shared/schema]; the fields the routes pass. *)
Record t : Type := mk {
  action : string;
  itemId : Z;
  assetId : string;
  itemName : string;
  departmentName : string;
  userId : Z;
  userName : string;
  companyId : Z
}.
End InsertActivityLog.

(** Object spread [{ ...row, ...data }]: a field present in [data] wins. *)
Definition spread_department (row : Department.t) (data : PartialDepartment.t)
  : Department.t :=
  {| Department.id := default (Department.id row) (PartialDepartment.id data);
     Department.companyId :=
       default (Department.companyId row) (PartialDepartment.companyId data);
     Department.name := default (Department.name row) (PartialDepartment.name data);
     Department.assetCount :=
       default (Department.assetCount row) (PartialDepartment.assetCount data);
     Department.capacityUsed :=
       default (Department.capacityUsed row) (PartialDepartment.capacityUsed data);
     Department.createdAt :=
       default (Department.createdAt row) (PartialDepartment.createdAt data) |}.

Definition spread_item (row : InventoryItem.t) (data : PartialInventoryItem.t)
  : InventoryItem.t :=
  let d {A} (get : InventoryItem.t -> A) (o : option A) := default (get row) o in
  {| InventoryItem.id := d InventoryItem.id (PartialInventoryItem.id data);
     InventoryItem.companyId :=
       d InventoryItem.companyId (PartialInventoryItem.companyId data);
     InventoryItem.departmentId :=
       d InventoryItem.departmentId (PartialInventoryItem.departmentId data);
     InventoryItem.assetId := d InventoryItem.assetId (PartialInventoryItem.assetId data);
     InventoryItem.name := d InventoryItem.name (PartialInventoryItem.name data);
     InventoryItem.description :=
       d InventoryItem.description (PartialInventoryItem.description data);
     InventoryItem.quantity := d InventoryItem.quantity (PartialInventoryItem.quantity data);
     InventoryItem.unitPrice :=
       d InventoryItem.unitPrice (PartialInventoryItem.unitPrice data);
     InventoryItem.location := d InventoryItem.location (PartialInventoryItem.location data);
     InventoryItem.purchaseDate :=
       d InventoryItem.purchaseDate (PartialInventoryItem.purchaseDate data);
     InventoryItem.status := d InventoryItem.status (PartialInventoryItem.status data);
     InventoryItem.customFields :=
       d InventoryItem.customFields (PartialInventoryItem.customFields data);
     InventoryItem.createdAt :=
       d InventoryItem.createdAt (PartialInventoryItem.createdAt data);
     InventoryItem.updatedAt :=
       d InventoryItem.updatedAt (PartialInventoryItem.updatedAt data);
     InventoryItem.createdBy :=
       d InventoryItem.createdBy (PartialInventoryItem.createdBy data);
     InventoryItem.updatedBy :=
       d InventoryItem.updatedBy (PartialInventoryItem.updatedBy data) |}.

(** [{ ...req.body, companyId, createdBy, updatedBy }] *)
Definition spread_partial_identity (req_body : PartialInventoryItem.t)
    (companyId userId : Z) : PartialInventoryItem.t :=
  {| PartialInventoryItem.id := PartialInventoryItem.id req_body;
     PartialInventoryItem.companyId := Some companyId;
     PartialInventoryItem.departmentId := PartialInventoryItem.departmentId req_body;
     PartialInventoryItem.assetId := PartialInventoryItem.assetId req_body;
     PartialInventoryItem.name := PartialInventoryItem.name req_body;
     PartialInventoryItem.description := PartialInventoryItem.description req_body;
     PartialInventoryItem.quantity := PartialInventoryItem.quantity req_body;
     PartialInventoryItem.unitPrice := PartialInventoryItem.unitPrice req_body;
     PartialInventoryItem.location := PartialInventoryItem.location req_body;
     PartialInventoryItem.purchaseDate := PartialInventoryItem.purchaseDate req_body;
     PartialInventoryItem.status := PartialInventoryItem.status req_body;
     PartialInventoryItem.customFields := PartialInventoryItem.customFields req_body;
     PartialInventoryItem.createdAt := PartialInventoryItem.createdAt req_body;
     PartialInventoryItem.updatedAt := PartialInventoryItem.updatedAt req_body;
     PartialInventoryItem.createdBy := Some userId;
     PartialInventoryItem.updatedBy := Some userId |}.

(** [{ ...req.body, updatedBy: user.id }] *)
Definition with_updatedBy (req_body : PartialInventoryItem.t) (userId : Z)
  : PartialInventoryItem.t :=
  {| PartialInventoryItem.id := PartialInventoryItem.id req_body;
     PartialInventoryItem.companyId := PartialInventoryItem.companyId req_body;
     PartialInventoryItem.departmentId := PartialInventoryItem.departmentId req_body;
     PartialInventoryItem.assetId := PartialInventoryItem.assetId req_body;
     PartialInventoryItem.name := PartialInventoryItem.name req_body;
     PartialInventoryItem.description := PartialInventoryItem.description req_body;
     PartialInventoryItem.quantity := PartialInventoryItem.quantity req_body;
     PartialInventoryItem.unitPrice := PartialInventoryItem.unitPrice req_body;
     PartialInventoryItem.location := PartialInventoryItem.location req_body;
     PartialInventoryItem.purchaseDate := PartialInventoryItem.purchaseDate req_body;
     PartialInventoryItem.status := PartialInventoryItem.status req_body;
     PartialInventoryItem.customFields := PartialInventoryItem.customFields req_body;
     PartialInventoryItem.createdAt := PartialInventoryItem.createdAt req_body;
     PartialInventoryItem.updatedAt := PartialInventoryItem.updatedAt req_body;
     PartialInventoryItem.createdBy := PartialInventoryItem.createdBy req_body;
     PartialInventoryItem.updatedBy := Some userId |}.

(** [{ ...item, updatedAt: now }] *)
Definition with_updatedAt (item : InventoryItem.t) (now : Date) : InventoryItem.t :=
  {| InventoryItem.id := InventoryItem.id item;
     InventoryItem.companyId := InventoryItem.companyId item;
     InventoryItem.departmentId := InventoryItem.departmentId item;
     InventoryItem.assetId := InventoryItem.assetId item;
     InventoryItem.name := InventoryItem.name item;
     InventoryItem.description := InventoryItem.description item;
     InventoryItem.quantity := InventoryItem.quantity item;
     InventoryItem.unitPrice := InventoryItem.unitPrice item;
     InventoryItem.location := InventoryItem.location item;
     InventoryItem.purchaseDate := InventoryItem.purchaseDate item;
     InventoryItem.status := InventoryItem.status item;
     InventoryItem.customFields := InventoryItem.customFields item;
     InventoryItem.createdAt := InventoryItem.createdAt item;
     InventoryItem.updatedAt := now;
     InventoryItem.createdBy := InventoryItem.createdBy item;
     InventoryItem.updatedBy := InventoryItem.updatedBy item |}.

(** [{ ...logData, id, createdAt: now }] *)
Definition spread_log (logData : InsertActivityLog.t) (id : Z) (now : Date)
  : ActivityLog.t :=
  {| ActivityLog.id := id;
     ActivityLog.action := InsertActivityLog.action logData;
     ActivityLog.itemId := InsertActivityLog.itemId logData;
     ActivityLog.assetId := InsertActivityLog.assetId logData;
     ActivityLog.itemName := InsertActivityLog.itemName logData;
     ActivityLog.departmentName := InsertActivityLog.departmentName logData;
     ActivityLog.userId := InsertActivityLog.userId logData;
     ActivityLog.userName := InsertActivityLog.userName logData;
     ActivityLog.companyId := InsertActivityLog.companyId logData;
     ActivityLog.createdAt := now |}.

(** ** Storage state

    The private fields of [MemStorage]: one [Map] per entity kind and the
    next id of each.  [DatabaseStorage] keeps the same rows in the tables of
    the durable store, keyed by primary key, with one serial sequence per
    table. *)
Record Tables : Type := mkTables {
  users : gmap Z User.t;
  companies : gmap Z Company.t;
  departments : gmap Z Department.t;
  userDepartments : gmap Z UserDepartment.t;
  customFields : gmap Z CustomField.t;
  inventoryItems : gmap Z InventoryItem.t;
  activityLogs : gmap Z ActivityLog.t;
  userIdCounter : Z;
  companyIdCounter : Z;
  departmentIdCounter : Z;
  userDepartmentIdCounter : Z;
  customFieldIdCounter : Z;
  inventoryItemIdCounter : Z;
  activityLogIdCounter : Z
}.

(** The state built by [MemStorage]'s constructor. *)
Definition new_tables : Tables :=
  mkTables ∅ ∅ ∅ ∅ ∅ ∅ ∅ 1 1 1 1 1 1 1.

Definition set_companies (f : gmap Z Company.t -> gmap Z Company.t) (s : Tables) : Tables :=
  mkTables (users s) (f (companies s)) (departments s) (userDepartments s)
    (customFields s) (inventoryItems s) (activityLogs s)
    (userIdCounter s) (companyIdCounter s) (departmentIdCounter s)
    (userDepartmentIdCounter s) (customFieldIdCounter s)
    (inventoryItemIdCounter s) (activityLogIdCounter s).

Definition set_departments (f : gmap Z Department.t -> gmap Z Department.t) (s : Tables)
  : Tables :=
  mkTables (users s) (companies s) (f (departments s)) (userDepartments s)
    (customFields s) (inventoryItems s) (activityLogs s)
    (userIdCounter s) (companyIdCounter s) (departmentIdCounter s)
    (userDepartmentIdCounter s) (customFieldIdCounter s)
    (inventoryItemIdCounter s) (activityLogIdCounter s).

Definition set_userDepartments
    (f : gmap Z UserDepartment.t -> gmap Z UserDepartment.t) (s : Tables) : Tables :=
  mkTables (users s) (companies s) (departments s) (f (userDepartments s))
    (customFields s) (inventoryItems s) (activityLogs s)
    (userIdCounter s) (companyIdCounter s) (departmentIdCounter s)
    (userDepartmentIdCounter s) (customFieldIdCounter s)
    (inventoryItemIdCounter s) (activityLogIdCounter s).

Definition set_inventoryItems
    (f : gmap Z InventoryItem.t -> gmap Z InventoryItem.t) (s : Tables) : Tables :=
  mkTables (users s) (companies s) (departments s) (userDepartments s)
    (customFields s) (f (inventoryItems s)) (activityLogs s)
    (userIdCounter s) (companyIdCounter s) (departmentIdCounter s)
    (userDepartmentIdCounter s) (customFieldIdCounter s)
    (inventoryItemIdCounter s) (activityLogIdCounter s).

Definition set_activityLogs
    (f : gmap Z ActivityLog.t -> gmap Z ActivityLog.t) (s : Tables) : Tables :=
  mkTables (users s) (companies s) (departments s) (userDepartments s)
    (customFields s) (inventoryItems s) (f (activityLogs s))
    (userIdCounter s) (companyIdCounter s) (departmentIdCounter s)
    (userDepartmentIdCounter s) (customFieldIdCounter s)
    (inventoryItemIdCounter s) (activityLogIdCounter s).

Definition set_companyIdCounter (n : Z) (s : Tables) : Tables :=
  mkTables (users s) (companies s) (departments s) (userDepartments s)
    (customFields s) (inventoryItems s) (activityLogs s)
    (userIdCounter s) n (departmentIdCounter s)
    (userDepartmentIdCounter s) (customFieldIdCounter s)
    (inventoryItemIdCounter s) (activityLogIdCounter s).

Definition set_departmentIdCounter (n : Z) (s : Tables) : Tables :=
  mkTables (users s) (companies s) (departments s) (userDepartments s)
    (customFields s) (inventoryItems s) (activityLogs s)
    (userIdCounter s) (companyIdCounter s) n
    (userDepartmentIdCounter s) (customFieldIdCounter s)
    (inventoryItemIdCounter s) (activityLogIdCounter s).

Definition set_userDepartmentIdCounter (n : Z) (s : Tables) : Tables :=
  mkTables (users s) (companies s) (departments s) (userDepartments s)
    (customFields s) (inventoryItems s) (activityLogs s)
    (userIdCounter s) (companyIdCounter s) (departmentIdCounter s)
    n (customFieldIdCounter s)
    (inventoryItemIdCounter s) (activityLogIdCounter s).

Definition set_inventoryItemIdCounter (n : Z) (s : Tables) : Tables :=
  mkTables (users s) (companies s) (departments s) (userDepartments s)
    (customFields s) (inventoryItems s) (activityLogs s)
    (userIdCounter s) (companyIdCounter s) (departmentIdCounter s)
    (userDepartmentIdCounter s) (customFieldIdCounter s)
    n (activityLogIdCounter s).

Definition set_activityLogIdCounter (n : Z) (s : Tables) : Tables :=
  mkTables (users s) (companies s) (departments s) (userDepartments s)
    (customFields s) (inventoryItems s) (activityLogs s)
    (userIdCounter s) (companyIdCounter s) (departmentIdCounter s)
    (userDepartmentIdCounter s) (customFieldIdCounter s)
    (inventoryItemIdCounter s) n.

(** ** Computations that read and write a store and may throw

    A rejected promise or a [throw] ends the computation with [Throw]; the
    writes made before it stay in the state, as they do in a [Map] and in a
    store written one statement at a time. *)
Inductive Error : Type :=
  | JsError (message : string)
  | ZodError
  | StoreError.

Inductive Result (A : Type) : Type :=
  | Ok (a : A)
  | Throw (e : Error).
Arguments Ok {A} a.
Arguments Throw {A} e.

Definition M (S A : Type) : Type := S -> Result A * S.

Definition ret {S A} (a : A) : M S A := fun s => (Ok a, s).

Definition bind {S A B} (m : M S A) (k : A -> M S B) : M S B :=
  fun s =>
    match m s with
    | (Ok a, s') => k a s'
    | (Throw e, s') => (Throw e, s')
    end.

Definition throw {S A} (e : Error) : M S A := fun s => (Throw e, s).

Definition gets {S A} (f : S -> A) : M S A := fun s => (Ok (f s), s).

Definition modify {S} (f : S -> S) : M S unit := fun s => (Ok tt, f s).

(** [try { ... } catch (error) { ... }] around a handler body. *)
Definition try_catch {S A} (m : M S A) (handler : Error -> A) : S -> A * S :=
  fun s =>
    match m s with
    | (Ok a, s') => (a, s')
    | (Throw e, s') => (handler e, s')
    end.

Declare Scope storage_scope.
Delimit Scope storage_scope with storage.
Notation "'let!' x ':=' m 'in' k" := (bind m (fun x => k))
  (at level 10, x name, m at level 100, k at level 200) : storage_scope.
Notation "'do!' m 'in' k" := (bind m (fun _ => k))
  (at level 10, m at level 100, k at level 200) : storage_scope.
Local Open Scope storage_scope.

(** ** The storage interface ([IStorage]), restricted to the methods that
    issue asset ids, account capacity, and serve the inventory routes.
    A method that calls [new Date()] takes the date it reads. *)
Module IStorage.
Record t (S : Type) : Type := mk {
  getCompany : Z -> M S (option Company.t);
  getDepartment : Z -> option Z -> M S (option Department.t);
  updateDepartment : Z -> PartialDepartment.t -> M S Department.t;
  getUserDepartments : Z -> M S (list UserDepartment.t);
  createInventoryItem : Date -> InsertInventoryItem.t -> M S InventoryItem.t;
  getInventoryItem : Z -> M S (option InventoryItem.t);
  updateInventoryItem : Date -> Z -> PartialInventoryItem.t -> M S InventoryItem.t;
  deleteInventoryItem : Z -> M S unit;
  createActivityLog : Date -> InsertActivityLog.t -> M S ActivityLog.t;
  generateAssetId : Z -> M S string
}.
Arguments getCompany {S} _ _.
Arguments getDepartment {S} _ _ _.
Arguments updateDepartment {S} _ _ _.
Arguments getUserDepartments {S} _ _.
Arguments createInventoryItem {S} _ _ _.
Arguments getInventoryItem {S} _ _.
Arguments updateInventoryItem {S} _ _ _ _.
Arguments deleteInventoryItem {S} _ _.
Arguments createActivityLog {S} _ _ _.
Arguments generateAssetId {S} _ _.
End IStorage.

Definition not_found (kind : string) (id : Z) : Error :=
  JsError (kind +:+ " with id " +:+ toString id +:+ " not found").

(** The order of two entries by their keys. *)
Definition key_le {A} (a b : Z * A) : Prop := a.1 <= b.1.

Global Instance key_le_dec {A} : RelDecision (@key_le A) :=
  fun a b => decide (a.1 <= b.1).

(** [Array.from(map.values())]: a [Map] iterates in insertion order, and
    every map of [MemStorage] receives its keys from a counter that only
    grows (rewriting a row under its key keeps its place), so the values
    come in the order of their ids. *)
Definition values {A} (m : gmap Z A) : list A :=
  (merge_sort key_le (map_to_list m)).*2.

(** ** [class MemStorage implements IStorage] *)
Module MemStorage.

Definition getCompany (id : Z) : M Tables (option Company.t) :=
  gets (fun s => companies s !! id).

Definition getDepartment (id : Z) (companyId : option Z)
  : M Tables (option Department.t) :=
  let! department := gets (fun s => departments s !! id) in
  match department, companyId with
  | Some d, Some c =>
      if decide (Department.companyId d = c) then ret department else ret None
  | _, _ => ret department
  end.

Definition createDepartment (now : Date) (departmentData : InsertDepartment.t)
  : M Tables Department.t :=
  let! id := gets departmentIdCounter in
  do! modify (set_departmentIdCounter (id + 1)) in
  let department :=
    {| Department.id := id;
       Department.companyId := InsertDepartment.companyId departmentData;
       Department.name := InsertDepartment.name departmentData;
       Department.assetCount := 0;
       Department.capacityUsed := 0;
       Department.createdAt := now |} in
  do! modify (set_departments <[id := department]>) in
  ret department.

(** [now] is the date [createCompany] reads, [now_department] the one that
    [createDepartment] reads when it is called for the "General"
    department. *)
Definition createCompany (now now_department : Date) (companyData : InsertCompany.t)
  : M Tables Company.t :=
  let! id := gets companyIdCounter in
  do! modify (set_companyIdCounter (id + 1)) in
  let company :=
    {| Company.id := id;
       Company.name := InsertCompany.name companyData;
       Company.assetIdPattern := str_or (InsertCompany.assetIdPattern companyData) "A-####";
       Company.currentAssetId := 1;
       Company.subscriptionTier := str_or (InsertCompany.subscriptionTier companyData) "free";
       Company.subscriptionStatus :=
         str_or (InsertCompany.subscriptionStatus companyData) "active";
       Company.createdAt := now |} in
  do! modify (set_companies <[id := company]>) in
  do! createDepartment now_department
        {| InsertDepartment.name := "General"; InsertDepartment.companyId := id |} in
  ret company.

Definition updateDepartment (id : Z) (data : PartialDepartment.t)
  : M Tables Department.t :=
  let! department := gets (fun s => departments s !! id) in
  match department with
  | None => throw (not_found "Department" id)
  | Some department =>
      let updatedDepartment := spread_department department data in
      do! modify (set_departments <[id := updatedDepartment]>) in
      ret updatedDepartment
  end.

Definition assignUserToDepartment (now : Date) (userId departmentId : Z)
  : M Tables UserDepartment.t :=
  let! id := gets userDepartmentIdCounter in
  do! modify (set_userDepartmentIdCounter (id + 1)) in
  let userDepartment :=
    {| UserDepartment.id := id;
       UserDepartment.userId := userId;
       UserDepartment.departmentId := departmentId;
       UserDepartment.createdAt := now |} in
  do! modify (set_userDepartments <[id := userDepartment]>) in
  ret userDepartment.

Definition getUserDepartments (userId : Z) : M Tables (list UserDepartment.t) :=
  gets (fun s =>
    filter (fun ud => UserDepartment.userId ud = userId) (values (userDepartments s))).

Definition generateAssetId (companyId : Z) : M Tables string :=
  let! company := getCompany companyId in
  match company with
  | None => throw (not_found "Company" companyId)
  | Some company =>
      let pattern := Company.assetIdPattern company in
      let currentId := Company.currentAssetId company in
      let assetId := render_asset_id pattern currentId in
      let updatedCompany :=
        {| Company.id := Company.id company;
           Company.name := Company.name company;
           Company.assetIdPattern := Company.assetIdPattern company;
           Company.currentAssetId := currentId + 1;
           Company.subscriptionTier := Company.subscriptionTier company;
           Company.subscriptionStatus := Company.subscriptionStatus company;
           Company.createdAt := Company.createdAt company |} in
      do! modify (set_companies <[companyId := updatedCompany]>) in
      ret assetId
  end.

Definition createInventoryItem (now : Date) (itemData : InsertInventoryItem.t)
  : M Tables InventoryItem.t :=
  let! id := gets inventoryItemIdCounter in
  do! modify (set_inventoryItemIdCounter (id + 1)) in
  let! assetId := generateAssetId (InsertInventoryItem.companyId itemData) in
  let inventoryItem :=
    {| InventoryItem.id := id;
       InventoryItem.companyId := InsertInventoryItem.companyId itemData;
       InventoryItem.departmentId := InsertInventoryItem.departmentId itemData;
       InventoryItem.assetId := assetId;
       InventoryItem.name := InsertInventoryItem.name itemData;
       InventoryItem.description := str_or_null (InsertInventoryItem.description itemData);
       InventoryItem.quantity := InsertInventoryItem.quantity itemData;
       InventoryItem.unitPrice := num_or_null (InsertInventoryItem.unitPrice itemData);
       InventoryItem.location := str_or_null (InsertInventoryItem.location itemData);
       InventoryItem.purchaseDate := InsertInventoryItem.purchaseDate itemData;
       InventoryItem.status := str_or (InsertInventoryItem.status itemData) "active";
       InventoryItem.customFields :=
         str_or_null (InsertInventoryItem.customFields itemData);
       InventoryItem.createdAt := now;
       InventoryItem.updatedAt := now;
       InventoryItem.createdBy := InsertInventoryItem.createdBy itemData;
       InventoryItem.updatedBy := InsertInventoryItem.updatedBy itemData |} in
  do! modify (set_inventoryItems <[id := inventoryItem]>) in
  let! department := getDepartment (InsertInventoryItem.departmentId itemData) None in
  do! match department with
      | Some department =>
          do! updateDepartment (Department.id department)
                {| PartialDepartment.id := None;
                   PartialDepartment.companyId := None;
                   PartialDepartment.name := None;
                   PartialDepartment.assetCount := Some (Department.assetCount department + 1);
                   PartialDepartment.capacityUsed :=
                     Some (Department.capacityUsed department + 10);
                   PartialDepartment.createdAt := None |} in
          ret tt
      | None => ret tt
      end in
  ret inventoryItem.

Definition getInventoryItem (id : Z) : M Tables (option InventoryItem.t) :=
  gets (fun s => inventoryItems s !! id).

Definition updateInventoryItem (now : Date) (id : Z) (data : PartialInventoryItem.t)
  : M Tables InventoryItem.t :=
  let! item := gets (fun s => inventoryItems s !! id) in
  match item with
  | None => throw (not_found "Inventory item" id)
  | Some item =>
      let updatedItem := with_updatedAt (spread_item item data) now in
      do! modify (set_inventoryItems <[id := updatedItem]>) in
      ret updatedItem
  end.

Definition deleteInventoryItem (id : Z) : M Tables unit :=
  let! item := gets (fun s => inventoryItems s !! id) in
  match item with
  | None => throw (not_found "Inventory item" id)
  | Some item =>
      let! department := getDepartment (InventoryItem.departmentId item) None in
      do! match department with
          | Some department =>
              do! updateDepartment (Department.id department)
                    {| PartialDepartment.id := None;
                       PartialDepartment.companyId := None;
                       PartialDepartment.name := None;
                       PartialDepartment.assetCount :=
                         Some (Z.max 0 (Department.assetCount department - 1));
                       PartialDepartment.capacityUsed :=
                         Some (Z.max 0 (Department.capacityUsed department - 10));
                       PartialDepartment.createdAt := None |} in
              ret tt
          | None => ret tt
          end in
      modify (set_inventoryItems (delete id))
  end.

Definition createActivityLog (now : Date) (logData : InsertActivityLog.t)
  : M Tables ActivityLog.t :=
  let! id := gets activityLogIdCounter in
  do! modify (set_activityLogIdCounter (id + 1)) in
  let activityLog := spread_log logData id now in
  do! modify (set_activityLogs <[id := activityLog]>) in
  ret activityLog.

Definition storage : IStorage.t Tables :=
  IStorage.mk Tables getCompany getDepartment updateDepartment getUserDepartments
    createInventoryItem getInventoryItem updateInventoryItem deleteInventoryItem
    createActivityLog generateAssetId.

End MemStorage.

(** ** [class DatabaseStorage implements IStorage] *)

(** Modelled from the spec: the handle [db] of [./db], which is not among
    the sources.  Section 5: every store call is a round trip that the
    caller must treat as independently failable; the class opens no
    transaction, so each awaited statement is applied by itself.  The state
    is the tables together with the outcome of the statements still to
    come: [true] at the head makes the next statement fail (the promise
    rejects and the tables are not touched), an exhausted list lets every
    further statement succeed. *)
Record Db : Type := mkDb {
  tables : Tables;
  faults : list bool
}.

Definition statement {A} (q : Tables -> A * Tables) : M Db A :=
  fun s =>
    match faults s with
    | true :: rest => (Throw StoreError, mkDb (tables s) rest)
    | false :: rest => let (a, t) := q (tables s) in (Ok a, mkDb t rest)
    | [] => let (a, t) := q (tables s) in (Ok a, mkDb t [])
    end.

(** [db.select().from(table).where(eq(table.id, id))], then [result[0]]. *)
Definition select_by_id {A} (table : Tables -> gmap Z A) (id : Z) : M Db (option A) :=
  statement (fun t => (table t !! id, t)).

Module DatabaseStorage.

Definition getCompany (id : Z) : M Db (option Company.t) :=
  select_by_id companies id.

Definition getDepartment (id : Z) (_ : option Z) : M Db (option Department.t) :=
  select_by_id departments id.

Definition updateDepartment (id : Z) (data : PartialDepartment.t) : M Db Department.t :=
  let! result :=
    statement (fun t =>
      let t' := set_departments (alter (fun row => spread_department row data) id) t in
      (departments t' !! id, t')) in
  match result with
  | None => throw (not_found "Department" id)
  | Some row => ret row
  end.

(** The rows come as they were inserted, in the order of their ids. *)
Definition getUserDepartments (userId : Z) : M Db (list UserDepartment.t) :=
  statement (fun t =>
    (filter (fun ud => UserDepartment.userId ud = userId) (values (userDepartments t)), t)).

Definition generateAssetId (companyId : Z) : M Db string :=
  let! company := getCompany companyId in
  match company with
  | None => throw (not_found "Company" companyId)
  | Some company =>
      let pattern := Company.assetIdPattern company in
      let currentId := Company.currentAssetId company in
      let assetId := render_asset_id pattern currentId in
      do! statement (fun t =>
            (tt, set_companies
                   (alter (fun row =>
                      {| Company.id := Company.id row;
                         Company.name := Company.name row;
                         Company.assetIdPattern := Company.assetIdPattern row;
                         Company.currentAssetId := currentId + 1;
                         Company.subscriptionTier := Company.subscriptionTier row;
                         Company.subscriptionStatus := Company.subscriptionStatus row;
                         Company.createdAt := Company.createdAt row |}) companyId) t)) in
      ret assetId
  end.

Definition createInventoryItem (now : Date) (itemData : InsertInventoryItem.t)
  : M Db InventoryItem.t :=
  let! assetId := generateAssetId (InsertInventoryItem.companyId itemData) in
  let! item :=
    statement (fun t =>
      let id := inventoryItemIdCounter t in
      let row :=
        {| InventoryItem.id := id;
           InventoryItem.companyId := InsertInventoryItem.companyId itemData;
           InventoryItem.departmentId := InsertInventoryItem.departmentId itemData;
           InventoryItem.assetId := assetId;
           InventoryItem.name := InsertInventoryItem.name itemData;
           InventoryItem.description :=
             str_or_null (InsertInventoryItem.description itemData);
           InventoryItem.quantity := InsertInventoryItem.quantity itemData;
           InventoryItem.unitPrice := InsertInventoryItem.unitPrice itemData;
           InventoryItem.location := str_or_null (InsertInventoryItem.location itemData);
           InventoryItem.purchaseDate := InsertInventoryItem.purchaseDate itemData;
           InventoryItem.status := str_or (InsertInventoryItem.status itemData) "active";
           InventoryItem.customFields :=
             str_or_null (InsertInventoryItem.customFields itemData);
           InventoryItem.createdAt := now;
           InventoryItem.updatedAt := now;
           InventoryItem.createdBy := InsertInventoryItem.createdBy itemData;
           InventoryItem.updatedBy := InsertInventoryItem.updatedBy itemData |} in
      (row, set_inventoryItems <[id := row]> (set_inventoryItemIdCounter (id + 1) t))) in
  let! department := getDepartment (InsertInventoryItem.departmentId itemData) None in
  do! match department with
      | Some department =>
          do! updateDepartment (Department.id department)
                {| PartialDepartment.id := None;
                   PartialDepartment.companyId := None;
                   PartialDepartment.name := None;
                   PartialDepartment.assetCount := Some (Department.assetCount department + 1);
                   PartialDepartment.capacityUsed :=
                     Some (Department.capacityUsed department + 10);
                   PartialDepartment.createdAt := None |} in
          ret tt
      | None => ret tt
      end in
  ret item.

Definition getInventoryItem (id : Z) : M Db (option InventoryItem.t) :=
  select_by_id inventoryItems id.

Definition updateInventoryItem (now : Date) (id : Z) (data : PartialInventoryItem.t)
  : M Db InventoryItem.t :=
  let! result :=
    statement (fun t =>
      let set_row row := with_updatedAt (spread_item row data) now in
      let t' := set_inventoryItems (alter set_row id) t in
      (inventoryItems t' !! id, t')) in
  match result with
  | None => throw (not_found "Inventory item" id)
  | Some row => ret row
  end.

Definition deleteInventoryItem (id : Z) : M Db unit :=
  let! item := getInventoryItem id in
  match item with
  | None => throw (not_found "Inventory item" id)
  | Some item =>
      let! department := getDepartment (InventoryItem.departmentId item) None in
      do! match department with
          | Some department =>
              do! updateDepartment (Department.id department)
                    {| PartialDepartment.id := None;
                       PartialDepartment.companyId := None;
                       PartialDepartment.name := None;
                       PartialDepartment.assetCount :=
                         Some (Z.max 0 (Department.assetCount department - 1));
                       PartialDepartment.capacityUsed :=
                         Some (Z.max 0 (Department.capacityUsed department - 10));
                       PartialDepartment.createdAt := None |} in
              ret tt
          | None => ret tt
          end in
      statement (fun t => (tt, set_inventoryItems (delete id) t))
  end.

Definition createActivityLog (now : Date) (logData : InsertActivityLog.t)
  : M Db ActivityLog.t :=
  statement (fun t =>
    let id := activityLogIdCounter t in
    let row := spread_log logData id now in
    (row, set_activityLogs <[id := row]> (set_activityLogIdCounter (id + 1) t))).

Definition storage : IStorage.t Db :=
  IStorage.mk Db getCompany getDepartment updateDepartment getUserDepartments
    createInventoryItem getInventoryItem updateInventoryItem deleteInventoryItem
    createActivityLog generateAssetId.

End DatabaseStorage.

(** ** The inventory handlers of [registerRoutes] *)

Inductive Body : Type :=
  | Message (message : string)
  | ZodErrors
  | ItemJson (item : InventoryItem.t).

Record Response : Type := mkResponse {
  status : Z;
  body : Body
}.

(** The [catch] blocks of the handlers. *)
Definition catch_post (error : Error) : Response :=
  match error with
  | ZodError => mkResponse 400 ZodErrors
  | _ => mkResponse 500 (Message "Server error")
  end.

Definition catch_500 (_ : Error) : Response :=
  mkResponse 500 (Message "Server error").

Section Routes.

Context {S : Type} (storage : IStorage.t S).

(** Modelled from the spec: [insertInventoryItemSchema.parse] of
    [@shared/schema], which is not among the sources; [None] stands for a
    thrown [ZodError] (section 4.1: creation fails with a validation error
    when required fields are missing or malformed). *)
Variable insertInventoryItemSchema_parse :
  PartialInventoryItem.t -> option InsertInventoryItem.t.

(** [user.role !== "admin"] followed by the membership test
    [userDepartments.some(ud => ud.departmentId === departmentId)]. *)
Definition hasDepartmentAccess (user : User.t) (departmentId : Z) : M S bool :=
  if decide (User.role user = "admin") then ret true
  else
    let! userDepartments := IStorage.getUserDepartments storage (User.id user) in
    ret (existsb (fun ud => bool_decide (UserDepartment.departmentId ud = departmentId))
                 userDepartments).

(** [(await storage.getDepartment(id))?.name || "Unknown"] *)
Definition departmentName_of (departmentId : Z) : M S string :=
  let! department := IStorage.getDepartment storage departmentId None in
  ret (str_or (Department.name <$> department) "Unknown").

(** [app.post("/api/inventory", ...)]; [t_item] and [t_log] are the dates
    read while the item and the log row are written. *)
Definition post_inventory (t_item t_log : Date) (user : User.t)
    (req_body : PartialInventoryItem.t) : S -> Response * S :=
  try_catch
    (match PartialInventoryItem.departmentId req_body with
     | None => ret (mkResponse 400 (Message "Department ID is required"))
     | Some departmentId =>
         if decide (departmentId = 0)
         then ret (mkResponse 400 (Message "Department ID is required"))
         else
           let! hasAccess := hasDepartmentAccess user departmentId in
           if negb hasAccess
           then ret (mkResponse 403 (Message "You don't have access to this department"))
           else
             let raw :=
               spread_partial_identity req_body (User.companyId user) (User.id user) in
             match insertInventoryItemSchema_parse raw with
             | None => throw ZodError
             | Some itemData =>
                 let! item := IStorage.createInventoryItem storage t_item itemData in
                 let! departmentName := departmentName_of (InventoryItem.departmentId item) in
                 do! IStorage.createActivityLog storage t_log
                       {| InsertActivityLog.action := "added";
                          InsertActivityLog.itemId := InventoryItem.id item;
                          InsertActivityLog.assetId := InventoryItem.assetId item;
                          InsertActivityLog.itemName := InventoryItem.name item;
                          InsertActivityLog.departmentName := departmentName;
                          InsertActivityLog.userId := User.id user;
                          InsertActivityLog.userName := User.name user;
                          InsertActivityLog.companyId := User.companyId user |} in
                 ret (mkResponse 201 (ItemJson item))
             end
     end)
    catch_post.

(** [app.put("/api/inventory/:id", ...)]; [itemId] is the parsed path
    parameter. *)
Definition put_inventory (t_item t_log : Date) (user : User.t) (itemId : Z)
    (req_body : PartialInventoryItem.t) : S -> Response * S :=
  try_catch
    (let! existingItem := IStorage.getInventoryItem storage itemId in
     match existingItem with
     | None => ret (mkResponse 404 (Message "Item not found"))
     | Some existingItem =>
         if negb (bool_decide (InventoryItem.companyId existingItem = User.companyId user))
         then ret (mkResponse 403 (Message "Access denied"))
         else
           let! hasAccess :=
             hasDepartmentAccess user (InventoryItem.departmentId existingItem) in
           if negb hasAccess
           then ret (mkResponse 403 (Message "You don't have access to this department"))
           else
             let! updatedItem :=
               IStorage.updateInventoryItem storage t_item itemId
                 (with_updatedBy req_body (User.id user)) in
             let! departmentName :=
               departmentName_of (InventoryItem.departmentId updatedItem) in
             do! IStorage.createActivityLog storage t_log
                   {| InsertActivityLog.action := "updated";
                      InsertActivityLog.itemId := InventoryItem.id updatedItem;
                      InsertActivityLog.assetId := InventoryItem.assetId updatedItem;
                      InsertActivityLog.itemName := InventoryItem.name updatedItem;
                      InsertActivityLog.departmentName := departmentName;
                      InsertActivityLog.userId := User.id user;
                      InsertActivityLog.userName := User.name user;
                      InsertActivityLog.companyId := User.companyId user |} in
             ret (mkResponse 200 (ItemJson updatedItem))
     end)
    catch_500.

(** [app.delete("/api/inventory/:id", ...)] *)
Definition delete_inventory (t_log : Date) (user : User.t) (itemId : Z)
  : S -> Response * S :=
  try_catch
    (let! existingItem := IStorage.getInventoryItem storage itemId in
     match existingItem with
     | None => ret (mkResponse 404 (Message "Item not found"))
     | Some existingItem =>
         if negb (bool_decide (InventoryItem.companyId existingItem = User.companyId user))
         then ret (mkResponse 403 (Message "Access denied"))
         else if negb (bool_decide (User.role user = "admin"))
         then ret (mkResponse 403 (Message "Only admins can delete items"))
         else
           let itemName := InventoryItem.name existingItem in
           let! departmentName :=
             departmentName_of (InventoryItem.departmentId existingItem) in
           let assetId := InventoryItem.assetId existingItem in
           do! IStorage.deleteInventoryItem storage itemId in
           do! IStorage.createActivityLog storage t_log
                 {| InsertActivityLog.action := "removed";
                    InsertActivityLog.itemId := itemId;
                    InsertActivityLog.assetId := assetId;
                    InsertActivityLog.itemName := itemName;
                    InsertActivityLog.departmentName := departmentName;
                    InsertActivityLog.userId := User.id user;
                    InsertActivityLog.userName := User.name user;
                    InsertActivityLog.companyId := User.companyId user |} in
           ret (mkResponse 200 (Message "Item deleted successfully"))
     end)
    catch_500.

End Routes.

(** ** Vocabulary of the statements about patterns *)

Fixpoint no_hash (s : string) : bool :=
  match s with
  | EmptyString => true
  | String c s' => negb (is_hash c) && no_hash s'
  end.

Definition starts_with_hash (s : string) : bool :=
  match s with
  | EmptyString => false
  | String c _ => is_hash c
  end.

(** The number of maximal runs of ['#'] in a pattern. *)
Fixpoint count_runs (s : string) (in_run : bool) : nat :=
  match s with
  | EmptyString => O
  | String c s' =>
      if is_hash c then (if in_run then O else 1%nat) + count_runs s' true
      else count_runs s' false
  end.

(** A pattern cut at its runs: each segment is a literal text followed by
    a run of ['#'] of the given length; [tail] is the literal text after
    the last run. *)
Fixpoint pattern_of (segments : list (string * nat)) (tail : string) : string :=
  match segments with
  | [] => tail
  | (lit, k) :: rest => lit +:+ hashes k +:+ pattern_of rest tail
  end.

(** Every segment's run is filled with the padded counter. *)
Fixpoint filled_of (segments : list (string * nat)) (tail : string) (n : Z) : string :=
  match segments with
  | [] => tail
  | (lit, k) :: rest =>
      lit +:+ padStart (toString n) k "0"%char +:+ filled_of rest tail n
  end.

(** The runs of the segments are non-empty and maximal: literals hold no
    ['#'] and only the first literal may be empty. *)
Fixpoint segments_ok (segments : list (string * nat)) : Prop :=
  match segments with
  | [] => True
  | (lit, k) :: rest =>
      no_hash lit = true /\ (0 < k)%nat /\
      match rest with
      | [] => True
      | (lit', _) :: _ => lit' <> EmptyString
      end /\ segments_ok rest
  end.

(** The reading of section 4.2 of the specification for several runs:
    only the first run receives the counter, the rest of the pattern is
    copied as it is.  [seen] is the length of the first run read so far. *)
Fixpoint spec_first_run_scan (f : string -> string) (s : string) (run : nat) : string :=
  match s with
  | EmptyString => flush f run
  | String c s' =>
      if is_hash c then spec_first_run_scan f s' (S run)
      else
        match run with
        | O => String c (spec_first_run_scan f s' O)
        | S _ => f (hashes run) +:+ String c s'
        end
  end.

Definition spec_first_run_only (pattern : string) (currentId : Z) : string :=
  spec_first_run_scan (pad_counter currentId) pattern O.

(** ** Vocabulary of the statements about the stores *)

(** [c'] is [c] with another counter value and nothing else changed. *)
Definition same_but_counter (c c' : Company.t) : Prop :=
  Company.id c' = Company.id c /\
  Company.name c' = Company.name c /\
  Company.assetIdPattern c' = Company.assetIdPattern c /\
  Company.subscriptionTier c' = Company.subscriptionTier c /\
  Company.subscriptionStatus c' = Company.subscriptionStatus c /\
  Company.createdAt c' = Company.createdAt c.

(** A store with one registered company, as [createCompany] leaves it:
    the company has id 1, the default pattern ["A-####"], counter 1, and
    the department "General" with id 1. *)
Definition acme : InsertCompany.t :=
  {| InsertCompany.name := "Acme";
     InsertCompany.assetIdPattern := None;
     InsertCompany.subscriptionTier := None;
     InsertCompany.subscriptionStatus := None |}.

Definition acme_tables : Tables := (MemStorage.createCompany 0 0 acme new_tables).2.

(** The same store with another pattern and counter for company 1. *)
Definition with_pattern (pattern : string) (counter : Z) (s : Tables) : Tables :=
  set_companies
    (alter (fun c =>
       {| Company.id := Company.id c;
          Company.name := Company.name c;
          Company.assetIdPattern := pattern;
          Company.currentAssetId := counter;
          Company.subscriptionTier := Company.subscriptionTier c;
          Company.subscriptionStatus := Company.subscriptionStatus c;
          Company.createdAt := Company.createdAt c |}) 1) s.

(** The row of company 1 in such a store. *)
Definition acme_company (pattern : string) (counter : Z) : Company.t :=
  Company.mk 1 "Acme" pattern counter "free" "active" 0.

(** The company row after one issuance. *)
Definition bump_counter (c : Company.t) : Company.t :=
  {| Company.id := Company.id c;
     Company.name := Company.name c;
     Company.assetIdPattern := Company.assetIdPattern c;
     Company.currentAssetId := Company.currentAssetId c + 1;
     Company.subscriptionTier := Company.subscriptionTier c;
     Company.subscriptionStatus := Company.subscriptionStatus c;
     Company.createdAt := Company.createdAt c |}.

(** The department row after the accounting of one created item, and of
    one deleted item. *)
Definition add_item (d : Department.t) : Department.t :=
  {| Department.id := Department.id d;
     Department.companyId := Department.companyId d;
     Department.name := Department.name d;
     Department.assetCount := Department.assetCount d + 1;
     Department.capacityUsed := Department.capacityUsed d + 10;
     Department.createdAt := Department.createdAt d |}.

Definition remove_item (d : Department.t) : Department.t :=
  {| Department.id := Department.id d;
     Department.companyId := Department.companyId d;
     Department.name := Department.name d;
     Department.assetCount := Z.max 0 (Department.assetCount d - 1);
     Department.capacityUsed := Z.max 0 (Department.capacityUsed d - 10);
     Department.createdAt := Department.createdAt d |}.

(** Every department row is stored under its own id. *)
Definition departments_keyed (s : Tables) : Prop :=
  map_Forall (fun k d => Department.id d = k) (departments s).

(** No department has a negative item count or capacity-used. *)
Definition counters_nonneg (s : Tables) : Prop :=
  map_Forall (fun _ d => 0 <= Department.assetCount d /\ 0 <= Department.capacityUsed d)
    (departments s).

(** The ids not yet handed out are free in the activity log. *)
Definition log_ids_fresh (s : Tables) : Prop :=
  map_Forall (fun k _ => k < activityLogIdCounter s) (activityLogs s).

(** Creations and deletions one after the other. *)
Fixpoint create_items (requests : list (Date * InsertInventoryItem.t))
  : M Tables (list InventoryItem.t) :=
  match requests with
  | [] => ret []
  | (now, itemData) :: rest =>
      let! item := MemStorage.createInventoryItem now itemData in
      let! items := create_items rest in
      ret (item :: items)
  end.

Fixpoint delete_items (ids : list Z) : M Tables unit :=
  match ids with
  | [] => ret tt
  | id :: rest => do! MemStorage.deleteInventoryItem id in delete_items rest
  end.

(** Any mix of creations and deletions; a call that throws leaves the
    store as it is at the throw and the next call goes on from there. *)
Inductive InventoryOp : Type :=
  | OpCreate (now : Date) (itemData : InsertInventoryItem.t)
  | OpDelete (id : Z).

Definition run_op (s : Tables) (op : InventoryOp) : Tables :=
  match op with
  | OpCreate now itemData => (MemStorage.createInventoryItem now itemData s).2
  | OpDelete id => (MemStorage.deleteInventoryItem id s).2
  end.

Definition run_ops (ops : list InventoryOp) (s : Tables) : Tables :=
  fold_left run_op ops s.

(** A creation request of company 1 for the given department. *)
Definition widget (departmentId : Z) : InsertInventoryItem.t :=
  {| InsertInventoryItem.companyId := 1;
     InsertInventoryItem.departmentId := departmentId;
     InsertInventoryItem.name := "Widget";
     InsertInventoryItem.description := None;
     InsertInventoryItem.quantity := 1;
     InsertInventoryItem.unitPrice := None;
     InsertInventoryItem.location := None;
     InsertInventoryItem.purchaseDate := None;
     InsertInventoryItem.status := None;
     InsertInventoryItem.customFields := None;
     InsertInventoryItem.createdBy := 1;
     InsertInventoryItem.updatedBy := 1 |}.

(** The department that [createCompany] adds for company 1. *)
Definition general_department : Department.t :=
  Department.mk 1 1 "General" 0 0 0.

(** The activity log and its id counter are the same in both stores. *)
Definition same_logs (t t' : Tables) : Prop :=
  activityLogs t' = activityLogs t /\ activityLogIdCounter t' = activityLogIdCounter t.

(** What the routes rely on, for a storage whose state shows the tables
    [view]: reads return the row stored under the id and write nothing; a
    log write adds the row under the next log id; an update rewrites the
    one item row; creation and deletion leave the activity log alone. *)
Record Lawful {S : Type} (storage : IStorage.t S) (view : S -> Tables) : Prop := {
  law_getInventoryItem : forall id s r s',
    IStorage.getInventoryItem storage id s = (r, s') ->
    view s' = view s /\ forall o, r = Ok o -> o = inventoryItems (view s) !! id;
  law_getUserDepartments : forall userId s r s',
    IStorage.getUserDepartments storage userId s = (r, s') -> view s' = view s;
  law_getDepartment : forall id s r s',
    IStorage.getDepartment storage id None s = (r, s') ->
    view s' = view s /\ forall o, r = Ok o -> o = departments (view s) !! id;
  law_createActivityLog : forall now logData s r s',
    IStorage.createActivityLog storage now logData s = (r, s') ->
    match r with
    | Throw _ => view s' = view s
    | Ok row =>
        row = spread_log logData (activityLogIdCounter (view s)) now /\
        view s' = set_activityLogs <[activityLogIdCounter (view s) := row]>
                    (set_activityLogIdCounter (activityLogIdCounter (view s) + 1) (view s))
    end;
  law_updateInventoryItem : forall now id data s r s',
    IStorage.updateInventoryItem storage now id data s = (r, s') ->
    match r with
    | Throw _ => view s' = view s
    | Ok row =>
        exists old,
          inventoryItems (view s) !! id = Some old /\
          row = with_updatedAt (spread_item old data) now /\
          view s' = set_inventoryItems <[id := row]> (view s)
    end;
  law_deleteInventoryItem : forall id s r s',
    IStorage.deleteInventoryItem storage id s = (r, s') ->
    same_logs (view s) (view s') /\
    (r = Ok tt -> exists item,
       inventoryItems (view s) !! id = Some item /\
       inventoryItems (view s') = delete id (inventoryItems (view s)));
  law_createInventoryItem : forall now itemData s r s',
    IStorage.createInventoryItem storage now itemData s = (r, s') ->
    same_logs (view s) (view s') /\
    forall item, r = Ok item ->
      inventoryItems (view s') !! InventoryItem.id item = Some item
}.

(** Every run of [m], whether it returns or throws, relates the state
    before to the state after. *)
Definition steps {S A : Type} (R : S -> S -> Prop) (m : M S A) : Prop :=
  forall s r s', m s = (r, s') -> R s s'.

(** The department name a log row records for department [departmentId]
    when the tables are [t]. *)
Definition recorded_department_name (t : Tables) (departmentId : Z) : string :=
  str_or (Department.name <$> departments t !! departmentId) "Unknown".

(** From [t] to [t'] the activity log gained exactly one row, written from
    [logData] at date [now] under an id that held no row, and kept every
    row it had. *)
Definition logged_once (t t' : Tables) (now : Date) (logData : InsertActivityLog.t)
  : Prop :=
  activityLogs t !! activityLogIdCounter t = None /\
  activityLogs t'
  = <[activityLogIdCounter t := spread_log logData (activityLogIdCounter t) now]>
      (activityLogs t).

(** The log row contents the three mutations record. *)
Definition audit_entry (action : string) (itemId : Z) (assetId itemName : string)
    (departmentName : string) (user : User.t) : InsertActivityLog.t :=
  {| InsertActivityLog.action := action;
     InsertActivityLog.itemId := itemId;
     InsertActivityLog.assetId := assetId;
     InsertActivityLog.itemName := itemName;
     InsertActivityLog.departmentName := departmentName;
     InsertActivityLog.userId := User.id user;
     InsertActivityLog.userName := User.name user;
     InsertActivityLog.companyId := User.companyId user |}.

(** From [t] to [t'] the activity log gained exactly one row, under an id
    that held no row, and kept every row it had; the new row carries that
    id, the action, the item id, the asset id, the item name and the
    department name given, the user as its author, and the date [now]. *)
Definition log_gained (t t' : Tables) (now : Date) (action : string) (itemId : Z)
    (assetId itemName departmentName : string) (user : User.t) : Prop :=
  activityLogs t !! activityLogIdCounter t = None /\
  exists row,
    activityLogs t' = <[activityLogIdCounter t := row]> (activityLogs t) /\
    ActivityLog.id row = activityLogIdCounter t /\
    ActivityLog.action row = action /\
    ActivityLog.itemId row = itemId /\
    ActivityLog.assetId row = assetId /\
    ActivityLog.itemName row = itemName /\
    ActivityLog.departmentName row = departmentName /\
    ActivityLog.userId row = User.id user /\
    ActivityLog.userName row = User.name user /\
    ActivityLog.companyId row = User.companyId user /\
    ActivityLog.createdAt row = now.

(** From [t] to [t'] the activity log lost and changed no row (and the
    ids not yet handed out stay free). *)
Definition log_kept (t t' : Tables) : Prop :=
  log_ids_fresh t -> log_ids_fresh t' /\ activityLogs t ⊆ activityLogs t'.

(** ** The statements about the routes, for a storage whose state shows the
    tables [view] *)

(** Audit completeness: a request never removes or changes a log row, and
    a creation answered 201, an update answered 200 and a deletion answered
    200 each add exactly one row, whose action names the mutation and whose
    asset id, item name and department name are those of the item the
    mutation wrote (for a deletion: of the item as it was stored before the
    request). *)
Definition audit_complete {S : Type} (storage : IStorage.t S) (view : S -> Tables)
    (parse : PartialInventoryItem.t -> option InsertInventoryItem.t) : Prop :=
  forall (user : User.t) (s : S),
    log_ids_fresh (view s) ->
    (forall t_item t_log req_body resp s',
       post_inventory storage parse t_item t_log user req_body s = (resp, s') ->
       log_ids_fresh (view s') /\
       activityLogs (view s) ⊆ activityLogs (view s') /\
       (status resp = 201 ->
        exists item,
          body resp = ItemJson item /\
          inventoryItems (view s') !! InventoryItem.id item = Some item /\
          log_gained (view s) (view s') t_log "added"
            (InventoryItem.id item) (InventoryItem.assetId item) (InventoryItem.name item)
            (recorded_department_name (view s') (InventoryItem.departmentId item))
            user)) /\
    (forall t_item t_log itemId req_body resp s',
       put_inventory storage t_item t_log user itemId req_body s = (resp, s') ->
       log_ids_fresh (view s') /\
       activityLogs (view s) ⊆ activityLogs (view s') /\
       (status resp = 200 ->
        exists row,
          body resp = ItemJson row /\
          inventoryItems (view s') !! itemId = Some row /\
          log_gained (view s) (view s') t_log "updated"
            (InventoryItem.id row) (InventoryItem.assetId row) (InventoryItem.name row)
            (recorded_department_name (view s') (InventoryItem.departmentId row))
            user)) /\
    (forall t_log itemId resp s',
       delete_inventory storage t_log user itemId s = (resp, s') ->
       log_ids_fresh (view s') /\
       activityLogs (view s) ⊆ activityLogs (view s') /\
       (status resp = 200 ->
        exists existing,
          inventoryItems (view s) !! itemId = Some existing /\
          inventoryItems (view s') !! itemId = None /\
          log_gained (view s) (view s') t_log "removed"
            itemId (InventoryItem.assetId existing) (InventoryItem.name existing)
            (recorded_department_name (view s) (InventoryItem.departmentId existing))
            user)).

(** No transfer accounting: an update, through the storage method or
    through the route, whatever its outcome and whatever it does to the
    item's department id, leaves every department row as it was. *)
Definition update_keeps_departments {S : Type} (storage : IStorage.t S)
    (view : S -> Tables) : Prop :=
  (forall now id data s r s',
     IStorage.updateInventoryItem storage now id data s = (r, s') ->
     departments (view s') = departments (view s)) /\
  (forall t_item t_log user itemId req_body s resp s',
     put_inventory storage t_item t_log user itemId req_body s = (resp, s') ->
     departments (view s') = departments (view s)).

(** The asset id after an update is the payload's when the payload has
    one and the stored one otherwise. *)
Definition update_asset_id {S : Type} (storage : IStorage.t S) (view : S -> Tables)
  : Prop :=
  (forall now id data s row s',
     IStorage.updateInventoryItem storage now id data s = (Ok row, s') ->
     exists old,
       inventoryItems (view s) !! id = Some old /\
       inventoryItems (view s') !! id = Some row /\
       InventoryItem.assetId row
       = default (InventoryItem.assetId old) (PartialInventoryItem.assetId data)) /\
  (forall t_item t_log user itemId req_body s resp s',
     log_ids_fresh (view s) ->
     put_inventory storage t_item t_log user itemId req_body s = (resp, s') ->
     status resp = 200 ->
     exists old row,
       inventoryItems (view s) !! itemId = Some old /\
       inventoryItems (view s') !! itemId = Some row /\
       InventoryItem.assetId row
       = default (InventoryItem.assetId old) (PartialInventoryItem.assetId req_body)).

(** ** Sample data *)

(** A validation that asks for the fields section 3 marks as mandatory. *)
Definition parse_required (raw : PartialInventoryItem.t)
  : option InsertInventoryItem.t :=
  match PartialInventoryItem.companyId raw, PartialInventoryItem.departmentId raw,
        PartialInventoryItem.name raw, PartialInventoryItem.createdBy raw,
        PartialInventoryItem.updatedBy raw with
  | Some companyId, Some departmentId, Some name, Some createdBy, Some updatedBy =>
      Some {| InsertInventoryItem.companyId := companyId;
              InsertInventoryItem.departmentId := departmentId;
              InsertInventoryItem.name := name;
              InsertInventoryItem.description :=
                default None (PartialInventoryItem.description raw);
              InsertInventoryItem.quantity := default 1 (PartialInventoryItem.quantity raw);
              InsertInventoryItem.unitPrice :=
                default None (PartialInventoryItem.unitPrice raw);
              InsertInventoryItem.location :=
                default None (PartialInventoryItem.location raw);
              InsertInventoryItem.purchaseDate :=
                default None (PartialInventoryItem.purchaseDate raw);
              InsertInventoryItem.status := PartialInventoryItem.status raw;
              InsertInventoryItem.customFields :=
                default None (PartialInventoryItem.customFields raw);
              InsertInventoryItem.createdBy := createdBy;
              InsertInventoryItem.updatedBy := updatedBy |}
  | _, _, _, _, _ => None
  end.

(** An administrator of company 1 and an administrator of company 2. *)
Definition ada : User.t := User.mk 1 1 "Ada" "ada@acme.test" "" "admin" 0.
Definition eve : User.t := User.mk 7 2 "Eve" "eve@other.test" "" "admin" 0.

(** Company 1 with the departments "General" (1) and "Lab" (2) and one
    item, id 1, asset id ["A-0001"], in department 1. *)
Definition lab_tables : Tables :=
  let s1 :=
    (MemStorage.createDepartment 5
       {| InsertDepartment.name := "Lab"; InsertDepartment.companyId := 1 |}
       acme_tables).2 in
  (MemStorage.createInventoryItem 10 (widget 1) s1).2.

(** Request bodies: a new widget for department 1, a move to department
    2, and a new asset id. *)
Definition body_widget : PartialInventoryItem.t :=
  PartialInventoryItem.mk None None (Some 1) None (Some "Widget") None None None None
    None None None None None None None.

Definition body_move : PartialInventoryItem.t :=
  PartialInventoryItem.mk None None (Some 2) None None None None None None
    None None None None None None None.

Definition body_forge : PartialInventoryItem.t :=
  PartialInventoryItem.mk None None None (Some "FORGED") None None None None None
    None None None None None None None.

(** The item row that [DatabaseStorage.createInventoryItem] inserts. *)
Definition inserted_item (now : Date) (itemData : InsertInventoryItem.t) (id : Z)
    (assetId : string) : InventoryItem.t :=
  {| InventoryItem.id := id;
     InventoryItem.companyId := InsertInventoryItem.companyId itemData;
     InventoryItem.departmentId := InsertInventoryItem.departmentId itemData;
     InventoryItem.assetId := assetId;
     InventoryItem.name := InsertInventoryItem.name itemData;
     InventoryItem.description := str_or_null (InsertInventoryItem.description itemData);
     InventoryItem.quantity := InsertInventoryItem.quantity itemData;
     InventoryItem.unitPrice := InsertInventoryItem.unitPrice itemData;
     InventoryItem.location := str_or_null (InsertInventoryItem.location itemData);
     InventoryItem.purchaseDate := InsertInventoryItem.purchaseDate itemData;
     InventoryItem.status := str_or (InsertInventoryItem.status itemData) "active";
     InventoryItem.customFields :=
       str_or_null (InsertInventoryItem.customFields itemData);
     InventoryItem.createdAt := now;
     InventoryItem.updatedAt := now;
     InventoryItem.createdBy := InsertInventoryItem.createdBy itemData;
     InventoryItem.updatedBy := InsertInventoryItem.updatedBy itemData |}.

(** The tables once the counter is advanced and the item row inserted,
    before any accounting. *)
Definition after_insert (t : Tables) (companyId : Z) (c : Company.t)
    (item : InventoryItem.t) : Tables :=
  set_inventoryItems <[inventoryItemIdCounter t := item]>
    (set_inventoryItemIdCounter (inventoryItemIdCounter t + 1)
       (set_companies <[companyId := bump_counter c]> t)).

(** The tables once a log row is appended: the row sits under the next
    log id and carries the contents handed over and the date [now]. *)
Definition after_log (t : Tables) (now : Date) (logData : InsertActivityLog.t) : Tables :=
  set_activityLogs
    <[activityLogIdCounter t :=
        {| ActivityLog.id := activityLogIdCounter t;
           ActivityLog.action := InsertActivityLog.action logData;
           ActivityLog.itemId := InsertActivityLog.itemId logData;
           ActivityLog.assetId := InsertActivityLog.assetId logData;
           ActivityLog.itemName := InsertActivityLog.itemName logData;
           ActivityLog.departmentName := InsertActivityLog.departmentName logData;
           ActivityLog.userId := InsertActivityLog.userId logData;
           ActivityLog.userName := InsertActivityLog.userName logData;
           ActivityLog.companyId := InsertActivityLog.companyId logData;
           ActivityLog.createdAt := now |}]>
    (set_activityLogIdCounter (activityLogIdCounter t + 1) t).

(** ** Requests against a store whose statements may fail *)

(** The position of the first failing statement in a list of outcomes,
    [true] for a failure. *)
Fixpoint first_fault (faults : list bool) : option nat :=
  match faults with
  | [] => None
  | true :: _ => Some O
  | false :: rest => S <$> first_fault rest
  end.

(** What a request that issues one statement after the other leaves
    behind when nothing is rolled back.  [stages] lists, statement by
    statement, the tables that the statement finds, that is the tables with
    the writes of the statements before it.  When the first failing
    statement is one of these, the answer is 500 and the tables are the
    ones this statement found; when none of them fails the answer is [resp]
    and the tables are [final].  The outcomes not used up stay in the
    state. *)
Definition outcome (faults : list bool) (stages : list Tables) (resp : Response)
    (final : Tables) : Response * Db :=
  match first_fault faults with
  | Some k =>
      match stages !! k with
      | Some found =>
          (mkResponse 500 (Message "Server error"), mkDb found (drop (S k) faults))
      | None => (resp, mkDb final (drop (length stages) faults))
      end
  | None => (resp, mkDb final (drop (length stages) faults))
  end.

(** A handler body run from the tables [t] ends as [outcome] says, whatever
    statements fail. *)
Definition staged (m : M Db Response) (handler : Error -> Response) (t : Tables)
    (stages : list Tables) (resp : Response) (final : Tables) : Prop :=
  forall faults, try_catch m handler (mkDb t faults) = outcome faults stages resp final.

(** The statement of the membership check, which the routes issue for a
    caller whose role is not "admin". *)
Definition access_stages (user : User.t) (t : Tables) : list Tables :=
  if decide (User.role user = "admin") then [] else [t].

(** The accounting statement, which a creation and a deletion issue when
    the department of the item is found. *)
Definition accounting_stages (t : Tables) (departmentId : Z) (found : Tables)
  : list Tables :=
  match departments t !! departmentId with
  | Some _ => [found]
  | None => []
  end.

(** ** The other methods of [MemStorage] *)

(** [Array.prototype.sort] with the comparator
    [(a, b) => b.createdAt.getTime() - a.createdAt.getTime()]: the sort is
    stable, so rows of the same date keep their order. *)
Fixpoint insert_newest_first (x : ActivityLog.t) (l : list ActivityLog.t)
  : list ActivityLog.t :=
  match l with
  | [] => [x]
  | y :: l' =>
      if decide (ActivityLog.createdAt y - ActivityLog.createdAt x <= 0)
      then x :: y :: l'
      else y :: insert_newest_first x l'
  end.

Definition sort_newest_first (l : list ActivityLog.t) : list ActivityLog.t :=
  foldr insert_newest_first [] l.

(** [Array.prototype.slice(0, end)] for an integer [end]: a negative end
    counts from the end of the array. *)
Definition slice0 {A} (l : list A) (end_ : Z) : list A :=
  if decide (end_ < 0) then take (Z.to_nat (Z.max (Z.of_nat (length l) + end_) 0)) l
  else take (Z.to_nat end_) l.

Module InsertCustomField.
(** Modelled from the spec: type [InsertCustomField] of [@shared/schema]; the
    fields [createCustomField] reads. *)
Record t : Type := mk {
  companyId : Z;
  departmentId : option Z;
  name : string;
  type : string;
  options : option string;
  required : option bool
}.
End InsertCustomField.

Module InsertUser.
(** Modelled from the spec: type [InsertUser] of [@shared/schema]; the fields
    [createUser] reads. *)
Record t : Type := mk {
  companyId : Z;
  name : string;
  email : string;
  password : string;
  role : option string
}.
End InsertUser.

Definition set_users (f : gmap Z User.t -> gmap Z User.t) (s : Tables) : Tables :=
  mkTables (f (users s)) (companies s) (departments s) (userDepartments s)
    (customFields s) (inventoryItems s) (activityLogs s)
    (userIdCounter s) (companyIdCounter s) (departmentIdCounter s)
    (userDepartmentIdCounter s) (customFieldIdCounter s)
    (inventoryItemIdCounter s) (activityLogIdCounter s).

Definition set_customFields (f : gmap Z CustomField.t -> gmap Z CustomField.t)
    (s : Tables) : Tables :=
  mkTables (users s) (companies s) (departments s) (userDepartments s)
    (f (customFields s)) (inventoryItems s) (activityLogs s)
    (userIdCounter s) (companyIdCounter s) (departmentIdCounter s)
    (userDepartmentIdCounter s) (customFieldIdCounter s)
    (inventoryItemIdCounter s) (activityLogIdCounter s).

Definition set_userIdCounter (n : Z) (s : Tables) : Tables :=
  mkTables (users s) (companies s) (departments s) (userDepartments s)
    (customFields s) (inventoryItems s) (activityLogs s)
    n (companyIdCounter s) (departmentIdCounter s)
    (userDepartmentIdCounter s) (customFieldIdCounter s)
    (inventoryItemIdCounter s) (activityLogIdCounter s).

Definition set_customFieldIdCounter (n : Z) (s : Tables) : Tables :=
  mkTables (users s) (companies s) (departments s) (userDepartments s)
    (customFields s) (inventoryItems s) (activityLogs s)
    (userIdCounter s) (companyIdCounter s) (departmentIdCounter s)
    (userDepartmentIdCounter s) n
    (inventoryItemIdCounter s) (activityLogIdCounter s).

Module MemStorageQueries.

Definition getDepartmentsByCompany (companyId : Z) : M Tables (list Department.t) :=
  gets (fun s =>
    filter (fun dept => Department.companyId dept = companyId) (values (departments s))).

Definition getInventoryItemsByCompany (companyId : Z) : M Tables (list InventoryItem.t) :=
  gets (fun s =>
    filter (fun item => InventoryItem.companyId item = companyId)
           (values (inventoryItems s))).


(** [limit] is the argument passed, [None] when it is left out and the
    default of 10 applies. *)
Definition getActivityLogsByCompany (companyId : Z) (limit : option Z)
  : M Tables (list ActivityLog.t) :=
  let limit := default 10 limit in
  gets (fun s =>
    slice0
      (sort_newest_first
         (filter (fun log => ActivityLog.companyId log = companyId)
                 (values (activityLogs s))))
      limit).

Definition createCustomField (now : Date) (fieldData : InsertCustomField.t)
  : M Tables CustomField.t :=
  let! id := gets customFieldIdCounter in
  do! modify (set_customFieldIdCounter (id + 1)) in
  let customField :=
    {| CustomField.id := id;
       CustomField.companyId := InsertCustomField.companyId fieldData;
       CustomField.departmentId := num_or_null (InsertCustomField.departmentId fieldData);
       CustomField.name := InsertCustomField.name fieldData;
       CustomField.type := InsertCustomField.type fieldData;
       CustomField.options := str_or_null (InsertCustomField.options fieldData);
       CustomField.required := default false (InsertCustomField.required fieldData);
       CustomField.createdAt := now |} in
  do! modify (set_customFields <[id := customField]>) in
  ret customField.

(** [!field.departmentId]: [null] and 0 are falsy. *)
Definition no_department (field : CustomField.t) : bool :=
  match CustomField.departmentId field with
  | None => true
  | Some d => bool_decide (d = 0)
  end.

Definition getCustomFieldsByCompany (companyId : Z) : M Tables (list CustomField.t) :=
  gets (fun s =>
    filter (fun field =>
              CustomField.companyId field = companyId /\ no_department field = true)
           (values (customFields s))).

Definition getCustomFieldsByDepartment (departmentId : Z)
  : M Tables (list CustomField.t) :=
  gets (fun s =>
    filter (fun field => CustomField.departmentId field = Some departmentId)
           (values (customFields s))).

Definition getUser (id : Z) : M Tables (option User.t) :=
  gets (fun s => users s !! id).

Definition createUser (now : Date) (userData : InsertUser.t) : M Tables User.t :=
  let! id := gets userIdCounter in
  do! modify (set_userIdCounter (id + 1)) in
  let user :=
    {| User.id := id;
       User.companyId := InsertUser.companyId userData;
       User.name := InsertUser.name userData;
       User.email := InsertUser.email userData;
       User.password := InsertUser.password userData;
       User.role := str_or (InsertUser.role userData) "employee";
       User.createdAt := now |} in
  do! modify (set_users <[id := user]>) in
  ret user.

Section Email.
(** [String.prototype.toLowerCase]. *)
Variable toLowerCase : string -> string.

(** [Array.prototype.find]: the first element that passes the test. *)
Definition getUserByEmail (email : string) : M Tables (option User.t) :=
  gets (fun s =>
    head (filter (fun user => toLowerCase (User.email user) = toLowerCase email)
                 (values (users s)))).
End Email.

End MemStorageQueries.

(** ** The other routes of [registerRoutes] that answer with stored rows *)

Module DepartmentStat.
(** An entry of [departmentStats] in the dashboard's answer. *)
Record t : Type := mk {
  id : Z;
  name : string;
  assetCount : Z;
  capacityUsed : Z
}.
End DepartmentStat.

Module Dashboard.
(** The object that [GET /api/dashboard] answers with. *)
Record t : Type := mk {
  totalItems : nat;
  itemsAddedThisMonth : nat;
  lowStockItems : nat;
  departmentCount : nat;
  recentActivity : list ActivityLog.t;
  departmentStats : list DepartmentStat.t
}.
End Dashboard.

Inductive Payload : Type :=
  | PMessage (message : string)
  | PZodErrors
  | PCompany (company : Company.t)
  | PDepartment (department : Department.t)
  | PDepartments (departments : list Department.t)
  | PItems (items : list InventoryItem.t)
  | PLogs (logs : list ActivityLog.t)
  | PDashboard (dashboard : Dashboard.t).

Record Reply : Type := mkReply {
  code : Z;
  payload : Payload
}.

Definition reply_500 (_ : Error) : Reply := mkReply 500 (PMessage "Server error").

Definition reply_zod_or_500 (error : Error) : Reply :=
  match error with
  | ZodError => mkReply 400 PZodErrors
  | _ => mkReply 500 (PMessage "Server error")
  end.

(** [{ ...req.body, companyId: user.companyId, assetCount: 0, capacityUsed: 0 }] *)
Definition spread_department_body (req_body : PartialDepartment.t) (companyId : Z)
  : PartialDepartment.t :=
  {| PartialDepartment.id := PartialDepartment.id req_body;
     PartialDepartment.companyId := Some companyId;
     PartialDepartment.name := PartialDepartment.name req_body;
     PartialDepartment.assetCount := Some 0;
     PartialDepartment.capacityUsed := Some 0;
     PartialDepartment.createdAt := PartialDepartment.createdAt req_body |}.

Section MemRoutes.

(** Modelled from the spec: [insertDepartmentSchema.parse] of [@shared/schema],
    which is not among the sources; [None] stands for a thrown [ZodError]. *)
Variable insertDepartmentSchema_parse : PartialDepartment.t -> option InsertDepartment.t.

(** [app.get("/api/company", ...)] *)
Definition get_company {S} (storage : IStorage.t S) (user : User.t) : S -> Reply * S :=
  try_catch
    (let! company := IStorage.getCompany storage (User.companyId user) in
     match company with
     | None => ret (mkReply 404 (PMessage "Company not found"))
     | Some company => ret (mkReply 200 (PCompany company))
     end)
    reply_500.

(** [app.get("/api/departments", ...)] *)
Definition get_departments (user : User.t) : Tables -> Reply * Tables :=
  try_catch
    (let! departments :=
       MemStorageQueries.getDepartmentsByCompany (User.companyId user) in
     ret (mkReply 200 (PDepartments departments)))
    reply_500.

(** [app.post("/api/departments", ...)] *)
Definition post_departments (now : Date) (user : User.t) (req_body : PartialDepartment.t)
  : Tables -> Reply * Tables :=
  try_catch
    (if negb (bool_decide (User.role user = "admin"))
     then ret (mkReply 403 (PMessage "Only admins can create departments"))
     else
       match insertDepartmentSchema_parse
               (spread_department_body req_body (User.companyId user)) with
       | None => throw ZodError
       | Some departmentData =>
           let! department := MemStorage.createDepartment now departmentData in
           ret (mkReply 201 (PDepartment department))
       end)
    reply_zod_or_500.

(** [app.get("/api/inventory", ...)] *)
Definition get_inventory (user : User.t) : Tables -> Reply * Tables :=
  try_catch
    (let! inventoryItems :=
       MemStorageQueries.getInventoryItemsByCompany (User.companyId user) in
     ret (mkReply 200 (PItems inventoryItems)))
    reply_500.

(** [app.get("/api/activity", ...)]; [limit] is the parsed query parameter,
    [None] when the request has none. *)
Definition get_activity (user : User.t) (limit : option Z) : Tables -> Reply * Tables :=
  try_catch
    (let limit := default 10 limit in
     let! activities :=
       MemStorageQueries.getActivityLogsByCompany (User.companyId user) (Some limit) in
     ret (mkReply 200 (PLogs activities)))
    reply_500.

(** [new Date(now.getFullYear(), now.getMonth(), 1)]: the first instant of
    the month of [now], by the calendar of the server's time zone. *)
Variable first_day_of_month : Date -> Date.

Definition department_stat (dept : Department.t) : DepartmentStat.t :=
  {| DepartmentStat.id := Department.id dept;
     DepartmentStat.name := Department.name dept;
     DepartmentStat.assetCount := Department.assetCount dept;
     DepartmentStat.capacityUsed := Department.capacityUsed dept |}.

(** [app.get("/api/dashboard", ...)]; [now] is the date the handler reads. *)
Definition get_dashboard (now : Date) (user : User.t) : Tables -> Reply * Tables :=
  try_catch
    (let! inventoryItems :=
       MemStorageQueries.getInventoryItemsByCompany (User.companyId user) in
     let totalItems := length inventoryItems in
     let firstDayOfMonth := first_day_of_month now in
     let itemsAddedThisMonth :=
       length (filter (fun item => firstDayOfMonth <= InventoryItem.createdAt item)
                      inventoryItems) in
     let lowStockItems :=
       length (filter (fun item => InventoryItem.status item = "low") inventoryItems) in
     let! departments :=
       MemStorageQueries.getDepartmentsByCompany (User.companyId user) in
     let departmentCount := length departments in
     let! recentActivity :=
       MemStorageQueries.getActivityLogsByCompany (User.companyId user) (Some 5) in
     let departmentStats := department_stat <$> departments in
     ret (mkReply 200
            (PDashboard
               {| Dashboard.totalItems := totalItems;
                  Dashboard.itemsAddedThisMonth := itemsAddedThisMonth;
                  Dashboard.lowStockItems := lowStockItems;
                  Dashboard.departmentCount := departmentCount;
                  Dashboard.recentActivity := recentActivity;
                  Dashboard.departmentStats := departmentStats |})))
    reply_500.

End MemRoutes.

(** A second company, which leaves its pattern empty and its status out. *)
Definition bolt : InsertCompany.t :=
  {| InsertCompany.name := "Bolt";
     InsertCompany.assetIdPattern := Some "";
     InsertCompany.subscriptionTier := Some "pro";
     InsertCompany.subscriptionStatus := None |}.

(** ** Well-formed stores *)

(** Every row sits under an id that its table's counter has passed. *)
Definition ids_fresh (s : Tables) : Prop :=
  map_Forall (fun k _ => k < userIdCounter s) (users s) /\
  map_Forall (fun k _ => k < companyIdCounter s) (companies s) /\
  map_Forall (fun k _ => k < departmentIdCounter s) (departments s) /\
  map_Forall (fun k _ => k < userDepartmentIdCounter s) (userDepartments s) /\
  map_Forall (fun k _ => k < customFieldIdCounter s) (customFields s) /\
  map_Forall (fun k _ => k < inventoryItemIdCounter s) (inventoryItems s) /\
  log_ids_fresh s.

Definition well_formed (s : Tables) : Prop :=
  ids_fresh s /\ departments_keyed s /\ counters_nonneg s.

(** The stores that a fresh [MemStorage] reaches through the methods that
    create rows and through the routes that write. *)
Inductive reachable
    (parse_item : PartialInventoryItem.t -> option InsertInventoryItem.t)
    (parse_department : PartialDepartment.t -> option InsertDepartment.t)
  : Tables -> Prop :=
  | reach_new : reachable parse_item parse_department new_tables
  | reach_createCompany now now_department companyData s :
      reachable parse_item parse_department s ->
      reachable parse_item parse_department
        (MemStorage.createCompany now now_department companyData s).2
  | reach_createUser now userData s :
      reachable parse_item parse_department s ->
      reachable parse_item parse_department
        (MemStorageQueries.createUser now userData s).2
  | reach_assignUserToDepartment now userId departmentId s :
      reachable parse_item parse_department s ->
      reachable parse_item parse_department
        (MemStorage.assignUserToDepartment now userId departmentId s).2
  | reach_createCustomField now fieldData s :
      reachable parse_item parse_department s ->
      reachable parse_item parse_department
        (MemStorageQueries.createCustomField now fieldData s).2
  | reach_post_departments now user req_body s :
      reachable parse_item parse_department s ->
      reachable parse_item parse_department
        (post_departments parse_department now user req_body s).2
  | reach_post_inventory t_item t_log user req_body s :
      reachable parse_item parse_department s ->
      reachable parse_item parse_department
        (post_inventory MemStorage.storage parse_item t_item t_log user req_body s).2
  | reach_put_inventory t_item t_log user itemId req_body s :
      reachable parse_item parse_department s ->
      reachable parse_item parse_department
        (put_inventory MemStorage.storage t_item t_log user itemId req_body s).2
  | reach_delete_inventory t_log user itemId s :
      reachable parse_item parse_department s ->
      reachable parse_item parse_department
        (delete_inventory MemStorage.storage t_log user itemId s).2.

(** ** The department counters as a cache of the live items *)

(** The items that [getInventoryItemsByDepartment] returns. *)
Definition live_items (s : Tables) (departmentId : Z) : list InventoryItem.t :=
  filter (fun item => InventoryItem.departmentId item = departmentId)
         (values (inventoryItems s)).

(** Each department counts its live items, ten units of capacity each. *)
Definition counters_consistent (s : Tables) : Prop :=
  map_Forall (fun k d =>
    Department.assetCount d = Z.of_nat (length (live_items s k)) /\
    Department.capacityUsed d = 10 * Z.of_nat (length (live_items s k)))
    (departments s).


(** The order of the activity feed: [a] is listed before [b] only when
    [b] is not more recent. *)
Definition not_older (a b : ActivityLog.t) : Prop :=
  ActivityLog.createdAt b <= ActivityLog.createdAt a.

(** ** Who may write *)

(** A membership row assigns the user to the department. *)
Definition member (s : Tables) (userId departmentId : Z) : Prop :=
  map_Exists (fun _ ud =>
    UserDepartment.userId ud = userId /\ UserDepartment.departmentId ud = departmentId)
    (userDepartments s).

(** An employee of company 1, and the store [lab_tables] once he is
    assigned to department 1. *)
Definition bob : User.t := User.mk 2 1 "Bob" "bob@acme.test" "" "employee" 0.

Definition staffed_tables : Tables :=
  (MemStorage.assignUserToDepartment 20 2 1 lab_tables).2.

(** A schema that asks for a name and a company. *)
Definition parse_named (raw : PartialDepartment.t) : option InsertDepartment.t :=
  match PartialDepartment.name raw, PartialDepartment.companyId raw with
  | Some name, Some companyId =>
      Some {| InsertDepartment.name := name; InsertDepartment.companyId := companyId |}
  | _, _ => None
  end.

Definition body_lab : PartialDepartment.t :=
  PartialDepartment.mk None (Some 9) (Some "Lab") (Some 5) (Some 50) None.

(** ** The inventory list page *)

(** [Array.prototype.slice(start, end)] for integer arguments: a negative
    index counts from the end, and both indices are clamped to the array. *)
Definition slice {A} (l : list A) (start end_ : Z) : list A :=
  let len := Z.of_nat (length l) in
  let k := if decide (start < 0) then Z.max (len + start) 0 else Z.min start len in
  let final := if decide (end_ < 0) then Z.max (len + end_) 0 else Z.min end_ len in
  take (Z.to_nat (final - k)) (drop (Z.to_nat k) l).

Module InventoryList.

Definition itemsPerPage : Z := 10.

(** [Math.ceil(filteredItems.length / itemsPerPage)]: the quotient of an
    array length by 10 is rounded to the nearest double, which lies on the
    same side of every integer as the exact quotient, so the result is the
    integer ceiling. *)
Definition totalPages {A} (filteredItems : list A) : Z :=
  - ((- Z.of_nat (length filteredItems)) / itemsPerPage).

Definition paginatedItems {A} (filteredItems : list A) (currentPage : Z) : list A :=
  slice filteredItems ((currentPage - 1) * itemsPerPage) (currentPage * itemsPerPage).

(** The two numbers of the footer's "Showing ... to ..." text. *)
Definition showing_from {A} (filteredItems : list A) : Z :=
  Z.min 1 (Z.of_nat (length filteredItems)).

Definition showing_to {A} (filteredItems : list A) (currentPage : Z) : Z :=
  Z.min (currentPage * itemsPerPage) (Z.of_nat (length filteredItems)).

(** The page setters of the "Previous" and "Next" buttons. *)
Definition previous (p : Z) : Z := Z.max 1 (p - 1).

Definition next {A} (filteredItems : list A) (p : Z) : Z :=
  Z.min (totalPages filteredItems) (p + 1).

End InventoryList.

(** ** The dashboard *)

(** Each item sits in a department of its own company. *)
Definition items_in_own_company (s : Tables) : Prop :=
  map_Forall (fun _ item =>
    (Department.companyId <$> departments s !! InventoryItem.departmentId item)
    = Some (InventoryItem.companyId item))
    (inventoryItems s).

(** The sum of the numbers of a list. *)
Definition sum_list (l : list Z) : Z := foldr Z.add 0 l.

(** A month that starts at the given date, whatever the day. *)
Definition month_from (start : Date) (_ : Date) : Date := start.

(** * Properties *)

(** ** Map values in the order of their ids *)

Lemma values_Permutation {A} (m : gmap Z A) : values m ≡ₚ (map_to_list m).*2.
Proof. unfold values. by rewrite merge_sort_Permutation. Qed.

Lemma elem_of_values {A} (m : gmap Z A) (x : A) :
  x ∈ values m <-> exists k, m !! k = Some x.
Proof.
  rewrite values_Permutation, list_elem_of_fmap. split.
  - intros ([k y] & -> & H%elem_of_map_to_list). by exists k.
  - intros [k H]. exists (k, x). split; [done|]. by apply elem_of_map_to_list.
Qed.

(** ** Strings *)

Lemma app_nil_l (s : string) : "" +:+ s = s.
Proof. reflexivity. Qed.

Lemma app_cons (c : ascii) (a b : string) : String c a +:+ b = String c (a +:+ b).
Proof. reflexivity. Qed.

Lemma app_nil_r (s : string) : s +:+ "" = s.
Proof. induction s as [|c s IH]; [done | by rewrite app_cons, IH]. Qed.

Lemma app_assoc (a b c : string) : (a +:+ b) +:+ c = a +:+ b +:+ c.
Proof. induction a as [|x a IH]; [done | by rewrite !app_cons, IH]. Qed.

Lemma length_app (a b : string) :
  String.length (a +:+ b) = (String.length a + String.length b)%nat.
Proof. induction a as [|x a IH]; [done | by rewrite app_cons; simpl; rewrite IH]. Qed.

Lemma length_repeat_char c n : String.length (repeat_char c n) = n.
Proof. induction n as [|n IH]; simpl; [done | by rewrite IH]. Qed.

Lemma length_padStart s k c :
  String.length (padStart s k c) = (k `max` String.length s)%nat.
Proof.
  unfold padStart. destruct (Nat.leb_spec k (String.length s)).
  - lia.
  - rewrite length_app, length_repeat_char. lia.
Qed.

(** Two concatenations that agree and whose first parts are equally long
    agree part by part. *)
Lemma app_eq_length (a a' b b' : string) :
  a +:+ b = a' +:+ b' -> String.length a = String.length a' -> a = a' /\ b = b'.
Proof.
  revert a'. induction a as [|x a IH]; intros [|x' a'] H L; simpl in *; try done.
  rewrite !app_cons in H. injection H as -> H. destruct (IH a' H) as [-> ->]; [lia | done].
Qed.

Example render_A7 : render_asset_id "A-####" 7 = "A-0007".
Proof. vm_compute. reflexivity. Qed.
Example render_big : render_asset_id "A-####" 12345 = "A-12345".
Proof. vm_compute. reflexivity. Qed.
Example render_two : render_asset_id "A-##-##" 7 = "A-07-07".
Proof. vm_compute. reflexivity. Qed.
Example spec_two : spec_first_run_only "A-##-##" 7 = "A-07-##".
Proof. vm_compute. reflexivity. Qed.

(** ** The global replace of [/#+/] *)

Lemma is_hash_true c : is_hash c = true -> c = "#"%char.
Proof. unfold is_hash. by intros ?%Ascii.eqb_eq. Qed.

Lemma hashes_S k : hashes (S k) = String "#" (hashes k).
Proof. reflexivity. Qed.

Lemma replace_scan_hashes f k rest run :
  replace_scan f (hashes k +:+ rest) run = replace_scan f rest (k + run).
Proof.
  revert run. induction k as [|k IH]; intros run; [done|].
  rewrite hashes_S, app_cons. simpl. rewrite IH. f_equal. lia.
Qed.

(** A pending run is flushed as one match when the next character is not
    a ['#']. *)
Lemma replace_scan_flush f s run :
  starts_with_hash s = false ->
  replace_scan f s run = flush f run +:+ replace_scan f s O.
Proof.
  destruct s as [|c s]; simpl.
  - intros _. by rewrite app_nil_r.
  - intros ->. done.
Qed.

Lemma replace_scan_literal f lit rest :
  no_hash lit = true ->
  replace_scan f (lit +:+ rest) O = lit +:+ replace_scan f rest O.
Proof.
  induction lit as [|c lit IH]; [done|]. simpl.
  intros [Hc Hl]%andb_prop. apply negb_true_iff in Hc.
  rewrite !app_cons. simpl. rewrite Hc, IH by done. done.
Qed.

Lemma replace_scan_no_hash f s : no_hash s = true -> replace_scan f s O = s.
Proof.
  intros H. rewrite <- (app_nil_r s) at 1.
  rewrite replace_scan_literal by done. simpl. apply app_nil_r.
Qed.

Lemma no_hash_starts s : no_hash s = true -> starts_with_hash s = false.
Proof.
  destruct s as [|c s]; [done|]. simpl.
  intros [Hc _]%andb_prop. by apply negb_true_iff in Hc.
Qed.

Lemma pattern_of_starts segments tail :
  match segments with
  | [] => no_hash tail = true
  | (lit, _) :: _ => lit <> EmptyString /\ no_hash lit = true
  end ->
  starts_with_hash (pattern_of segments tail) = false.
Proof.
  destruct segments as [|[lit k] rest]; simpl.
  - apply no_hash_starts.
  - intros [Hne Hl]. destruct lit as [|c lit]; [done|].
    rewrite app_cons. simpl. simpl in Hl.
    apply andb_prop in Hl as [Hc _]. by apply negb_true_iff in Hc.
Qed.

Lemma flush_pad_counter n k :
  (0 < k)%nat -> flush (pad_counter n) k = padStart (toString n) k "0"%char.
Proof.
  destruct k as [|k]; [lia|]. intros _.
  unfold flush, pad_counter, hashes. by rewrite length_repeat_char.
Qed.

(** The substitution fills every run of a pattern cut at its runs. *)
Lemma render_segments segments tail n :
  segments_ok segments -> no_hash tail = true ->
  render_asset_id (pattern_of segments tail) n = filled_of segments tail n.
Proof.
  unfold render_asset_id, replace_hash_runs.
  intros Hok Htail. induction segments as [|[lit k] rest IH]; simpl.
  - by apply replace_scan_no_hash.
  - destruct Hok as (Hlit & Hk & Hsep & Hrest).
    rewrite replace_scan_literal, replace_scan_hashes by done.
    rewrite Nat.add_0_r, replace_scan_flush.
    + by rewrite IH, flush_pad_counter.
    + apply pattern_of_starts. destruct rest as [|[lit' k'] rest']; [done|].
      split; [done|]. by destruct Hrest.
Qed.

(** ** Decimal rendering *)

(** The first digit of a positive number is not a zero. *)
Lemma pretty_N_go_head (x : N) (s : string) :
  (0 < x)%N -> exists c r, pretty_N_go x s = String c r /\ c <> "0"%char.
Proof.
  revert s. induction (N.lt_wf_0 x) as [x _ IH]; intros s Hx.
  rewrite pretty_N_go_step by done.
  destruct (decide (x `div` 10 = 0)%N) as [Hq|Hq].
  - rewrite Hq, pretty_N_go_0. eexists _, _. split; [done|].
    assert (x < 10)%N.
    { destruct (N.lt_ge_cases x 10) as [?|Hge]; [done|]. exfalso.
      assert (1 <= x `div` 10)%N by (apply N.div_le_lower_bound; lia). lia. }
    rewrite N.mod_small by done.
    assert (x = 1 \/ x = 2 \/ x = 3 \/ x = 4 \/ x = 5 \/ x = 6
            \/ x = 7 \/ x = 8 \/ x = 9)%N as Hcase by lia.
    destruct Hcase as [->|[->|[->|[->|[->|[->|[->|[->| ->]]]]]]]]; done.
  - apply IH; [apply N.div_lt; lia | by apply N.neq_0_lt_0].
Qed.

Lemma toString_head (n : Z) :
  exists c r, toString n = String c r /\ (c = "0"%char -> n = 0 /\ r = "").
Proof.
  unfold toString, pretty, pretty_Z. destruct n as [|p|p].
  - by eexists _, _.
  - unfold pretty, pretty_positive, pretty, pretty_N.
    rewrite decide_False by done.
    destruct (pretty_N_go_head (N.pos p) "") as (c & r & -> & Hc); [lia|].
    by eexists _, _.
  - eexists _, _. rewrite app_cons. split; [done|]. done.
Qed.

Lemma toString_inj (n m : Z) : toString n = toString m -> n = m.
Proof. apply pretty_Z_inj. Qed.

(** Zeros in front of two renderings cannot make them equal. *)
Lemma zeros_toString_inj (a b : nat) (n m : Z) :
  repeat_char "0" a +:+ toString n = repeat_char "0" b +:+ toString m -> n = m.
Proof.
  revert b. induction a as [|a IH]; intros [|b]; simpl; rewrite ?app_cons, ?app_nil_l.
  - apply toString_inj.
  - destruct (toString_head n) as (c & r & -> & Hc). intros [= -> ->].
    destruct Hc as [_ Hr]; [done|].
    destruct (toString_head m) as (c' & r' & Hm & _). rewrite Hm in Hr.
    by destruct b.
  - destruct (toString_head m) as (c & r & -> & Hc). intros [= <- Hr].
    destruct Hc as [_ Hr']; [done|]. subst r.
    destruct (toString_head n) as (c' & r' & Hn & _). rewrite Hn in Hr'.
    by destruct a.
  - intros [= H]. by apply IH in H.
Qed.

Lemma padStart_zeros s k :
  padStart s k "0" = repeat_char "0" (k - String.length s) +:+ s.
Proof.
  unfold padStart. destruct (Nat.leb_spec k (String.length s)) as [H|H]; [|done].
  by replace (k - String.length s)%nat with O by lia.
Qed.

Lemma padStart_toString_inj (k : nat) (n m : Z) :
  padStart (toString n) k "0" = padStart (toString m) k "0" -> n = m.
Proof. rewrite !padStart_zeros. apply zeros_toString_inj. Qed.

(** ** Distinct counters give distinct asset ids *)

Lemma length_flush_mono (n m : Z) (run : nat) :
  (String.length (toString n) <= String.length (toString m))%nat ->
  (String.length (flush (pad_counter n) run)
   <= String.length (flush (pad_counter m) run))%nat.
Proof.
  intros H. destruct run as [|run]; [done|].
  rewrite !flush_pad_counter, !length_padStart by lia. lia.
Qed.

Lemma length_replace_scan_mono (n m : Z) (s : string) (run : nat) :
  (String.length (toString n) <= String.length (toString m))%nat ->
  (String.length (replace_scan (pad_counter n) s run)
   <= String.length (replace_scan (pad_counter m) s run))%nat.
Proof.
  intros H. revert run. induction s as [|c s IH]; intros run; simpl.
  - by apply length_flush_mono.
  - destruct (is_hash c); [apply IH|].
    rewrite !length_app. simpl.
    pose proof (length_flush_mono n m run H). pose proof (IH O). lia.
Qed.

Lemma replace_scan_inj_le (n m : Z) (s : string) (run : nat) :
  (String.length (toString n) <= String.length (toString m))%nat ->
  (0 < run)%nat \/ no_hash s = false ->
  replace_scan (pad_counter n) s run = replace_scan (pad_counter m) s run ->
  n = m.
Proof.
  intros Hlen. revert run. induction s as [|c s IH]; intros run Hrun; simpl.
  - destruct Hrun as [Hrun|?]; [|done].
    rewrite !flush_pad_counter by done. apply padStart_toString_inj.
  - simpl in Hrun. destruct (is_hash c) eqn:Hc.
    { apply IH. left. lia. }
    simpl in Hrun. destruct run as [|run].
    { simpl. rewrite !app_nil_l. intros [= H]. apply IH in H; [done|].
      right. by destruct Hrun as [?|?]; [lia|]. }
    intros Heq.
    destruct (decide (String.length (flush (pad_counter n) (S run))
                      = String.length (flush (pad_counter m) (S run)))) as [E|E].
    + apply app_eq_length in Heq as [Heq _]; [|done].
      rewrite !flush_pad_counter in Heq by lia.
      by apply padStart_toString_inj in Heq.
    + apply (f_equal String.length) in Heq. rewrite !length_app in Heq.
      cbn [String.length] in Heq.
      pose proof (length_flush_mono n m (S run) Hlen).
      pose proof (length_replace_scan_mono n m s O Hlen). lia.
Qed.

(** With at least one placeholder in the pattern the rendering is
    injective in the counter. *)
Lemma render_asset_id_inj (pattern : string) (n m : Z) :
  no_hash pattern = false ->
  render_asset_id pattern n = render_asset_id pattern m -> n = m.
Proof.
  intros Hp Heq. unfold render_asset_id, replace_hash_runs in Heq.
  destruct (Nat.le_ge_cases (String.length (toString n)) (String.length (toString m))).
  - by apply (replace_scan_inj_le n m pattern O); auto.
  - symmetry. by apply (replace_scan_inj_le m n pattern O); auto.
Qed.

(** ** Computations *)

Lemma bind_inv {S A B} (m : M S A) (k : A -> M S B) s r s' :
  bind m k s = (r, s') ->
  (exists a s1, m s = (Ok a, s1) /\ k a s1 = (r, s')) \/
  (exists e, m s = (Throw e, s') /\ r = Throw e).
Proof.
  unfold bind. destruct (m s) as [[a|e] s1]; intros H.
  - left. by exists a, s1.
  - right. exists e. by injection H as <- <-.
Qed.

Lemma bind_Ok {S A B} (m : M S A) (k : A -> M S B) s b s' :
  bind m k s = (Ok b, s') ->
  exists a s1, m s = (Ok a, s1) /\ k a s1 = (Ok b, s').
Proof.
  intros [H|(e & _ & H)]%bind_inv; [done | discriminate].
Qed.

Lemma bind_eq {S A B} (m : M S A) (k : A -> M S B) s a s1 :
  m s = (Ok a, s1) -> bind m k s = k a s1.
Proof. unfold bind. by intros ->. Qed.

(** A statement either fails and leaves the tables alone or runs its
    query on them. *)
Lemma statement_inv {A} (q : Tables -> A * Tables) d r d' :
  statement q d = (r, d') ->
  (r = Throw StoreError /\ tables d' = tables d) \/
  (exists a, r = Ok a /\ q (tables d) = (a, tables d')).
Proof.
  unfold statement. destruct (faults d) as [|[|] rest];
    try destruct (q (tables d)) as [a t] eqn:Hq; intros [= <- <-]; simpl; eauto.
Qed.

Lemma statement_Ok {A} (q : Tables -> A * Tables) d a d' :
  statement q d = (Ok a, d') -> q (tables d) = (a, tables d').
Proof.
  intros [[? _]|(a' & [= ->] & H)]%statement_inv; [discriminate | done].
Qed.

Lemma select_by_id_Ok {A} (table : Tables -> gmap Z A) id d o d' :
  select_by_id table id d = (Ok o, d') -> o = table (tables d) !! id /\ tables d' = tables d.
Proof. unfold select_by_id. by intros [= <- <-]%statement_Ok. Qed.

(** ** Asset id issuance *)

Lemma Mem_generateAssetId_Some s cid c :
  companies s !! cid = Some c ->
  exists c',
    MemStorage.generateAssetId cid s
    = (Ok (render_asset_id (Company.assetIdPattern c) (Company.currentAssetId c)),
       set_companies <[cid := c']> s) /\
    Company.currentAssetId c' = Company.currentAssetId c + 1 /\
    same_but_counter c c'.
Proof.
  intros Hc. eexists. split; [|split].
  - unfold MemStorage.generateAssetId, MemStorage.getCompany, bind, gets, modify, ret.
    rewrite Hc. reflexivity.
  - reflexivity.
  - by repeat split.
Qed.

Lemma Mem_generateAssetId_None s cid :
  companies s !! cid = None ->
  MemStorage.generateAssetId cid s = (Throw (not_found "Company" cid), s).
Proof.
  intros Hc.
  unfold MemStorage.generateAssetId, MemStorage.getCompany, bind, gets, throw.
  by rewrite Hc.
Qed.

Lemma Db_generateAssetId_Ok d cid r d' :
  DatabaseStorage.generateAssetId cid d = (Ok r, d') ->
  exists c c',
    companies (tables d) !! cid = Some c /\
    r = render_asset_id (Company.assetIdPattern c) (Company.currentAssetId c) /\
    tables d' = set_companies <[cid := c']> (tables d) /\
    Company.currentAssetId c' = Company.currentAssetId c + 1 /\
    same_but_counter c c'.
Proof.
  unfold DatabaseStorage.generateAssetId, DatabaseStorage.getCompany.
  intros (o & d1 & [-> Ht]%select_by_id_Ok & H)%bind_Ok.
  destruct (companies (tables d) !! cid) as [c|] eqn:Hc; [|discriminate].
  apply bind_Ok in H as ([] & d2 & Hu%statement_Ok & [= <- <-]).
  injection Hu as Hu. rewrite Ht in Hu.
  exists c. eexists. split; [done|]. split; [done|]. split; [|split].
  - rewrite <- Hu. unfold set_companies. f_equal.
    apply map_eq. intros k. rewrite lookup_alter.
    destruct (decide (cid = k)) as [<-|Hne].
    + rewrite lookup_insert_eq, Hc. reflexivity.
    + by rewrite lookup_insert_ne.
  - reflexivity.
  - by repeat split.
Qed.

Lemma Db_generateAssetId_as_Mem d cid a d' :
  DatabaseStorage.generateAssetId cid d = (Ok a, d') ->
  MemStorage.generateAssetId cid (tables d) = (Ok a, tables d').
Proof.
  intros (c & c' & Hc & -> & -> & Hn & Hs)%Db_generateAssetId_Ok.
  destruct (Mem_generateAssetId_Some _ _ _ Hc) as (c2 & -> & Hn2 & Hs2).
  do 3 f_equal. destruct c', c2, c. unfold same_but_counter in *. simpl in *.
  destruct Hs as (? & ? & ? & ? & ? & ?), Hs2 as (? & ? & ? & ? & ? & ?). congruence.
Qed.

(** Every pattern is cut at its runs in one way. *)
Lemma pattern_segments (pattern : string) :
  exists segments tail,
    segments_ok segments /\ no_hash tail = true /\ pattern = pattern_of segments tail.
Proof.
  induction pattern as [|c p (segs & tail & Hok & Htail & ->)].
  { by exists [], "". }
  destruct (is_hash c) eqn:Hc.
  - apply is_hash_true in Hc as ->.
    destruct segs as [|[[|x lit] k] rest].
    + exists [("", 1%nat)], tail. simpl. repeat split; [lia | done].
    + exists (("", S k) :: rest), tail. simpl in *. destruct Hok as (? & ? & ? & ?).
      repeat split; try done. lia.
    + exists (("", 1%nat) :: (String x lit, k) :: rest), tail. simpl in *.
      destruct Hok as (? & ? & ? & ?). repeat split; try done; lia.
  - destruct segs as [|[lit k] rest].
    + exists [], (String c tail). simpl. by rewrite Hc.
    + exists ((String c lit, k) :: rest), tail. simpl in *.
      destruct Hok as (? & ? & ? & ?). rewrite Hc. repeat split; done.
Qed.

(** The reading of the specification fills the first run and copies what
    follows it, further runs included. *)
Lemma spec_first_run_scan_hashes f k post run :
  starts_with_hash post = false -> (0 < k + run)%nat ->
  spec_first_run_scan f (hashes k +:+ post) run = f (hashes (k + run)) +:+ post.
Proof.
  intros Hpost. revert run. induction k as [|k IH]; intros run Hk.
  - rewrite app_nil_l. destruct post as [|c post]; simpl in *.
    + destruct run; [lia|]. by rewrite app_nil_r.
    + rewrite Hpost. destruct run; [lia | done].
  - rewrite hashes_S, app_cons. simpl. rewrite IH by lia.
    by replace (k + S run)%nat with (S k + run)%nat by lia.
Qed.

Lemma spec_first_run_only_first pre k post n :
  no_hash pre = true -> (0 < k)%nat -> starts_with_hash post = false ->
  spec_first_run_only (pre +:+ hashes k +:+ post) n
  = pre +:+ padStart (toString n) k "0" +:+ post.
Proof.
  intros Hpre Hk Hpost. unfold spec_first_run_only.
  induction pre as [|c pre IH].
  - rewrite !app_nil_l, spec_first_run_scan_hashes, Nat.add_0_r by (done || lia).
    unfold pad_counter, hashes. by rewrite length_repeat_char.
  - simpl in Hpre. apply andb_prop in Hpre as [Hc Hpre]. apply negb_true_iff in Hc.
    rewrite !app_cons. simpl. by rewrite Hc, IH.
Qed.

(** C2 (as amended): whatever the number of runs of ['#'] in a tenant's
    pattern, [generateAssetId] writes the counter into every one of them,
    each padded with zeros to the length of its own run, and copies the
    text between the runs; both storage classes do so. *)
Theorem generateAssetId_fills_every_run (segments : list (string * nat)) (tail : string) :
  segments_ok segments -> no_hash tail = true ->
  (forall s cid c,
     companies s !! cid = Some c ->
     Company.assetIdPattern c = pattern_of segments tail ->
     (MemStorage.generateAssetId cid s).1
     = Ok (filled_of segments tail (Company.currentAssetId c))) /\
  (forall d cid c a d',
     companies (tables d) !! cid = Some c ->
     Company.assetIdPattern c = pattern_of segments tail ->
     DatabaseStorage.generateAssetId cid d = (Ok a, d') ->
     a = filled_of segments tail (Company.currentAssetId c)).
Proof.
  intros Hok Htail. split.
  - intros s cid c Hc Hp.
    destruct (Mem_generateAssetId_Some _ _ _ Hc) as (c' & -> & _). simpl.
    by rewrite Hp, render_segments.
  - intros d cid c a d' Hc Hp (c2 & c' & Hc2 & -> & _)%Db_generateAssetId_Ok.
    rewrite Hc in Hc2. injection Hc2 as <-. by rewrite Hp, render_segments.
Qed.

Lemma generateAssetId_fills_every_run_witness :
  (MemStorage.generateAssetId 1 (with_pattern "A-##-##" 7 acme_tables)).1
  = Ok (filled_of [("A-", 2%nat); ("-", 2%nat)] "" 7).
Proof.
  refine (proj1 (generateAssetId_fills_every_run [("A-", 2%nat); ("-", 2%nat)] "" _ _)
            (with_pattern "A-##-##" 7 acme_tables) 1 (acme_company "A-##-##" 7) _ _).
  - simpl. repeat split; (done || lia).
  - reflexivity.
  - vm_compute. reflexivity.
  - reflexivity.
Defined.

(** C2 (as stated, refuted): with the pattern ["A-##-##"] and counter 7 the
    issued id is ["A-07-07"], not the ["A-07-##"] that substitution into the
    first run only would give. *)
Lemma generateAssetId_fills_second_run :
  ~ (forall s cid c,
       companies s !! cid = Some c ->
       (2 <= count_runs (Company.assetIdPattern c) false)%nat ->
       (MemStorage.generateAssetId cid s).1
       = Ok (spec_first_run_only (Company.assetIdPattern c) (Company.currentAssetId c))).
Proof.
  intros H.
  specialize (H (with_pattern "A-##-##" 7 acme_tables) 1 (acme_company "A-##-##" 7)).
  assert (Hc : companies (with_pattern "A-##-##" 7 acme_tables) !! 1
               = Some (acme_company "A-##-##" 7))
    by (vm_compute; reflexivity).
  specialize (H Hc). simpl in H.
  assert (Hr : (2 <= count_runs "A-##-##" false)%nat) by (vm_compute; lia).
  specialize (H Hr). vm_compute in H. discriminate H.
Qed.

(** C3: with a single run of [k] placeholders between two literal texts,
    the issued id is the first text, the counter in decimal padded with
    zeros on the left up to [k] characters (the whole number as it is when
    it already has [k] digits or more), and the second text; a pattern
    without placeholder is issued as it is.  So ["A-####"] gives ["A-0007"]
    for counter 7 and ["A-12345"] for counter 12345, and ["ITEM"] gives
    ["ITEM"] for every counter; [DatabaseStorage] issues the same text as
    [MemStorage]. *)
Theorem generateAssetId_single_run (s : Tables) (cid : Z) (c : Company.t) :
  companies s !! cid = Some c ->
  let digits := toString (Company.currentAssetId c) in
  let issued := (MemStorage.generateAssetId cid s).1 in
  (forall pre k post,
     Company.assetIdPattern c = pre +:+ hashes k +:+ post ->
     (0 < k)%nat -> no_hash pre = true -> no_hash post = true ->
     exists padded,
       issued = Ok (pre +:+ padded +:+ post) /\
       (k <= String.length padded)%nat /\
       ((k <= String.length digits)%nat -> padded = digits) /\
       ((String.length digits < k)%nat ->
        padded = repeat_char "0" (k - String.length digits) +:+ digits)) /\
  (no_hash (Company.assetIdPattern c) = true -> issued = Ok (Company.assetIdPattern c)) /\
  (Company.assetIdPattern c = "A-####" -> Company.currentAssetId c = 7 ->
   issued = Ok "A-0007") /\
  (Company.assetIdPattern c = "A-####" -> Company.currentAssetId c = 12345 ->
   issued = Ok "A-12345") /\
  (Company.assetIdPattern c = "ITEM" -> issued = Ok "ITEM") /\
  (forall d a d',
     tables d = s -> DatabaseStorage.generateAssetId cid d = (Ok a, d') -> issued = Ok a).
Proof.
  intros Hc digits issued.
  assert (Hi : issued
               = Ok (render_asset_id (Company.assetIdPattern c) (Company.currentAssetId c))).
  { unfold issued. by destruct (Mem_generateAssetId_Some _ _ _ Hc) as (c' & -> & _). }
  repeat split.
  - intros pre k post Hp Hk Hpre Hpost.
    exists (padStart digits k "0"). repeat split.
    + rewrite Hi, Hp. f_equal.
      apply (render_segments [(pre, k)] post); simpl; auto.
    + rewrite length_padStart. lia.
    + intros Hle. unfold padStart.
      by destruct (Nat.leb_spec k (String.length digits)); [|lia].
    + intros Hlt. unfold padStart.
      by destruct (Nat.leb_spec k (String.length digits)); [lia|].
  - intros Hn. rewrite Hi. f_equal. by apply replace_scan_no_hash.
  - intros Hp Hn. rewrite Hi, Hp, Hn. reflexivity.
  - intros Hp Hn. rewrite Hi, Hp, Hn. reflexivity.
  - intros Hp. rewrite Hi, Hp. reflexivity.
  - intros d a d' <- Hd%Db_generateAssetId_as_Mem. unfold issued. by rewrite Hd.
Qed.

Lemma generateAssetId_single_run_witness :
  (MemStorage.generateAssetId 1 acme_tables).1 = Ok "A-0001".
Proof.
  destruct (proj1 (generateAssetId_single_run acme_tables 1 (acme_company "A-####" 1)
                     ltac:(vm_compute; reflexivity))
              "A-" 4%nat "" ltac:(reflexivity) ltac:(lia) ltac:(reflexivity)
              ltac:(reflexivity))
    as (padded & H & _ & _ & Hpad).
  rewrite H, Hpad by (vm_compute; lia). reflexivity.
Defined.

(** C10: a call of [generateAssetId] for a registered company stores the
    company again with its counter increased by exactly one and every other
    field as it was, whatever the pattern: with a pattern that has no
    placeholder the issued text is the pattern itself and the counter
    advances all the same.  No other company and no other table changes.
    This holds for [MemStorage], where the call cannot fail, and for every
    call of [DatabaseStorage] that returns. *)
Theorem generateAssetId_advances_counter :
  (forall s cid c,
     companies s !! cid = Some c ->
     exists a c',
       MemStorage.generateAssetId cid s = (Ok a, set_companies <[cid := c']> s) /\
       Company.currentAssetId c' = Company.currentAssetId c + 1 /\
       same_but_counter c c' /\
       (no_hash (Company.assetIdPattern c) = true -> a = Company.assetIdPattern c)) /\
  (forall d cid c a d',
     companies (tables d) !! cid = Some c ->
     DatabaseStorage.generateAssetId cid d = (Ok a, d') ->
     exists c',
       tables d' = set_companies <[cid := c']> (tables d) /\
       Company.currentAssetId c' = Company.currentAssetId c + 1 /\
       same_but_counter c c' /\
       (no_hash (Company.assetIdPattern c) = true -> a = Company.assetIdPattern c)).
Proof.
  split.
  - intros s cid c Hc.
    destruct (Mem_generateAssetId_Some _ _ _ Hc) as (c' & H & Hn & Hs).
    eexists _, c'. split; [exact H|]. split; [exact Hn|]. split; [exact Hs|].
    intros Hp. by apply replace_scan_no_hash.
  - intros d cid c a d' Hc (c2 & c' & Hc2 & -> & Ht & Hn & Hs)%Db_generateAssetId_Ok.
    rewrite Hc in Hc2. injection Hc2 as <-.
    exists c'. split; [exact Ht|]. split; [exact Hn|]. split; [exact Hs|].
    intros Hp. by apply replace_scan_no_hash.
Qed.

Lemma generateAssetId_advances_counter_witness :
  exists a c',
    MemStorage.generateAssetId 1 (with_pattern "ITEM" 5 acme_tables)
    = (Ok a, set_companies <[1 := c']> (with_pattern "ITEM" 5 acme_tables)) /\
    Company.currentAssetId c' = 6 /\ a = "ITEM".
Proof.
  destruct (proj1 generateAssetId_advances_counter
              (with_pattern "ITEM" 5 acme_tables) 1 (acme_company "ITEM" 5)
              ltac:(vm_compute; reflexivity))
    as (a & c' & H & Hn & _ & Hp).
  exists a, c'. split; [exact H|]. split; [exact Hn|]. apply Hp. reflexivity.
Defined.

(** ** Item creation and deletion in [MemStorage] *)

Lemma Mem_updateDepartment_keyed s k d data :
  departments s !! k = Some d ->
  MemStorage.updateDepartment k data s
  = (Ok (spread_department d data),
     set_departments <[k := spread_department d data]> s).
Proof.
  intros Hd. unfold MemStorage.updateDepartment, bind, gets, modify, ret.
  by rewrite Hd.
Qed.

Lemma Mem_getDepartment_None s k :
  MemStorage.getDepartment k None s = (Ok (departments s !! k), s).
Proof.
  unfold MemStorage.getDepartment, bind, gets, ret.
  by destruct (departments s !! k).
Qed.

(** The whole effect of a creation for a registered company. *)
Lemma Mem_createInventoryItem_Some now itemData s c :
  departments_keyed s ->
  companies s !! InsertInventoryItem.companyId itemData = Some c ->
  exists item,
    MemStorage.createInventoryItem now itemData s
    = (Ok item,
       set_departments (alter add_item (InsertInventoryItem.departmentId itemData))
         (set_inventoryItems <[inventoryItemIdCounter s := item]>
            (set_companies <[InsertInventoryItem.companyId itemData := bump_counter c]>
               (set_inventoryItemIdCounter (inventoryItemIdCounter s + 1) s)))) /\
    InventoryItem.id item = inventoryItemIdCounter s /\
    InventoryItem.companyId item = InsertInventoryItem.companyId itemData /\
    InventoryItem.departmentId item = InsertInventoryItem.departmentId itemData /\
    InventoryItem.name item = InsertInventoryItem.name itemData /\
    InventoryItem.assetId item
    = render_asset_id (Company.assetIdPattern c) (Company.currentAssetId c).
Proof.
  intros Hk Hc. eexists. split.
  - unfold MemStorage.createInventoryItem.
    rewrite (bind_eq _ _ s (inventoryItemIdCounter s) s) by done.
    rewrite (bind_eq _ _ s tt (set_inventoryItemIdCounter (inventoryItemIdCounter s + 1) s))
      by done.
    destruct (Mem_generateAssetId_Some
                (set_inventoryItemIdCounter (inventoryItemIdCounter s + 1) s) _ c Hc)
      as (c' & Hg & Hn & Hs).
    erewrite bind_eq by exact Hg.
    erewrite bind_eq by reflexivity.
    erewrite bind_eq by apply Mem_getDepartment_None.
    simpl. destruct (departments s !! InsertInventoryItem.departmentId itemData)
      as [d|] eqn:Hd.
    + pose proof (Hk _ _ Hd) as Hid.
      erewrite bind_eq.
      2:{ erewrite bind_eq; [reflexivity|].
          apply Mem_updateDepartment_keyed. simpl. by rewrite Hid. }
      unfold ret. f_equal. unfold set_departments, set_inventoryItems, set_companies.
      simpl. f_equal.
      * f_equal. destruct c, c'. unfold same_but_counter, bump_counter in *. simpl in *.
        destruct Hs as (? & ? & ? & ? & ? & ?). congruence.
      * rewrite Hid. apply map_eq. intros k. rewrite lookup_alter.
        destruct (decide (InsertInventoryItem.departmentId itemData = k)) as [<-|Hne].
        -- rewrite lookup_insert_eq, Hd. reflexivity.
        -- by rewrite lookup_insert_ne.
    + erewrite bind_eq by reflexivity.
      unfold ret. f_equal. unfold set_departments, set_inventoryItems, set_companies.
      simpl. f_equal.
      * f_equal. destruct c, c'. unfold same_but_counter, bump_counter in *. simpl in *.
        destruct Hs as (? & ? & ? & ? & ? & ?). congruence.
      * apply map_eq. intros k. rewrite lookup_alter.
        destruct (decide (InsertInventoryItem.departmentId itemData = k)) as [<-|Hne];
          [by rewrite Hd | done].
  - by repeat split.
Qed.

Lemma Mem_createInventoryItem_None now itemData s :
  companies s !! InsertInventoryItem.companyId itemData = None ->
  MemStorage.createInventoryItem now itemData s
  = (Throw (not_found "Company" (InsertInventoryItem.companyId itemData)),
     set_inventoryItemIdCounter (inventoryItemIdCounter s + 1) s).
Proof.
  intros Hc. unfold MemStorage.createInventoryItem.
  rewrite (bind_eq _ _ s (inventoryItemIdCounter s) s) by done.
  rewrite (bind_eq _ _ s tt (set_inventoryItemIdCounter (inventoryItemIdCounter s + 1) s))
    by done.
  unfold bind. by rewrite Mem_generateAssetId_None.
Qed.

Lemma alter_add_item_keyed k (m : gmap Z Department.t) :
  (forall j d, m !! j = Some d -> Department.id d = j) ->
  forall j d, alter add_item k m !! j = Some d -> Department.id d = j.
Proof.
  intros H j d. rewrite lookup_alter. destruct (decide (k = j)) as [<-|?]; [|apply H].
  destruct (m !! k) as [d0|] eqn:E; [|done]. intros [= <-]. simpl. by apply H.
Qed.

(** The creations of one tenant, one after the other: all succeed and the
    i-th takes the counter value [i] above the starting one. *)
Lemma create_items_one_tenant requests : forall s cid c,
  departments_keyed s ->
  companies s !! cid = Some c ->
  Forall (fun r => InsertInventoryItem.companyId r.2 = cid) requests ->
  exists items s',
    create_items requests s = (Ok items, s') /\
    length items = length requests /\
    (forall i item, items !! i = Some item ->
       InventoryItem.companyId item = cid /\
       InventoryItem.assetId item
       = render_asset_id (Company.assetIdPattern c)
           (Company.currentAssetId c + Z.of_nat i)).
Proof.
  induction requests as [|[now itemData] rest IH]; intros s cid c Hk Hc Hall.
  { exists [], s. by repeat split. }
  apply Forall_cons in Hall as [Hcid Hall]. simpl in Hcid. subst cid.
  destruct (Mem_createInventoryItem_Some now itemData s c Hk Hc)
    as (item & Hcreate & Hid & Hco & Hdep & Hname & Hasset).
  match type of Hcreate with _ = (_, ?t) => set (s1 := t) in * end.
  destruct (IH s1 (InsertInventoryItem.companyId itemData) (bump_counter c))
    as (items & s' & Hrest & Hlen & Hitems).
  { intros j d. apply alter_add_item_keyed, Hk. }
  { simpl. apply lookup_insert_eq. }
  { done. }
  exists (item :: items), s'. split; [|split].
  - simpl. rewrite (bind_eq _ _ _ _ _ Hcreate), (bind_eq _ _ _ _ _ Hrest). done.
  - simpl. by rewrite Hlen.
  - intros [|i] it; simpl.
    + intros [= <-]. split; [done|]. by rewrite Z.add_0_r.
    + intros Hi. destruct (Hitems i it Hi) as [? Ha]. split; [done|].
      rewrite Ha. simpl. f_equal. lia.
Qed.

(** C4 (as amended): the creations of one tenant, one after the other,
    each take the next counter value: the i-th created item carries the
    pattern filled with the starting counter plus [i], so the embedded
    number grows by one from each item to the next; and when the pattern
    holds at least one placeholder no two of the created items carry the
    same asset id. *)
Theorem create_items_distinct_asset_ids
    (requests : list (Date * InsertInventoryItem.t)) (s : Tables) (cid : Z)
    (c : Company.t) :
  departments_keyed s ->
  companies s !! cid = Some c ->
  Forall (fun r => InsertInventoryItem.companyId r.2 = cid) requests ->
  exists items s',
    create_items requests s = (Ok items, s') /\
    length items = length requests /\
    (forall i item, items !! i = Some item ->
       InventoryItem.assetId item
       = render_asset_id (Company.assetIdPattern c)
           (Company.currentAssetId c + Z.of_nat i)) /\
    (no_hash (Company.assetIdPattern c) = false ->
     forall i j item_i item_j,
       items !! i = Some item_i -> items !! j = Some item_j -> i <> j ->
       InventoryItem.assetId item_i <> InventoryItem.assetId item_j).
Proof.
  intros Hk Hc Hall.
  destruct (create_items_one_tenant requests s cid c Hk Hc Hall)
    as (items & s' & Hrun & Hlen & Hitems).
  exists items, s'. split; [done|]. split; [done|]. split.
  - intros i item Hi. by destruct (Hitems i item Hi).
  - intros Hp i j item_i item_j Hi Hj Hne Heq.
    destruct (Hitems i _ Hi) as [_ Ha], (Hitems j _ Hj) as [_ Hb].
    rewrite Ha, Hb in Heq. apply render_asset_id_inj in Heq; [lia | done].
Qed.

Lemma create_items_distinct_asset_ids_witness :
  exists items s',
    create_items [(10, widget 1); (20, widget 1)] acme_tables = (Ok items, s') /\
    InventoryItem.assetId <$> items = ["A-0001"; "A-0002"].
Proof.
  destruct (create_items_distinct_asset_ids [(10, widget 1); (20, widget 1)]
              acme_tables 1 (acme_company "A-####" 1)
              ltac:(apply (bool_decide_unpack _); vm_compute; exact I)
              ltac:(vm_compute; reflexivity)
              ltac:(repeat constructor))
    as (items & s' & Hrun & Hlen & Hids & _).
  exists items, s'. split; [exact Hrun|].
  destruct items as [|a [|b [|? ?]]]; try discriminate Hlen.
  simpl. rewrite (Hids 0%nat a eq_refl), (Hids 1%nat b eq_refl).
  vm_compute. reflexivity.
Defined.

(** C4 (as stated, refuted): with the pattern ["ITEM"], which holds no
    placeholder, two creations of the same tenant both receive the asset id
    ["ITEM"]. *)
Lemma create_items_same_asset_id :
  ~ (forall requests s cid items s',
       Forall (fun r => InsertInventoryItem.companyId r.2 = cid) requests ->
       create_items requests s = (Ok items, s') ->
       forall i j item_i item_j,
         items !! i = Some item_i -> items !! j = Some item_j -> i <> j ->
         InventoryItem.assetId item_i <> InventoryItem.assetId item_j).
Proof.
  intros H.
  assert (exists a b s',
            create_items [(10, widget 1); (20, widget 1)]
              (with_pattern "ITEM" 1 acme_tables) = (Ok [a; b], s') /\
            InventoryItem.assetId a = InventoryItem.assetId b)
    as (a & b & s' & Hrun & Heq).
  { vm_compute. eexists _, _, _. split; reflexivity. }
  refine (H _ _ 1 _ _ _ Hrun 0%nat 1%nat a b eq_refl eq_refl _ Heq).
  - repeat constructor.
  - lia.
Qed.

(** The store a fresh [MemStorage] starts from meets the conditions the
    statements below ask of a store. *)
Lemma new_tables_invariants :
  departments_keyed new_tables /\ counters_nonneg new_tables /\ log_ids_fresh new_tables.
Proof.
  unfold departments_keyed, counters_nonneg, log_ids_fresh.
  split; [|split]; apply map_Forall_empty.
Qed.

(** ** Capacity accounting *)

Ltac unfold_mem :=
  unfold MemStorage.createInventoryItem, MemStorage.deleteInventoryItem,
    MemStorage.updateInventoryItem, MemStorage.createActivityLog,
    MemStorage.generateAssetId, MemStorage.updateDepartment,
    MemStorage.getDepartment, MemStorage.getCompany, MemStorage.getInventoryItem,
    MemStorage.getUserDepartments, bind, gets, modify, ret, throw.

Lemma counters_nonneg_insert s k row :
  counters_nonneg s ->
  0 <= Department.assetCount row -> 0 <= Department.capacityUsed row ->
  map_Forall (fun _ d => 0 <= Department.assetCount d /\ 0 <= Department.capacityUsed d)
    (<[k := row]> (departments s)).
Proof. intros H ? ?. by apply map_Forall_insert_2. Qed.

Lemma Mem_createInventoryItem_nonneg now itemData s :
  counters_nonneg s -> counters_nonneg (MemStorage.createInventoryItem now itemData s).2.
Proof.
  intros H. unfold_mem. simpl.
  destruct (companies s !! _) as [c|]; simpl; [|done].
  destruct (departments s !! InsertInventoryItem.departmentId itemData) as [d|] eqn:Hd;
    simpl; [|done].
  destruct (departments s !! Department.id d) as [row|] eqn:Hrow; simpl; [|done].
  destruct (H _ _ Hd). unfold counters_nonneg. simpl.
  apply counters_nonneg_insert; simpl; [done|lia..].
Qed.

Lemma Mem_deleteInventoryItem_nonneg id s :
  counters_nonneg s -> counters_nonneg (MemStorage.deleteInventoryItem id s).2.
Proof.
  intros H. unfold_mem. simpl.
  destruct (inventoryItems s !! id) as [item|]; simpl; [|done].
  destruct (departments s !! InventoryItem.departmentId item) as [d|] eqn:Hd;
    simpl; [|done].
  destruct (departments s !! Department.id d) as [row|] eqn:Hrow; simpl; [|done].
  unfold counters_nonneg. simpl.
  apply counters_nonneg_insert; simpl; [done|lia..].
Qed.

Lemma run_ops_nonneg ops : forall s, counters_nonneg s -> counters_nonneg (run_ops ops s).
Proof.
  unfold run_ops. induction ops as [|op ops IH]; intros s H; [done|].
  simpl. apply IH. destruct op; simpl.
  - by apply Mem_createInventoryItem_nonneg.
  - by apply Mem_deleteInventoryItem_nonneg.
Qed.

Lemma Mem_deleteInventoryItem_Some id s item :
  departments_keyed s ->
  inventoryItems s !! id = Some item ->
  MemStorage.deleteInventoryItem id s
  = (Ok tt,
     set_inventoryItems (delete id)
       (set_departments (alter remove_item (InventoryItem.departmentId item)) s)).
Proof.
  intros Hk Hi. unfold_mem. rewrite Hi. simpl.
  destruct (departments s !! InventoryItem.departmentId item) as [d|] eqn:Hd; simpl.
  - rewrite (Hk _ _ Hd), Hd. simpl. do 2 f_equal.
    unfold set_departments. simpl. f_equal.
    apply map_eq. intros k. rewrite lookup_alter.
    destruct (decide (InventoryItem.departmentId item = k)) as [<-|Hne].
    + rewrite lookup_insert_eq, Hd. simpl. unfold remove_item, spread_department. simpl.
      by rewrite (Hk _ _ Hd).
    + by rewrite lookup_insert_ne.
  - do 2 f_equal. unfold set_departments. destruct s; simpl in *. f_equal.
    apply map_eq. intros k. rewrite lookup_alter.
    destruct (decide (InventoryItem.departmentId item = k)) as [<-|Hne];
      [by rewrite Hd | done].
Qed.

Lemma alter_remove_item_keyed k (m : gmap Z Department.t) :
  map_Forall (fun j d => Department.id d = j) m ->
  map_Forall (fun j d => Department.id d = j) (alter remove_item k m).
Proof.
  intros H j d. rewrite lookup_alter. destruct (decide (k = j)) as [<-|?]; [|apply H].
  destruct (m !! k) as [d0|] eqn:E; [|done]. intros [= <-]. simpl. by apply H.
Qed.

Lemma iter_add_item n d :
  Department.assetCount (Nat.iter n add_item d) = Department.assetCount d + Z.of_nat n /\
  Department.capacityUsed (Nat.iter n add_item d)
  = Department.capacityUsed d + 10 * Z.of_nat n.
Proof.
  induction n as [|n [IH1 IH2]]; simpl; [lia|]. rewrite IH1, IH2. lia.
Qed.

(** What successful creations into one department leave behind. *)
Lemma create_items_in_department requests d : forall s items s',
  departments_keyed s ->
  Forall (fun r => InsertInventoryItem.departmentId r.2 = d) requests ->
  create_items requests s = (Ok items, s') ->
  departments_keyed s' /\
  length items = length requests /\
  departments s' !! d = Nat.iter (length requests) add_item <$> departments s !! d /\
  inventoryItemIdCounter s' = inventoryItemIdCounter s + Z.of_nat (length requests) /\
  (forall k, k < inventoryItemIdCounter s -> inventoryItems s' !! k = inventoryItems s !! k) /\
  (forall i item, items !! i = Some item ->
     InventoryItem.id item = inventoryItemIdCounter s + Z.of_nat i /\
     InventoryItem.departmentId item = d /\
     inventoryItems s' !! InventoryItem.id item = Some item).
Proof.
  induction requests as [|[now itemData] rest IH]; intros s items s' Hk Hall Hrun.
  { injection Hrun as <- <-. repeat split; try done.
    - by destruct (departments s !! d).
    - simpl. lia. }
  apply Forall_cons in Hall as [Hd Hall]. simpl in Hd. subst d.
  simpl in Hrun. apply bind_Ok in Hrun as (item & s1 & Hcreate & Hrun).
  apply bind_Ok in Hrun as (items' & s2 & Hrest & [= <- <-]).
  destruct (companies s !! InsertInventoryItem.companyId itemData) as [c|] eqn:Hc.
  2:{ by rewrite Mem_createInventoryItem_None in Hcreate. }
  destruct (Mem_createInventoryItem_Some now itemData s c Hk Hc)
    as (item0 & Hcreate0 & Hid & _ & Hdep & _).
  rewrite Hcreate0 in Hcreate. injection Hcreate as -> <-.
  apply IH in Hrest as (Hk' & Hlen & Hdept & Hctr & Hframe & Hitems); [|..|done].
  2:{ intros j dd. apply alter_add_item_keyed, Hk. }
  simpl in *. split; [done|]. split; [by rewrite Hlen|]. split; [|split; [|split]].
  - rewrite Hdept, lookup_alter, decide_True by done.
    destruct (departments s !! InsertInventoryItem.departmentId itemData); [|done].
    simpl. f_equal. clear. induction (length rest) as [|n IHn]; [done|].
    simpl. by rewrite IHn.
  - lia.
  - intros k Hlt. rewrite Hframe by lia. rewrite lookup_insert_ne by lia. done.
  - intros [|i] it; simpl.
    + intros [= <-]. split; [lia|]. split; [done|].
      rewrite Hframe by lia. rewrite Hid. apply lookup_insert_eq.
    + intros Hi. destruct (Hitems i it Hi) as (? & ? & ?). split; [lia|]. done.
Qed.

(** Deleting [n] items of a department that counts [n] items empties its
    counters. *)
Lemma delete_items_in_department ids d : forall s dept,
  departments_keyed s ->
  NoDup ids ->
  (forall id, id ∈ ids -> exists item,
     inventoryItems s !! id = Some item /\ InventoryItem.departmentId item = d) ->
  departments s !! d = Some dept ->
  Department.assetCount dept = Z.of_nat (length ids) ->
  Department.capacityUsed dept = 10 * Z.of_nat (length ids) ->
  exists s' dept',
    delete_items ids s = (Ok tt, s') /\
    departments s' !! d = Some dept' /\
    Department.assetCount dept' = 0 /\ Department.capacityUsed dept' = 0.
Proof.
  induction ids as [|id ids IH]; intros s dept Hk Hnd Hin Hd Hn Hc.
  { exists s, dept. by repeat split. }
  apply NoDup_cons in Hnd as [Hnotin Hnd].
  destruct (Hin id) as (item & Hitem & Hdep); [by left|]. subst d.
  pose proof (Mem_deleteInventoryItem_Some id s item Hk Hitem) as Hdel.
  match type of Hdel with _ = (_, ?t) => set (s1 := t) in * end.
  destruct (IH s1 (remove_item dept)) as (s' & dept' & Hrun & Hd' & H1 & H2).
  - apply alter_remove_item_keyed, Hk.
  - done.
  - intros j Hj. destruct (Hin j) as (it & Hit & Hdj); [by right|].
    exists it. split; [|done]. simpl. rewrite lookup_delete_ne; [done|].
    intros ->. done.
  - simpl. rewrite lookup_alter, decide_True, Hd by done. done.
  - simpl in *. lia.
  - simpl in *. lia.
  - exists s', dept'. split; [|done]. simpl. by rewrite (bind_eq _ _ _ _ _ Hdel).
Qed.

(** C7: along any sequence of creations and deletions no department's
    item count or capacity-used becomes negative; and when [N] items are
    created in a department whose counters are 0, the counters stand at [N]
    and [10 N], and deleting these [N] items, in any order, succeeds and
    brings both counters back to exactly 0. *)
Theorem capacity_counters_nonneg_and_return_to_zero :
  (forall ops s, counters_nonneg s -> counters_nonneg (run_ops ops s)) /\
  (forall requests s d dept items s1 ids,
     departments_keyed s ->
     departments s !! d = Some dept ->
     Department.assetCount dept = 0 -> Department.capacityUsed dept = 0 ->
     Forall (fun r => InsertInventoryItem.departmentId r.2 = d) requests ->
     create_items requests s = (Ok items, s1) ->
     ids ≡ₚ (InventoryItem.id <$> items) ->
     (exists dept1,
        departments s1 !! d = Some dept1 /\
        Department.assetCount dept1 = Z.of_nat (length requests) /\
        Department.capacityUsed dept1 = 10 * Z.of_nat (length requests)) /\
     (exists s2 dept2,
        delete_items ids s1 = (Ok tt, s2) /\
        departments s2 !! d = Some dept2 /\
        Department.assetCount dept2 = 0 /\ Department.capacityUsed dept2 = 0)).
Proof.
  split; [apply run_ops_nonneg|].
  intros requests s d dept items s1 ids Hk Hd Hn Hc Hall Hrun Hperm.
  destruct (create_items_in_department requests d s items s1 Hk Hall Hrun)
    as (Hk1 & Hlen & Hd1 & _ & _ & Hitems).
  rewrite Hd in Hd1. simpl in Hd1.
  destruct (iter_add_item (length requests) dept) as [Hn1 Hc1].
  split.
  { eexists. split; [exact Hd1|]. rewrite Hn1, Hc1. lia. }
  assert (Hlen' : length ids = length requests).
  { by rewrite Hperm, length_fmap. }
  eapply delete_items_in_department; [done|..|exact Hd1| |].
  - rewrite Hperm. apply NoDup_alt. intros i j x Hi Hj.
    apply list_lookup_fmap_Some in Hi as (a & -> & Ha).
    apply list_lookup_fmap_Some in Hj as (b & Hab & Hb).
    destruct (Hitems i a Ha) as (Hia & _), (Hitems j b Hb) as (Hjb & _). lia.
  - intros id Hid. rewrite Hperm in Hid.
    apply list_elem_of_fmap in Hid as (a & -> & Ha).
    apply list_elem_of_lookup in Ha as [i Ha].
    destruct (Hitems i a Ha) as (_ & ? & ?). by exists a.
  - rewrite Hn1, Hlen'. lia.
  - rewrite Hc1, Hlen'. lia.
Qed.

Lemma capacity_counters_nonneg_and_return_to_zero_witness :
  counters_nonneg
    (run_ops [OpCreate 10 (widget 1); OpDelete 1; OpDelete 1; OpCreate 20 (widget 1)]
       acme_tables) /\
  exists items s1 s2 dept2,
    create_items [(10, widget 1); (20, widget 1)] acme_tables = (Ok items, s1) /\
    delete_items [2; 1] s1 = (Ok tt, s2) /\
    departments s2 !! 1 = Some dept2 /\
    Department.assetCount dept2 = 0 /\ Department.capacityUsed dept2 = 0.
Proof.
  split.
  { apply (proj1 capacity_counters_nonneg_and_return_to_zero).
    apply (bool_decide_unpack _). vm_compute. exact I. }
  assert (exists a b s1,
            create_items [(10, widget 1); (20, widget 1)] acme_tables = (Ok [a; b], s1) /\
            InventoryItem.id a = 1 /\ InventoryItem.id b = 2)
    as (a & b & s1 & Hrun & Ha & Hb).
  { vm_compute. eexists _, _, _. repeat split; reflexivity. }
  destruct (proj2 capacity_counters_nonneg_and_return_to_zero
              [(10, widget 1); (20, widget 1)] acme_tables 1 general_department
              [a; b] s1 [2; 1]
              ltac:(apply (bool_decide_unpack _); vm_compute; exact I)
              ltac:(vm_compute; reflexivity)
              ltac:(reflexivity) ltac:(reflexivity)
              ltac:(repeat constructor)
              Hrun
              ltac:(simpl; rewrite Ha, Hb; apply perm_swap))
    as (_ & s2 & dept2 & Hdel & Hd & Hn & Hc).
  exists [a; b], s1, s2, dept2. repeat split; assumption.
Defined.

(** ** Both storage classes meet what the routes rely on *)

Lemma alter_absent {A} (f : A -> A) (k : Z) (m : gmap Z A) :
  m !! k = None -> alter f k m = m.
Proof.
  intros H. apply map_eq. intros j. rewrite lookup_alter.
  destruct (decide (k = j)) as [<-|?]; [by rewrite H | done].
Qed.

Lemma alter_present {A} (f : A -> A) (k : Z) (m : gmap Z A) (x : A) :
  m !! k = Some x -> alter f k m = <[k := f x]> m.
Proof.
  intros H. apply map_eq. intros j. rewrite lookup_alter.
  destruct (decide (k = j)) as [<-|?].
  - by rewrite lookup_insert_eq, H.
  - by rewrite lookup_insert_ne.
Qed.

Lemma set_inventoryItems_id (t : Tables) : set_inventoryItems (fun m => m) t = t.
Proof. by destruct t. Qed.

Lemma set_departments_id (t : Tables) : set_departments (fun m => m) t = t.
Proof. by destruct t. Qed.

Lemma Mem_lawful : Lawful MemStorage.storage (fun s => s).
Proof.
  split; simpl.
  - intros id s r s'. unfold_mem. intros [= <- <-]. split; [done|]. by intros o [= <-].
  - intros uid s r s'. unfold_mem. by intros [= <- <-].
  - intros id s r s'. rewrite Mem_getDepartment_None. intros [= <- <-].
    split; [done|]. by intros o [= <-].
  - intros now logData s r s'. unfold_mem. by intros [= <- <-].
  - intros now id data s r s'. unfold_mem.
    destruct (inventoryItems s !! id) as [old|] eqn:Hold; intros [= <- <-]; [|done].
    by exists old.
  - intros id s r s'. unfold_mem.
    destruct (inventoryItems s !! id) as [item|] eqn:Hitem; simpl.
    2:{ intros [= <- <-]. split; [done|]. discriminate. }
    destruct (departments s !! InventoryItem.departmentId item) as [d|]; simpl.
    + destruct (departments s !! Department.id d) as [row|]; simpl; intros [= <- <-].
      * split; [done|]. intros _. by exists item.
      * split; [done|]. discriminate.
    + intros [= <- <-]. split; [done|]. intros _. by exists item.
  - intros now itemData s r s'. unfold_mem. simpl.
    destruct (companies s !! InsertInventoryItem.companyId itemData) as [c|]; simpl.
    2:{ intros [= <- <-]. split; [done|]. discriminate. }
    destruct (departments s !! InsertInventoryItem.departmentId itemData) as [d|]; simpl.
    + destruct (departments s !! Department.id d) as [row|]; simpl; intros [= <- <-].
      * split; [done|]. intros item [= <-]. simpl. apply lookup_insert_eq.
      * split; [done|]. discriminate.
    + intros [= <- <-]. split; [done|]. intros item [= <-]. simpl. apply lookup_insert_eq.
Qed.

Section Steps.
Context {S : Type} (R : S -> S -> Prop) `{!PreOrder R}.

Lemma steps_ret {A} (a : A) : steps R (ret a).
Proof. intros s r s' [= <- <-]. reflexivity. Qed.

Lemma steps_throw {A} (e : Error) : steps R (@throw S A e).
Proof. intros s r s' [= <- <-]. reflexivity. Qed.

Lemma steps_gets {A} (f : S -> A) : steps R (gets f).
Proof. intros s r s' [= <- <-]. reflexivity. Qed.

Lemma steps_bind {A B} (m : M S A) (k : A -> M S B) :
  steps R m -> (forall a, steps R (k a)) -> steps R (bind m k).
Proof.
  intros Hm Hk s r s' [(a & s1 & H1 & H2)|(e & H1 & _)]%bind_inv.
  - etransitivity; [by eapply Hm | by eapply Hk].
  - by eapply Hm.
Qed.

Lemma steps_try_catch {A} (m : M S A) (h : Error -> A) s a s' :
  steps R m -> try_catch m h s = (a, s') -> R s s'.
Proof.
  unfold try_catch. intros Hm. destruct (m s) as [[x|e] s1] eqn:E; intros [= <- <-];
    by eapply Hm.
Qed.
End Steps.

(** A statement steps by [R] when its query does. *)
Lemma steps_statement {A} (R : Tables -> Tables -> Prop) `{!Reflexive R}
    (q : Tables -> A * Tables) :
  (forall t, R t (q t).2) -> steps (fun d d' => R (tables d) (tables d')) (statement q).
Proof.
  intros Hq d r d' [[_ ->]|(a & _ & Hd)]%statement_inv; [reflexivity|].
  specialize (Hq (tables d)). by rewrite Hd in Hq.
Qed.

Global Instance same_logs_preorder : PreOrder same_logs.
Proof.
  split.
  - by intros t.
  - intros t1 t2 t3 [H1 H2] [H3 H4]. split; congruence.
Qed.

Global Instance on_view_preorder {S} (view : S -> Tables)
    (R : Tables -> Tables -> Prop) `{!PreOrder R} :
  PreOrder (fun s s' : S => R (view s) (view s')).
Proof.
  split.
  - intros d. reflexivity.
  - intros d1 d2 d3 H1 H2. etransitivity; eassumption.
Qed.

Global Instance log_kept_preorder : PreOrder log_kept.
Proof.
  split.
  - by intros t Hf.
  - intros t1 t2 t3 H12 H23 Hf. destruct (H12 Hf) as [Hf2 Hs12].
    destruct (H23 Hf2) as [Hf3 Hs23]. split; [done|]. by etransitivity.
Qed.

Lemma log_kept_same_logs t t' : same_logs t t' -> log_kept t t'.
Proof.
  intros [Hl Hc] Hf. split.
  - unfold log_ids_fresh. by rewrite Hl, Hc.
  - by rewrite Hl.
Qed.

Lemma log_kept_append t (row : ActivityLog.t) :
  log_kept t
    (set_activityLogs <[activityLogIdCounter t := row]>
       (set_activityLogIdCounter (activityLogIdCounter t + 1) t)).
Proof.
  intros Hf. split.
  - unfold log_ids_fresh. simpl. apply map_Forall_insert_2; [lia|].
    intros k x Hk. apply Hf in Hk. simpl in Hk. lia.
  - simpl. apply insert_subseteq.
    destruct (activityLogs t !! activityLogIdCounter t) eqn:E; [|done].
    apply Hf in E. lia.
Qed.

Global Instance same_on_preorder {A} (f : Tables -> A) :
  PreOrder (fun t t' => f t' = f t).
Proof. split; [by intros t | intros t1 t2 t3 H1 H2; congruence]. Qed.

Lemma Db_select_steps {A} (R : Tables -> Tables -> Prop) `{!Reflexive R}
    (table : Tables -> gmap Z A) id :
  steps (fun d d' => R (tables d) (tables d')) (select_by_id table id).
Proof. apply steps_statement; [done|]. intros t. simpl. reflexivity. Qed.

Lemma Db_updateDepartment_steps (R : Tables -> Tables -> Prop) `{!PreOrder R} id data :
  (forall t f, R t (set_departments f t)) ->
  steps (fun d d' => R (tables d) (tables d')) (DatabaseStorage.updateDepartment id data).
Proof.
  intros HR. unfold DatabaseStorage.updateDepartment.
  apply steps_bind; [apply _| |].
  - apply steps_statement; [apply _|]. intros t. simpl. apply HR.
  - intros [row|]; [apply steps_ret | apply steps_throw]; apply _.
Qed.

Lemma Db_generateAssetId_steps (R : Tables -> Tables -> Prop) `{!PreOrder R} cid :
  (forall t f, R t (set_companies f t)) ->
  steps (fun d d' => R (tables d) (tables d')) (DatabaseStorage.generateAssetId cid).
Proof.
  intros HR. unfold DatabaseStorage.generateAssetId, DatabaseStorage.getCompany.
  apply steps_bind; [apply _| |].
  - apply Db_select_steps. apply _.
  - intros [c|]; [|apply steps_throw; apply _].
    apply steps_bind; [apply _| |].
    + apply steps_statement; [apply _|]. intros t. simpl. apply HR.
    + intros _. apply steps_ret. apply _.
Qed.

(** The accounting step shared by creation and deletion. *)
Lemma Db_account_steps (R : Tables -> Tables -> Prop) `{!PreOrder R}
    (department : option Department.t)
    (data : Department.t -> PartialDepartment.t) :
  (forall t f, R t (set_departments f t)) ->
  steps (fun d d' => R (tables d) (tables d'))
    (match department with
     | Some department =>
         do! DatabaseStorage.updateDepartment (Department.id department) (data department)
         in ret tt
     | None => ret tt
     end).
Proof.
  intros HR. destruct department as [dep|]; [|apply steps_ret; apply _].
  apply steps_bind; [apply _| |].
  - by apply Db_updateDepartment_steps.
  - intros _. apply steps_ret. apply _.
Qed.

Lemma Db_createInventoryItem_steps (R : Tables -> Tables -> Prop) `{!PreOrder R}
    now itemData :
  (forall t f, R t (set_departments f t)) ->
  (forall t f, R t (set_companies f t)) ->
  (forall t f n, R t (set_inventoryItems f (set_inventoryItemIdCounter n t))) ->
  steps (fun d d' => R (tables d) (tables d'))
    (DatabaseStorage.createInventoryItem now itemData).
Proof.
  intros HD HC HI. unfold DatabaseStorage.createInventoryItem.
  apply steps_bind; [apply _| |].
  { by apply Db_generateAssetId_steps. }
  intros assetId. apply steps_bind; [apply _| |].
  { apply steps_statement; [apply _|]. intros t. simpl. apply HI. }
  intros item. apply steps_bind; [apply _| |].
  { apply Db_select_steps. apply _. }
  intros department. apply steps_bind; [apply _| |].
  { by apply (Db_account_steps R department
                (fun department => PartialDepartment.mk None None None _ _ None)). }
  intros _. apply steps_ret. apply _.
Qed.

Lemma Db_deleteInventoryItem_steps (R : Tables -> Tables -> Prop) `{!PreOrder R} id :
  (forall t f, R t (set_departments f t)) ->
  (forall t f, R t (set_inventoryItems f t)) ->
  steps (fun d d' => R (tables d) (tables d')) (DatabaseStorage.deleteInventoryItem id).
Proof.
  intros HD HI. unfold DatabaseStorage.deleteInventoryItem, DatabaseStorage.getInventoryItem.
  apply steps_bind; [apply _| |].
  { apply Db_select_steps. apply _. }
  intros [item|]; [|apply steps_throw; apply _].
  apply steps_bind; [apply _| |].
  { apply Db_select_steps. apply _. }
  intros department. apply steps_bind; [apply _| |].
  { by apply (Db_account_steps R department
                (fun department => PartialDepartment.mk None None None _ _ None)). }
  intros _. apply steps_statement; [apply _|]. intros t. simpl. apply HI.
Qed.

Lemma Db_updateInventoryItem_inv now id data d r d' :
  DatabaseStorage.updateInventoryItem now id data d = (r, d') ->
  match r with
  | Throw _ => tables d' = tables d
  | Ok row =>
      exists old,
        inventoryItems (tables d) !! id = Some old /\
        row = with_updatedAt (spread_item old data) now /\
        tables d' = set_inventoryItems <[id := row]> (tables d)
  end.
Proof.
  unfold DatabaseStorage.updateInventoryItem.
  intros [(o & d1 & Hs & Hk)|(e & Hs & ->)]%bind_inv.
  - apply statement_Ok in Hs. injection Hs as Ho Ht.
    rewrite lookup_alter, decide_True in Ho by done.
    destruct (inventoryItems (tables d) !! id) as [old|] eqn:Hold; simpl in Ho; subst o.
    + unfold ret in Hk. injection Hk as Hr Hd. subst r d1.
      exists old. split; [done|]. split; [done|].
      rewrite <- Ht. unfold set_inventoryItems. simpl. f_equal.
      by apply (alter_present (fun row => with_updatedAt (spread_item row data) now)).
    + unfold throw in Hk. injection Hk as Hr Hd. subst r d1. rewrite <- Ht.
      rewrite <- (set_inventoryItems_id (tables d)) at 2.
      unfold set_inventoryItems. simpl. f_equal. by apply alter_absent.
  - by apply statement_inv in Hs as [[_ ?]|(? & ? & _)].
Qed.

Lemma Db_createInventoryItem_stored now itemData d item d' :
  DatabaseStorage.createInventoryItem now itemData d = (Ok item, d') ->
  inventoryItems (tables d') !! InventoryItem.id item = Some item.
Proof.
  unfold DatabaseStorage.createInventoryItem.
  intros (assetId & d1 & _ & H)%bind_Ok.
  apply bind_Ok in H as (row & d2 & Hins%statement_Ok & H).
  injection Hins as Hrow Ht2.
  apply bind_Ok in H as (department & d3 & Hsel & H).
  apply bind_Ok in H as ([] & d4 & Hacc & [= <- <-]).
  assert (Hstored : inventoryItems (tables d2) !! InventoryItem.id row = Some row).
  { rewrite <- Ht2, <- Hrow. simpl. apply lookup_insert_eq. }
  apply (Db_select_steps (fun t t' => inventoryItems t' = inventoryItems t)) in Hsel.
  apply (Db_account_steps (fun t t' => inventoryItems t' = inventoryItems t)) in Hacc;
    [|done].
  simpl in *. by rewrite Hacc, Hsel.
Qed.

Lemma Db_deleteInventoryItem_Ok id d d' :
  DatabaseStorage.deleteInventoryItem id d = (Ok tt, d') ->
  exists item,
    inventoryItems (tables d) !! id = Some item /\
    inventoryItems (tables d') = delete id (inventoryItems (tables d)).
Proof.
  unfold DatabaseStorage.deleteInventoryItem, DatabaseStorage.getInventoryItem.
  intros (o & d1 & [-> Ht1]%select_by_id_Ok & H)%bind_Ok.
  destruct (inventoryItems (tables d) !! id) as [item|] eqn:Hitem; [|discriminate].
  exists item. split; [done|].
  apply bind_Ok in H as (department & d2 & Hsel & H).
  apply bind_Ok in H as ([] & d3 & Hacc & Hdel%statement_Ok).
  injection Hdel as Hdel.
  apply (Db_select_steps (fun t t' => inventoryItems t' = inventoryItems t)) in Hsel.
  apply (Db_account_steps (fun t t' => inventoryItems t' = inventoryItems t)) in Hacc;
    [|done].
  simpl in *. rewrite <- Hdel. simpl. by rewrite Hacc, Hsel, Ht1.
Qed.

Lemma Db_lawful : Lawful DatabaseStorage.storage tables.
Proof.
  split; simpl.
  - intros id d r d' H. split.
    + by apply (Db_select_steps (fun t t' => t' = t)) in H.
    + intros o ->. by apply select_by_id_Ok in H as [-> _].
  - intros uid d r d' H.
    unfold DatabaseStorage.getUserDepartments in H.
    by apply statement_inv in H as [[_ ?]|(a & _ & [= _ ?])].
  - intros id d r d' H. split.
    + by apply (Db_select_steps (fun t t' => t' = t)) in H.
    + intros o ->. by apply select_by_id_Ok in H as [-> _].
  - intros now logData d r d' H. unfold DatabaseStorage.createActivityLog in H.
    apply statement_inv in H as [[-> ?]|(a & -> & [= <- <-])]; done.
  - apply Db_updateInventoryItem_inv.
  - intros id d r d' H. split.
    + by apply (Db_deleteInventoryItem_steps same_logs) in H.
    + intros ->. by apply Db_deleteInventoryItem_Ok.
  - intros now itemData d r d' H. split.
    + by apply (Db_createInventoryItem_steps same_logs) in H.
    + intros item ->. by apply Db_createInventoryItem_stored in H.
Qed.

(** ** The inventory routes over a storage that meets the laws *)

Section RouteProperties.
Context {S : Type} (storage : IStorage.t S) (view : S -> Tables).
Context (laws : Lawful storage view).
Context (parse : PartialInventoryItem.t -> option InsertInventoryItem.t).

Lemma hasDepartmentAccess_view user departmentId s r s' :
  hasDepartmentAccess storage user departmentId s = (r, s') -> view s' = view s.
Proof.
  unfold hasDepartmentAccess. destruct (decide _); [by intros [= <- <-]|].
  intros [(a & s1 & H1 & [= <- <-])|(e & H1 & _)]%bind_inv;
    by eapply law_getUserDepartments.
Qed.

Lemma departmentName_of_view departmentId s r s' :
  departmentName_of storage departmentId s = (r, s') ->
  view s' = view s /\
  forall n, r = Ok n -> n = recorded_department_name (view s) departmentId.
Proof.
  unfold departmentName_of.
  intros [(a & s1 & H1 & [= <- <-])|(e & H1 & ->)]%bind_inv.
  - destruct (law_getDepartment _ _ laws _ _ _ _ H1) as [Hv Ho]. split; [done|].
    intros n [= <-]. by rewrite (Ho a eq_refl).
  - destruct (law_getDepartment _ _ laws _ _ _ _ H1) as [Hv _]. split; [done|]. done.
Qed.

Lemma createActivityLog_logged now logData s row s' :
  log_ids_fresh (view s) ->
  IStorage.createActivityLog storage now logData s = (Ok row, s') ->
  logged_once (view s) (view s') now logData /\
  inventoryItems (view s') = inventoryItems (view s) /\
  departments (view s') = departments (view s).
Proof.
  intros Hfresh H. apply (law_createActivityLog _ _ laws) in H as [-> ->].
  split; [split|]; simpl; [|done..].
  destruct (activityLogs (view s) !! activityLogIdCounter (view s)) eqn:E; [|done].
  apply Hfresh in E. lia.
Qed.

Lemma logged_once_same_logs t0 t t' now logData :
  same_logs t0 t -> logged_once t t' now logData -> logged_once t0 t' now logData.
Proof. intros [Hl Hc] [H1 H2]. unfold logged_once. by rewrite <- Hl, <- Hc. Qed.

Lemma log_ids_fresh_same_logs t t' :
  same_logs t t' -> log_ids_fresh t -> log_ids_fresh t'.
Proof. intros [Hl Hc]. unfold log_ids_fresh. by rewrite Hl, Hc. Qed.

(** A creation answered with 201. *)
Lemma post_inventory_201 t_item t_log user req_body s resp s' :
  log_ids_fresh (view s) ->
  post_inventory storage parse t_item t_log user req_body s = (resp, s') ->
  status resp = 201 ->
  exists item,
    body resp = ItemJson item /\
    inventoryItems (view s') !! InventoryItem.id item = Some item /\
    logged_once (view s) (view s') t_log
      (audit_entry "added" (InventoryItem.id item) (InventoryItem.assetId item)
         (InventoryItem.name item)
         (recorded_department_name (view s') (InventoryItem.departmentId item)) user).
Proof.
  intros Hfresh. unfold post_inventory, try_catch.
  match goal with |- context [match ?m s with _ => _ end] => destruct (m s) as [[r|e] s2] eqn:E end.
  2:{ intros [= <- <-]. by destruct e. }
  intros [= <- <-] Hst.
  destruct (PartialInventoryItem.departmentId req_body) as [departmentId|].
  2:{ injection E as <- <-. discriminate Hst. }
  destruct (decide (departmentId = 0)).
  { injection E as <- <-. discriminate Hst. }
  apply bind_Ok in E as (hasAccess & s1 & Hacc%hasDepartmentAccess_view & E).
  destruct hasAccess; simpl in E.
  2:{ injection E as <- <-. discriminate Hst. }
  destruct (parse _) as [itemData|]; [|discriminate E].
  apply bind_Ok in E as (item & s3 & Hcreate & E).
  apply (law_createInventoryItem _ _ laws) in Hcreate as [Hlogs Hstored].
  specialize (Hstored item eq_refl).
  apply bind_Ok in E as (departmentName & s4 & [Hv4 Hname]%departmentName_of_view & E).
  specialize (Hname _ eq_refl).
  apply bind_Ok in E as (row & s5 & Hlog & [= <- <-]).
  rewrite Hacc in Hlogs.
  assert (Hfresh4 : log_ids_fresh (view s4)).
  { rewrite Hv4. by eapply log_ids_fresh_same_logs. }
  destruct (createActivityLog_logged _ _ _ _ _ Hfresh4 Hlog) as (Hlogged & Hitems & Hdeps).
  exists item. split; [done|]. split.
  - by rewrite Hitems, Hv4.
  - apply (logged_once_same_logs (view s) (view s4)); [by rewrite Hv4|].
    replace (recorded_department_name (view s5) (InventoryItem.departmentId item))
      with departmentName; [exact Hlogged|].
    rewrite Hname. unfold recorded_department_name. by rewrite Hdeps, Hv4.
Qed.

(** An update answered with 200. *)
Lemma put_inventory_200 t_item t_log user itemId req_body s resp s' :
  log_ids_fresh (view s) ->
  put_inventory storage t_item t_log user itemId req_body s = (resp, s') ->
  status resp = 200 ->
  exists old row,
    inventoryItems (view s) !! itemId = Some old /\
    InventoryItem.companyId old = User.companyId user /\
    row = with_updatedAt (spread_item old (with_updatedBy req_body (User.id user))) t_item /\
    body resp = ItemJson row /\
    inventoryItems (view s') = <[itemId := row]> (inventoryItems (view s)) /\
    logged_once (view s) (view s') t_log
      (audit_entry "updated" (InventoryItem.id row) (InventoryItem.assetId row)
         (InventoryItem.name row)
         (recorded_department_name (view s') (InventoryItem.departmentId row)) user).
Proof.
  intros Hfresh. unfold put_inventory, try_catch.
  match goal with |- context [match ?m s with _ => _ end] => destruct (m s) as [[r|e] s2] eqn:E end.
  2:{ intros [= <- <-]. discriminate. }
  intros [= <- <-] Hst.
  apply bind_Ok in E as (o & s1 & Hget & E).
  apply (law_getInventoryItem _ _ laws) in Hget as [Hv1 Ho].
  rewrite (Ho o eq_refl) in E.
  destruct (inventoryItems (view s) !! itemId) as [old|] eqn:Hold.
  2:{ injection E as <- <-. discriminate Hst. }
  destruct (bool_decide _) eqn:Hco; simpl in E.
  2:{ injection E as <- <-. discriminate Hst. }
  apply bool_decide_eq_true in Hco.
  apply bind_Ok in E as (hasAccess & s2' & Hacc%hasDepartmentAccess_view & E).
  destruct hasAccess; simpl in E.
  2:{ injection E as <- <-. discriminate Hst. }
  apply bind_Ok in E as (row & s3 & Hupd & E).
  apply (law_updateInventoryItem _ _ laws) in Hupd as (old' & Hold' & Hrow & Hv3).
  rewrite Hacc, Hv1, Hold in Hold'. injection Hold' as <-.
  apply bind_Ok in E as (departmentName & s4 & [Hv4 Hname]%departmentName_of_view & E).
  specialize (Hname _ eq_refl).
  apply bind_Ok in E as (logrow & s5 & Hlog & [= <- <-]).
  rewrite Hacc, Hv1 in Hv3.
  assert (Hfresh4 : log_ids_fresh (view s4)) by (by rewrite Hv4, Hv3).
  destruct (createActivityLog_logged _ _ _ _ _ Hfresh4 Hlog) as (Hlogged & Hitems & Hdeps).
  exists old, row. split; [done|]. split; [done|]. split; [done|]. split; [done|].
  split.
  - by rewrite Hitems, Hv4, Hv3.
  - apply (logged_once_same_logs (view s) (view s4)); [by rewrite Hv4, Hv3|].
    replace (recorded_department_name (view s5) (InventoryItem.departmentId row))
      with departmentName; [exact Hlogged|].
    rewrite Hname. unfold recorded_department_name. by rewrite Hdeps, Hv4.
Qed.

(** A deletion answered with 200. *)
Lemma delete_inventory_200 t_log user itemId s resp s' :
  log_ids_fresh (view s) ->
  delete_inventory storage t_log user itemId s = (resp, s') ->
  status resp = 200 ->
  exists existing,
    inventoryItems (view s) !! itemId = Some existing /\
    InventoryItem.companyId existing = User.companyId user /\
    User.role user = "admin" /\
    inventoryItems (view s') = delete itemId (inventoryItems (view s)) /\
    logged_once (view s) (view s') t_log
      (audit_entry "removed" itemId (InventoryItem.assetId existing)
         (InventoryItem.name existing)
         (recorded_department_name (view s) (InventoryItem.departmentId existing)) user).
Proof.
  intros Hfresh. unfold delete_inventory, try_catch.
  match goal with |- context [match ?m s with _ => _ end] => destruct (m s) as [[r|e] s2] eqn:E end.
  2:{ intros [= <- <-]. discriminate. }
  intros [= <- <-] Hst.
  apply bind_Ok in E as (o & s1 & Hget & E).
  apply (law_getInventoryItem _ _ laws) in Hget as [Hv1 Ho].
  rewrite (Ho o eq_refl) in E.
  destruct (inventoryItems (view s) !! itemId) as [existing|] eqn:Hex.
  2:{ injection E as <- <-. discriminate Hst. }
  destruct (bool_decide (InventoryItem.companyId existing = _)) eqn:Hco; simpl in E.
  2:{ injection E as <- <-. discriminate Hst. }
  apply bool_decide_eq_true in Hco.
  destruct (bool_decide (User.role user = _)) eqn:Hrole; simpl in E.
  2:{ injection E as <- <-. discriminate Hst. }
  apply bool_decide_eq_true in Hrole.
  apply bind_Ok in E as (departmentName & s3 & [Hv3 Hname]%departmentName_of_view & E).
  specialize (Hname _ eq_refl).
  apply bind_Ok in E as ([] & s4 & Hdel & E).
  apply (law_deleteInventoryItem _ _ laws) in Hdel as [Hlogs Hgone].
  destruct (Hgone eq_refl) as (item & _ & Hitems4).
  apply bind_Ok in E as (logrow & s5 & Hlog & [= <- <-]).
  rewrite Hv1 in Hname. rewrite Hv3, Hv1 in Hlogs, Hitems4.
  assert (Hfresh4 : log_ids_fresh (view s4)) by (by eapply log_ids_fresh_same_logs).
  destruct (createActivityLog_logged _ _ _ _ _ Hfresh4 Hlog) as (Hlogged & Hitems & Hdeps).
  exists existing. split; [done|]. split; [done|]. split; [done|]. split.
  - by rewrite Hitems, Hitems4.
  - apply (logged_once_same_logs (view s) (view s4)); [done|].
    subst departmentName. exact Hlogged.
Qed.

(** *** The earlier log rows stay, whatever the outcome of a request *)

Local Abbreviation kept := (fun s s' : S => log_kept (view s) (view s')).

Lemma kept_view_eq s s' : view s' = view s -> log_kept (view s) (view s').
Proof. intros ->. reflexivity. Qed.

Lemma getInventoryItem_kept id : steps kept (IStorage.getInventoryItem storage id).
Proof.
  intros s r s' H. apply kept_view_eq. by apply (law_getInventoryItem _ _ laws) in H as [? _].
Qed.

Lemma hasDepartmentAccess_kept user departmentId :
  steps kept (hasDepartmentAccess storage user departmentId).
Proof. intros s r s' H. apply kept_view_eq. by eapply hasDepartmentAccess_view. Qed.

Lemma departmentName_of_kept departmentId :
  steps kept (departmentName_of storage departmentId).
Proof.
  intros s r s' H. apply kept_view_eq. by apply departmentName_of_view in H as [? _].
Qed.

Lemma createActivityLog_kept now logData :
  steps kept (IStorage.createActivityLog storage now logData).
Proof.
  intros s r s' H. apply (law_createActivityLog _ _ laws) in H.
  destruct r as [row|e]; [|by apply kept_view_eq].
  destruct H as [_ ->]. apply log_kept_append.
Qed.

Lemma createInventoryItem_kept now itemData :
  steps kept (IStorage.createInventoryItem storage now itemData).
Proof.
  intros s r s' H. apply log_kept_same_logs.
  by apply (law_createInventoryItem _ _ laws) in H as [? _].
Qed.

Lemma updateInventoryItem_kept now id data :
  steps kept (IStorage.updateInventoryItem storage now id data).
Proof.
  intros s r s' H. apply (law_updateInventoryItem _ _ laws) in H.
  destruct r as [row|e]; [|by apply kept_view_eq].
  destruct H as (old & _ & _ & ->). by apply log_kept_same_logs.
Qed.

Lemma deleteInventoryItem_kept id :
  steps kept (IStorage.deleteInventoryItem storage id).
Proof.
  intros s r s' H. apply log_kept_same_logs.
  by apply (law_deleteInventoryItem _ _ laws) in H as [? _].
Qed.

Ltac kept_steps :=
  repeat first
    [ apply steps_ret; apply _
    | apply steps_throw; apply _
    | apply getInventoryItem_kept
    | apply hasDepartmentAccess_kept
    | apply departmentName_of_kept
    | apply createActivityLog_kept
    | apply createInventoryItem_kept
    | apply updateInventoryItem_kept
    | apply deleteInventoryItem_kept
    | apply steps_bind; [apply _ | | intros ?]
    | match goal with
      | |- steps _ (match ?x with _ => _ end) => destruct x
      end ].

Lemma post_inventory_kept t_item t_log user req_body s resp s' :
  post_inventory storage parse t_item t_log user req_body s = (resp, s') ->
  log_kept (view s) (view s').
Proof.
  unfold post_inventory. apply (steps_try_catch kept). kept_steps.
Qed.

Lemma put_inventory_kept t_item t_log user itemId req_body s resp s' :
  put_inventory storage t_item t_log user itemId req_body s = (resp, s') ->
  log_kept (view s) (view s').
Proof.
  unfold put_inventory. apply (steps_try_catch kept). kept_steps.
Qed.

Lemma delete_inventory_kept t_log user itemId s resp s' :
  delete_inventory storage t_log user itemId s = (resp, s') ->
  log_kept (view s) (view s').
Proof.
  unfold delete_inventory. apply (steps_try_catch kept). kept_steps.
Qed.

(** *** An update leaves the departments alone *)

Local Abbreviation same_departments :=
  (fun s s' : S => departments (view s') = departments (view s)).

Local Instance same_departments_preorder : PreOrder same_departments.
Proof. split; [by intros ? | intros ? ? ? H1 H2; congruence]. Qed.

Lemma put_inventory_departments t_item t_log user itemId req_body s resp s' :
  put_inventory storage t_item t_log user itemId req_body s = (resp, s') ->
  departments (view s') = departments (view s).
Proof.
  unfold put_inventory. apply (steps_try_catch same_departments).
  apply steps_bind; [apply _| |].
  { intros s0 r s0' H. by apply (law_getInventoryItem _ _ laws) in H as [-> _]. }
  intros [existingItem|]; [|apply steps_ret; apply _].
  destruct (negb _); [apply steps_ret; apply _|].
  apply steps_bind; [apply _| |].
  { intros s0 r s0' H. by apply hasDepartmentAccess_view in H as ->. }
  intros hasAccess. destruct (negb _); [apply steps_ret; apply _|].
  apply steps_bind; [apply _| |].
  { intros s0 r s0' H. apply (law_updateInventoryItem _ _ laws) in H.
    destruct r as [row|e]; [by destruct H as (old & _ & _ & ->) | by rewrite H]. }
  intros updatedItem. apply steps_bind; [apply _| |].
  { intros s0 r s0' H. by apply departmentName_of_view in H as [-> _]. }
  intros departmentName. apply steps_bind; [apply _| |].
  { intros s0 r s0' H. apply (law_createActivityLog _ _ laws) in H.
    destruct r as [row|e]; [by destruct H as [_ ->] | by rewrite H]. }
  intros _. apply steps_ret. apply _.
Qed.

(** The row that the log gained has, field by field, the contents the
    route handed to [createActivityLog]. *)
Lemma logged_once_gained t t' now action itemId assetId itemName departmentName user :
  logged_once t t' now (audit_entry action itemId assetId itemName departmentName user) ->
  log_gained t t' now action itemId assetId itemName departmentName user.
Proof.
  intros [Hfree Hlogs]. split; [exact Hfree|].
  exists (spread_log (audit_entry action itemId assetId itemName departmentName user)
            (activityLogIdCounter t) now).
  split; [exact Hlogs|]. repeat split.
Qed.

Lemma lawful_audit_complete : audit_complete storage view parse.
Proof.
  intros user s Hfresh. split; [|split].
  - intros t_item t_log req_body resp s' H.
    destruct (post_inventory_kept _ _ _ _ _ _ _ H Hfresh) as [Hf Hsub].
    split; [done|]. split; [done|]. intros Hst.
    destruct (post_inventory_201 _ _ _ _ _ _ _ Hfresh H Hst)
      as (item & Hbody & Hitem & Hlog).
    exists item. split; [done|]. split; [done|]. by apply logged_once_gained.
  - intros t_item t_log itemId req_body resp s' H.
    destruct (put_inventory_kept _ _ _ _ _ _ _ _ H Hfresh) as [Hf Hsub].
    split; [done|]. split; [done|]. intros Hst.
    destruct (put_inventory_200 _ _ _ _ _ _ _ _ Hfresh H Hst)
      as (old & row & _ & _ & _ & Hbody & Hitems & Hlog).
    exists row. split; [done|]. split; [|by apply logged_once_gained].
    rewrite Hitems. apply lookup_insert_eq.
  - intros t_log itemId resp s' H.
    destruct (delete_inventory_kept _ _ _ _ _ _ H Hfresh) as [Hf Hsub].
    split; [done|]. split; [done|]. intros Hst.
    destruct (delete_inventory_200 _ _ _ _ _ _ Hfresh H Hst)
      as (existing & Hex & _ & _ & Hitems & Hlog).
    exists existing. split; [done|]. split; [|by apply logged_once_gained].
    rewrite Hitems. apply lookup_delete_eq.
Qed.

Lemma lawful_update_keeps_departments : update_keeps_departments storage view.
Proof.
  split.
  - intros now id data s r s' H. apply (law_updateInventoryItem _ _ laws) in H.
    destruct r as [row|e]; [by destruct H as (old & _ & _ & ->) | by rewrite H].
  - intros t_item t_log user itemId req_body s resp s'.
    apply put_inventory_departments.
Qed.

Lemma lawful_update_asset_id : update_asset_id storage view.
Proof.
  split.
  - intros now id data s row s' H.
    apply (law_updateInventoryItem _ _ laws) in H as (old & Hold & -> & ->).
    exists old. split; [done|]. split; [apply lookup_insert_eq | done].
  - intros t_item t_log user itemId req_body s resp s' Hfresh H Hst.
    destruct (put_inventory_200 _ _ _ _ _ _ _ _ Hfresh H Hst)
      as (old & row & Hold & _ & -> & _ & Hitems & _).
    exists old. eexists. split; [done|].
    split; [rewrite Hitems; apply lookup_insert_eq | done].
Qed.
End RouteProperties.

Lemma recorded_department_name_found t k d :
  departments t !! k = Some d -> Department.name d <> "" ->
  recorded_department_name t k = Department.name d.
Proof.
  intros Hd Hn. unfold recorded_department_name. rewrite Hd. simpl.
  by rewrite decide_False.
Qed.

(** C8: with either storage class, every creation answered 201, every
    update answered 200 and every deletion answered 200 adds exactly one
    row to the activity log, under an id that held none.  The action of the
    row is "added", "updated" or "removed"; its item id, asset id and item
    name are those of the item the mutation wrote (for a deletion: of the
    item as it was stored before the request); its author is the caller and
    its date the date of the log write.  Its department name is the name of
    the item's department at that moment when that department exists and
    is named, and "Unknown" when it does not exist or has an empty name.
    Whatever a request's outcome, the rows already in the log stay as they
    are. *)
Theorem every_mutation_logged_once
    (parse : PartialInventoryItem.t -> option InsertInventoryItem.t) :
  audit_complete MemStorage.storage (fun s => s) parse /\
  audit_complete DatabaseStorage.storage tables parse /\
  (forall t k d,
     departments t !! k = Some d -> Department.name d <> "" ->
     recorded_department_name t k = Department.name d) /\
  (forall t k d,
     departments t !! k = Some d -> Department.name d = "" ->
     recorded_department_name t k = "Unknown") /\
  (forall t k, departments t !! k = None -> recorded_department_name t k = "Unknown").
Proof.
  split; [|split; [|split; [|split]]].
  - apply lawful_audit_complete, Mem_lawful.
  - apply lawful_audit_complete, Db_lawful.
  - apply recorded_department_name_found.
  - intros t k d Hd Hn. unfold recorded_department_name. rewrite Hd. simpl.
    by rewrite decide_True.
  - intros t k Hd. unfold recorded_department_name. by rewrite Hd.
Qed.

Lemma every_mutation_logged_once_witness :
  let s1 :=
    (post_inventory MemStorage.storage parse_required 10 11 ada body_widget
       acme_tables).2 in
  let s2 := (put_inventory MemStorage.storage 12 13 ada 1 body_forge s1).2 in
  let s3 := (delete_inventory MemStorage.storage 14 ada 1 s2).2 in
  log_gained acme_tables s1 11 "added" 1 "A-0001" "Widget" "General" ada /\
  log_gained s1 s2 13 "updated" 1 "FORGED" "Widget" "General" ada /\
  log_gained s2 s3 14 "removed" 1 "FORGED" "Widget" "General" ada.
Proof.
  intros s1 s2 s3.
  pose proof (proj1 (every_mutation_logged_once parse_required) ada) as Haudit.
  assert (Hrun1 : exists item,
            post_inventory MemStorage.storage parse_required 10 11 ada body_widget
              acme_tables = (mkResponse 201 (ItemJson item), s1) /\
            InventoryItem.id item = 1 /\ InventoryItem.assetId item = "A-0001" /\
            InventoryItem.name item = "Widget" /\
            recorded_department_name s1 (InventoryItem.departmentId item) = "General").
  { vm_compute. eexists. repeat split; reflexivity. }
  assert (Hrun2 : exists row,
            put_inventory MemStorage.storage 12 13 ada 1 body_forge s1
            = (mkResponse 200 (ItemJson row), s2) /\
            InventoryItem.id row = 1 /\ InventoryItem.assetId row = "FORGED" /\
            InventoryItem.name row = "Widget" /\
            recorded_department_name s2 (InventoryItem.departmentId row) = "General").
  { vm_compute. eexists. repeat split; reflexivity. }
  assert (Hrun3 : exists existing,
            delete_inventory MemStorage.storage 14 ada 1 s2
            = (mkResponse 200 (Message "Item deleted successfully"), s3) /\
            inventoryItems s2 !! 1 = Some existing /\
            InventoryItem.assetId existing = "FORGED" /\
            InventoryItem.name existing = "Widget" /\
            recorded_department_name s2 (InventoryItem.departmentId existing)
            = "General").
  { vm_compute. eexists. repeat split; reflexivity. }
  destruct Hrun1 as (item & Hrun1 & Hid1 & Ha1 & Hn1 & Hd1).
  destruct Hrun2 as (row & Hrun2 & Hid2 & Ha2 & Hn2 & Hd2).
  destruct Hrun3 as (existing & Hrun3 & Hex & Ha3 & Hn3 & Hd3).
  split; [|split].
  - destruct (Haudit acme_tables
                ltac:(apply (bool_decide_unpack _); vm_compute; exact I))
      as (Hpost & _ & _).
    destruct (Hpost 10 11 body_widget _ _ Hrun1) as (_ & _ & H201).
    destruct (H201 eq_refl) as (item' & [= <-] & _ & Hlog).
    by rewrite Hid1, Ha1, Hn1, Hd1 in Hlog.
  - destruct (Haudit s1 ltac:(apply (bool_decide_unpack _); vm_compute; exact I))
      as (_ & Hput & _).
    destruct (Hput 12 13 1 body_forge _ _ Hrun2) as (_ & _ & H200).
    destruct (H200 eq_refl) as (row' & [= <-] & _ & Hlog).
    by rewrite Hid2, Ha2, Hn2, Hd2 in Hlog.
  - destruct (Haudit s2 ltac:(apply (bool_decide_unpack _); vm_compute; exact I))
      as (_ & _ & Hdelete).
    destruct (Hdelete 14 1 _ _ Hrun3) as (_ & _ & H200).
    destruct (H200 eq_refl) as (existing' & Hex' & _ & Hlog).
    rewrite Hex in Hex'. injection Hex' as <-.
    by rewrite Ha3, Hn3, Hd3 in Hlog.
Defined.

(** C5 (as amended): an item update that changes the item's department id
    is not accounted as a transfer: the storage method [updateInventoryItem]
    of both classes and the update route rewrite the item row only, so the
    item count and the capacity-used of the department the item leaves and
    of the department it enters are what they were before the update. *)
Theorem update_leaves_department_counters :
  update_keeps_departments MemStorage.storage (fun s => s) /\
  update_keeps_departments DatabaseStorage.storage tables.
Proof.
  split.
  - apply lawful_update_keeps_departments, Mem_lawful.
  - apply lawful_update_keeps_departments, Db_lawful.
Qed.

Lemma update_leaves_department_counters_witness :
  let out := put_inventory MemStorage.storage 20 21 ada 1 body_move lab_tables in
  status out.1 = 200 /\
  (InventoryItem.departmentId <$> inventoryItems out.2 !! 1) = Some 2 /\
  departments out.2 = departments lab_tables.
Proof.
  intros out. split; [vm_compute; reflexivity|]. split; [vm_compute; reflexivity|].
  apply (proj2 (proj1 update_leaves_department_counters) 20 21 ada 1 body_move
           lab_tables out.1).
  apply surjective_pairing.
Defined.

(** C5 (as stated, refuted): moving item 1 from department 1 to department
    2 by an update leaves department 1 with one counted item and department
    2 with none. *)
Lemma transfer_not_accounted :
  ~ (forall s now id data old row s' src dst,
       inventoryItems s !! id = Some old ->
       MemStorage.updateInventoryItem now id data s = (Ok row, s') ->
       InventoryItem.departmentId row <> InventoryItem.departmentId old ->
       departments s !! InventoryItem.departmentId old = Some src ->
       departments s !! InventoryItem.departmentId row = Some dst ->
       exists src' dst',
         departments s' !! InventoryItem.departmentId old = Some src' /\
         departments s' !! InventoryItem.departmentId row = Some dst' /\
         Department.assetCount src' = Department.assetCount src - 1 /\
         Department.capacityUsed src' = Department.capacityUsed src - 10 /\
         Department.assetCount dst' = Department.assetCount dst + 1 /\
         Department.capacityUsed dst' = Department.capacityUsed dst + 10).
Proof.
  intros H.
  assert (exists old row s' src dst,
            inventoryItems lab_tables !! 1 = Some old /\
            MemStorage.updateInventoryItem 20 1 body_move lab_tables = (Ok row, s') /\
            InventoryItem.departmentId row <> InventoryItem.departmentId old /\
            departments lab_tables !! InventoryItem.departmentId old = Some src /\
            departments lab_tables !! InventoryItem.departmentId row = Some dst)
    as (old & row & s' & src & dst & Hold & Hupd & Hne & Hsrc & Hdst).
  { vm_compute. eexists _, _, _, _, _.
    split; [reflexivity|]. split; [reflexivity|]. split; [discriminate|].
    split; reflexivity. }
  destruct (H _ _ _ _ _ _ _ _ _ Hold Hupd Hne Hsrc Hdst)
    as (src' & dst' & Hsrc' & _ & Hcount & _).
  pose proof (proj1 (lawful_update_keeps_departments _ _ Mem_lawful)
                _ _ _ _ _ _ Hupd) as Hdeps.
  simpl in Hdeps. rewrite Hdeps, Hsrc in Hsrc'. injection Hsrc' as <-. lia.
Qed.

(** C9 (as amended): an update keeps the asset id of the item unless the
    update payload itself carries an [assetId] field: the asset id stored
    after the update is the payload's when the payload has one and the one
    stored before otherwise.  This holds for the storage method
    [updateInventoryItem] and for the update route, which hands the request
    body to it. *)
Theorem update_keeps_asset_id_unless_in_payload :
  update_asset_id MemStorage.storage (fun s => s) /\
  update_asset_id DatabaseStorage.storage tables.
Proof.
  split.
  - apply lawful_update_asset_id, Mem_lawful.
  - apply lawful_update_asset_id, Db_lawful.
Qed.

Lemma update_keeps_asset_id_unless_in_payload_witness :
  let out := put_inventory MemStorage.storage 20 21 ada 1 body_move lab_tables in
  exists old row,
    inventoryItems lab_tables !! 1 = Some old /\
    inventoryItems out.2 !! 1 = Some row /\
    InventoryItem.assetId row = InventoryItem.assetId old.
Proof.
  intros out.
  exact (proj2 (proj1 update_keeps_asset_id_unless_in_payload) 20 21 ada 1 body_move
           lab_tables out.1 out.2
           ltac:(apply (bool_decide_unpack _); vm_compute; exact I)
           (surjective_pairing out)
           ltac:(vm_compute; reflexivity)).
Defined.

(** C9 (as stated, refuted): an update of item 1 whose body carries
    [assetId: "FORGED"] is answered 200 and replaces the asset id
    ["A-0001"] the item received at creation. *)
Lemma update_replaces_asset_id :
  ~ (forall s t_item t_log user itemId req_body resp s' old,
       inventoryItems s !! itemId = Some old ->
       put_inventory MemStorage.storage t_item t_log user itemId req_body s = (resp, s') ->
       status resp = 200 ->
       exists item,
         inventoryItems s' !! itemId = Some item /\
         InventoryItem.assetId item = InventoryItem.assetId old).
Proof.
  intros H.
  assert (exists old resp s' row,
            inventoryItems lab_tables !! 1 = Some old /\
            put_inventory MemStorage.storage 20 21 ada 1 body_forge lab_tables
            = (resp, s') /\
            status resp = 200 /\
            inventoryItems s' !! 1 = Some row /\
            InventoryItem.assetId old = "A-0001" /\
            InventoryItem.assetId row = "FORGED")
    as (old & resp & s' & row & Hold & Hput & Hst & Hrow & Ha & Hb).
  { vm_compute. eexists _, _, _, _. repeat split; reflexivity. }
  destruct (H _ _ _ _ _ _ _ _ _ Hold Hput Hst) as (item & Hitem & Heq).
  rewrite Hrow in Hitem. injection Hitem as <-. rewrite Ha, Hb in Heq. discriminate.
Qed.

(** ** Cross-tenant requests *)

Section CrossTenant.
Context {S : Type} (storage : IStorage.t S).

Lemma put_inventory_other_tenant t_item t_log user itemId req_body s item s1 :
  IStorage.getInventoryItem storage itemId s = (Ok (Some item), s1) ->
  InventoryItem.companyId item <> User.companyId user ->
  put_inventory storage t_item t_log user itemId req_body s
  = (mkResponse 403 (Message "Access denied"), s1).
Proof.
  intros Hget Hne. unfold put_inventory, try_catch.
  rewrite (bind_eq _ _ _ _ _ Hget). by rewrite bool_decide_eq_false_2.
Qed.

Lemma delete_inventory_other_tenant t_log user itemId s item s1 :
  IStorage.getInventoryItem storage itemId s = (Ok (Some item), s1) ->
  InventoryItem.companyId item <> User.companyId user ->
  delete_inventory storage t_log user itemId s
  = (mkResponse 403 (Message "Access denied"), s1).
Proof.
  intros Hget Hne. unfold delete_inventory, try_catch.
  rewrite (bind_eq _ _ _ _ _ Hget). by rewrite bool_decide_eq_false_2.
Qed.

Lemma put_inventory_absent t_item t_log user itemId req_body s s1 :
  IStorage.getInventoryItem storage itemId s = (Ok None, s1) ->
  put_inventory storage t_item t_log user itemId req_body s
  = (mkResponse 404 (Message "Item not found"), s1).
Proof.
  intros Hget. unfold put_inventory, try_catch. by rewrite (bind_eq _ _ _ _ _ Hget).
Qed.

Lemma delete_inventory_absent t_log user itemId s s1 :
  IStorage.getInventoryItem storage itemId s = (Ok None, s1) ->
  delete_inventory storage t_log user itemId s
  = (mkResponse 404 (Message "Item not found"), s1).
Proof.
  intros Hget. unfold delete_inventory, try_catch. by rewrite (bind_eq _ _ _ _ _ Hget).
Qed.
End CrossTenant.

(** C6 (as amended): an update or deletion request for an item of another
    tenant is answered 403 "Access denied", whatever the caller's role and
    department memberships: the handler returns right after the item lookup,
    before the role and membership checks, and the storage is left as the
    lookup left it.  A request for an item that does not exist is answered
    404 "Item not found", so the two outcomes differ. *)
Theorem other_tenant_denied_before_role_check
    {S : Type} (storage : IStorage.t S) (user : User.t) (itemId : Z) (s s1 : S) :
  (forall item,
     IStorage.getInventoryItem storage itemId s = (Ok (Some item), s1) ->
     InventoryItem.companyId item <> User.companyId user ->
     (forall t_item t_log req_body,
        put_inventory storage t_item t_log user itemId req_body s
        = (mkResponse 403 (Message "Access denied"), s1)) /\
     (forall t_log,
        delete_inventory storage t_log user itemId s
        = (mkResponse 403 (Message "Access denied"), s1))) /\
  (IStorage.getInventoryItem storage itemId s = (Ok None, s1) ->
   (forall t_item t_log req_body,
      put_inventory storage t_item t_log user itemId req_body s
      = (mkResponse 404 (Message "Item not found"), s1)) /\
   (forall t_log,
      delete_inventory storage t_log user itemId s
      = (mkResponse 404 (Message "Item not found"), s1))).
Proof.
  split.
  - intros item Hget Hne. split; intros.
    + by eapply put_inventory_other_tenant.
    + by eapply delete_inventory_other_tenant.
  - intros Hget. split; intros.
    + by apply put_inventory_absent.
    + by apply delete_inventory_absent.
Qed.

Lemma other_tenant_denied_before_role_check_witness :
  put_inventory MemStorage.storage 20 21 eve 1 body_forge lab_tables
  = (mkResponse 403 (Message "Access denied"), lab_tables) /\
  delete_inventory MemStorage.storage 21 eve 1 lab_tables
  = (mkResponse 403 (Message "Access denied"), lab_tables).
Proof.
  assert (exists item,
            IStorage.getInventoryItem MemStorage.storage 1 lab_tables
            = (Ok (Some item), lab_tables) /\
            InventoryItem.companyId item <> User.companyId eve)
    as (item & Hget & Hne).
  { eexists. split; [reflexivity|]. vm_compute. discriminate. }
  destruct (proj1 (other_tenant_denied_before_role_check MemStorage.storage eve 1
                     lab_tables lab_tables) item Hget Hne) as [Hput Hdel].
  split; [apply Hput | apply Hdel].
Defined.

(** C6 (as stated, refuted): the answer to a request for an item of another
    tenant differs from the answer to a request for an item that does not
    exist: 403 "Access denied" against 404 "Item not found". *)
Lemma other_tenant_distinguishable :
  ~ (forall s user t_item t_log req_body item itemId absentId,
       inventoryItems s !! itemId = Some item ->
       InventoryItem.companyId item <> User.companyId user ->
       inventoryItems s !! absentId = None ->
       (put_inventory MemStorage.storage t_item t_log user itemId req_body s).1
       = (put_inventory MemStorage.storage t_item t_log user absentId req_body s).1).
Proof.
  intros H.
  assert (exists item,
            inventoryItems lab_tables !! 1 = Some item /\
            InventoryItem.companyId item <> User.companyId eve /\
            inventoryItems lab_tables !! 99 = None)
    as (item & Hitem & Hne & Habsent).
  { vm_compute. eexists. split; [reflexivity|]. split; [discriminate | reflexivity]. }
  specialize (H lab_tables eve 20 21 body_forge item 1 99 Hitem Hne Habsent).
  rewrite (put_inventory_other_tenant MemStorage.storage 20 21 eve 1 body_forge
             lab_tables item lab_tables) in H; [|by rewrite <- Hitem|done].
  rewrite (put_inventory_absent MemStorage.storage 20 21 eve 99 body_forge
             lab_tables lab_tables) in H; [|by rewrite <- Habsent].
  discriminate H.
Qed.

(** ** No transaction around the steps of an operation *)

Lemma set_companies_alter_bump t cid c :
  companies t !! cid = Some c ->
  set_companies
    (alter (fun row =>
       {| Company.id := Company.id row;
          Company.name := Company.name row;
          Company.assetIdPattern := Company.assetIdPattern row;
          Company.currentAssetId := Company.currentAssetId c + 1;
          Company.subscriptionTier := Company.subscriptionTier row;
          Company.subscriptionStatus := Company.subscriptionStatus row;
          Company.createdAt := Company.createdAt row |}) cid) t
  = set_companies <[cid := bump_counter c]> t.
Proof.
  intros Hc. unfold set_companies. f_equal.
  by rewrite (alter_present _ _ _ _ Hc).
Qed.

Lemma set_departments_alter_spread t k dep data :
  departments t !! k = Some dep ->
  set_departments (alter (fun row => spread_department row data) k) t
  = set_departments <[k := spread_department dep data]> t.
Proof.
  intros Hd. unfold set_departments. f_equal.
  by rewrite (alter_present (fun row => spread_department row data) _ _ _ Hd).
Qed.

Ltac unfold_db :=
  unfold DatabaseStorage.storage, IStorage.createInventoryItem,
    IStorage.getInventoryItem, IStorage.updateInventoryItem,
    IStorage.deleteInventoryItem, IStorage.createActivityLog,
    IStorage.getDepartment, IStorage.getUserDepartments,
    DatabaseStorage.createInventoryItem, DatabaseStorage.deleteInventoryItem,
    DatabaseStorage.updateInventoryItem, DatabaseStorage.createActivityLog,
    DatabaseStorage.generateAssetId, DatabaseStorage.getInventoryItem,
    DatabaseStorage.getCompany, DatabaseStorage.getDepartment,
    DatabaseStorage.updateDepartment, select_by_id, statement, bind, ret, throw.

Lemma bind_throw {S A B} (m : M S A) (k : A -> M S B) s e s' :
  m s = (Throw e, s') -> bind m k s = (Throw e, s').
Proof. unfold bind. by intros ->. Qed.

(** *** Outcomes of a sequence of statements *)

Lemma outcome_nil stages resp final :
  outcome [] stages resp final = (resp, mkDb final []).
Proof. unfold outcome. simpl. by rewrite drop_nil. Qed.

Lemma outcome_true rest found stages resp final :
  outcome (true :: rest) (found :: stages) resp final
  = (mkResponse 500 (Message "Server error"), mkDb found rest).
Proof. reflexivity. Qed.

Lemma outcome_false rest found stages resp final :
  outcome (false :: rest) (found :: stages) resp final = outcome rest stages resp final.
Proof. unfold outcome. simpl. by destruct (first_fault rest). Qed.

Lemma outcome_done faults resp final :
  outcome faults [] resp final = (resp, mkDb final faults).
Proof. unfold outcome. by destruct (first_fault faults). Qed.

Lemma bind_assoc {S A B C} (m : M S A) (f : A -> M S B) (g : B -> M S C) s :
  bind (bind m f) g s = bind m (fun x => bind (f x) g) s.
Proof. unfold bind. by destruct (m s) as [[a|e] s']. Qed.

Section Staged.
Context (handler : Error -> Response).
Context (Hhandler : handler StoreError = mkResponse 500 (Message "Server error")).

Lemma staged_ret t resp : staged (ret resp) handler t [] resp t.
Proof. intros faults. by rewrite outcome_done. Qed.

Lemma staged_throw t e : staged (throw e) handler t [] (handler e) t.
Proof. intros faults. by rewrite outcome_done. Qed.

Lemma staged_ext (m m' : M Db Response) t stages resp final :
  (forall d, m d = m' d) ->
  staged m' handler t stages resp final -> staged m handler t stages resp final.
Proof. intros E H faults. unfold try_catch. rewrite E. apply H. Qed.

Lemma staged_assoc {A B} (m : M Db A) (f : A -> M Db B) (g : B -> M Db Response)
    t stages resp final :
  staged (bind m (fun x => bind (f x) g)) handler t stages resp final ->
  staged (bind (bind m f) g) handler t stages resp final.
Proof. apply staged_ext. intros d. apply bind_assoc. Qed.

Lemma staged_bind_ret {A} (a : A) (k : A -> M Db Response) t stages resp final :
  staged (k a) handler t stages resp final ->
  staged (bind (ret a) k) handler t stages resp final.
Proof. intros H. exact H. Qed.

Lemma staged_statement {A} (q : Tables -> A * Tables) (k : A -> M Db Response)
    t stages resp final :
  staged (k (q t).1) handler (q t).2 stages resp final ->
  staged (bind (statement q) k) handler t (t :: stages) resp final.
Proof.
  intros H [|[|] rest].
  - specialize (H []). rewrite outcome_nil in *.
    unfold try_catch, bind, statement in *. simpl. by destruct (q t).
  - rewrite outcome_true. unfold try_catch, bind, statement. simpl.
    by rewrite Hhandler.
  - specialize (H rest). rewrite outcome_false.
    unfold try_catch, bind, statement in *. simpl. by destruct (q t).
Qed.

Lemma staged_select {A} (table : Tables -> gmap Z A) (id : Z)
    (k : option A -> M Db Response) t stages resp final :
  staged (k (table t !! id)) handler t stages resp final ->
  staged (bind (select_by_id table id) k) handler t (t :: stages) resp final.
Proof. intros H. by apply staged_statement. Qed.

Lemma staged_generateAssetId cid c (k : string -> M Db Response) t stages resp final :
  companies t !! cid = Some c ->
  staged (k (render_asset_id (Company.assetIdPattern c) (Company.currentAssetId c)))
    handler (set_companies <[cid := bump_counter c]> t) stages resp final ->
  staged (bind (DatabaseStorage.generateAssetId cid) k) handler t
    (t :: t :: stages) resp final.
Proof.
  intros Hc H. unfold DatabaseStorage.generateAssetId, DatabaseStorage.getCompany.
  apply staged_assoc, staged_select. rewrite Hc. cbv zeta.
  apply staged_assoc, staged_statement. cbn [fst snd].
  by rewrite (set_companies_alter_bump _ _ _ Hc).
Qed.

Lemma staged_updateDepartment id dep data (k : Department.t -> M Db Response)
    t stages resp final :
  departments t !! id = Some dep ->
  staged (k (spread_department dep data)) handler
    (set_departments <[id := spread_department dep data]> t) stages resp final ->
  staged (bind (DatabaseStorage.updateDepartment id data) k) handler t
    (t :: stages) resp final.
Proof.
  intros Hd H. unfold DatabaseStorage.updateDepartment.
  apply staged_assoc, staged_statement. cbn [fst snd].
  rewrite (set_departments_alter_spread _ _ _ _ Hd).
  replace (departments (set_departments <[id := spread_department dep data]> t) !! id)
    with (Some (spread_department dep data))
    by (symmetry; apply lookup_insert_eq).
  exact H.
Qed.

Lemma staged_createInventoryItem now itemData c (k : InventoryItem.t -> M Db Response)
    t stages resp final :
  departments_keyed t ->
  companies t !! InsertInventoryItem.companyId itemData = Some c ->
  let item :=
    inserted_item now itemData (inventoryItemIdCounter t)
      (render_asset_id (Company.assetIdPattern c) (Company.currentAssetId c)) in
  let inserted := after_insert t (InsertInventoryItem.companyId itemData) c item in
  staged (k item) handler
    (set_departments (alter add_item (InsertInventoryItem.departmentId itemData)) inserted)
    stages resp final ->
  staged (bind (DatabaseStorage.createInventoryItem now itemData) k) handler t
    ([t; t; set_companies
              <[InsertInventoryItem.companyId itemData := bump_counter c]> t;
      inserted]
       ++ accounting_stages t (InsertInventoryItem.departmentId itemData) inserted
       ++ stages) resp final.
Proof.
  intros Hk Hc item inserted H. unfold DatabaseStorage.createInventoryItem.
  apply staged_assoc, (staged_generateAssetId _ c); [exact Hc|].
  apply staged_assoc, staged_statement. cbn [fst snd].
  apply staged_assoc. unfold DatabaseStorage.getDepartment.
  apply staged_select.
  change (departments inserted) with (departments t).
  unfold accounting_stages.
  destruct (departments t !! InsertInventoryItem.departmentId itemData) as [dep|] eqn:Hd.
  - do 2 apply staged_assoc. rewrite (Hk _ _ Hd).
    apply (staged_updateDepartment _ dep); [exact Hd|].
    assert (E : set_departments
                  (alter add_item (InsertInventoryItem.departmentId itemData)) inserted
                = set_departments
                    <[InsertInventoryItem.departmentId itemData := add_item dep]>
                    inserted).
    { unfold set_departments. change (departments inserted) with (departments t).
      by rewrite (alter_present add_item _ _ _ Hd). }
    rewrite E in H. exact H.
  - assert (E : set_departments
                  (alter add_item (InsertInventoryItem.departmentId itemData)) inserted
                = inserted).
    { unfold set_departments. change (departments inserted) with (departments t).
      by rewrite (alter_absent add_item _ _ Hd). }
    rewrite E in H. exact H.
Qed.

Lemma staged_departmentName_of departmentId (k : string -> M Db Response)
    t stages resp final :
  staged (k (recorded_department_name t departmentId)) handler t stages resp final ->
  staged (bind (departmentName_of DatabaseStorage.storage departmentId) k) handler t
    (t :: stages) resp final.
Proof.
  intros H. unfold departmentName_of, DatabaseStorage.storage, IStorage.getDepartment,
    DatabaseStorage.getDepartment.
  apply staged_assoc, staged_select. exact H.
Qed.

Lemma staged_createActivityLog now logData (k : ActivityLog.t -> M Db Response)
    t stages resp final :
  staged (k (spread_log logData (activityLogIdCounter t) now)) handler
    (after_log t now logData) stages resp final ->
  staged (bind (IStorage.createActivityLog DatabaseStorage.storage now logData) k)
    handler t (t :: stages) resp final.
Proof.
  intros H. unfold DatabaseStorage.storage, IStorage.createActivityLog,
    DatabaseStorage.createActivityLog.
  apply staged_statement. exact H.
Qed.

Lemma existsb_member t userId departmentId :
  existsb (fun ud => bool_decide (UserDepartment.departmentId ud = departmentId))
    (filter (fun ud => UserDepartment.userId ud = userId) (values (userDepartments t)))
  = bool_decide (member t userId departmentId).
Proof.
  apply eq_true_iff_eq. rewrite existsb_exists, bool_decide_eq_true.
  unfold member, map_Exists. split.
  - intros (ud & Hin & Hd). apply list_elem_of_In, list_elem_of_filter in Hin as [Hu Hin].
    apply elem_of_values in Hin as [k Hin].
    apply bool_decide_eq_true in Hd. by exists k, ud.
  - intros (k & ud & Hk & Hu & Hd). exists ud. split.
    + apply list_elem_of_In, list_elem_of_filter. split; [done|].
      apply elem_of_values. by exists k.
    + by apply bool_decide_eq_true.
Qed.

Lemma staged_access user departmentId (k : bool -> M Db Response) t stages resp final :
  User.role user = "admin" \/ member t (User.id user) departmentId ->
  staged (k true) handler t stages resp final ->
  staged (bind (hasDepartmentAccess DatabaseStorage.storage user departmentId) k)
    handler t (access_stages user t ++ stages) resp final.
Proof.
  intros Haccess H. unfold hasDepartmentAccess, access_stages.
  destruct (decide (User.role user = "admin")) as [Hadmin|Hrole]; [exact H|].
  destruct Haccess as [?|Hmember]; [done|].
  unfold DatabaseStorage.storage, IStorage.getUserDepartments,
    DatabaseStorage.getUserDepartments.
  apply staged_assoc, staged_statement. cbn [fst snd].
  rewrite existsb_member, bool_decide_eq_true_2 by done. exact H.
Qed.

Lemma staged_updateInventoryItem now id data old (k : InventoryItem.t -> M Db Response)
    t stages resp final :
  inventoryItems t !! id = Some old ->
  staged (k (with_updatedAt (spread_item old data) now)) handler
    (set_inventoryItems <[id := with_updatedAt (spread_item old data) now]> t)
    stages resp final ->
  staged (bind (IStorage.updateInventoryItem DatabaseStorage.storage now id data) k)
    handler t (t :: stages) resp final.
Proof.
  intros Hold H. unfold DatabaseStorage.storage, IStorage.updateInventoryItem,
    DatabaseStorage.updateInventoryItem.
  apply staged_assoc, staged_statement. cbn [fst snd]. cbv zeta.
  assert (E : set_inventoryItems
                (alter (fun row => with_updatedAt (spread_item row data) now) id) t
              = set_inventoryItems <[id := with_updatedAt (spread_item old data) now]> t).
  { unfold set_inventoryItems.
    by rewrite (alter_present (fun row => with_updatedAt (spread_item row data) now)
                  _ _ _ Hold). }
  rewrite E.
  replace (inventoryItems
             (set_inventoryItems <[id := with_updatedAt (spread_item old data) now]> t)
           !! id)
    with (Some (with_updatedAt (spread_item old data) now))
    by (symmetry; apply lookup_insert_eq).
  exact H.
Qed.

Lemma staged_deleteInventoryItem id item (k : unit -> M Db Response)
    t stages resp final :
  departments_keyed t ->
  inventoryItems t !! id = Some item ->
  let unaccounted :=
    set_departments (alter remove_item (InventoryItem.departmentId item)) t in
  staged (k tt) handler (set_inventoryItems (delete id) unaccounted) stages resp final ->
  staged (bind (IStorage.deleteInventoryItem DatabaseStorage.storage id) k) handler t
    ([t; t] ++ accounting_stages t (InventoryItem.departmentId item) t
       ++ [unaccounted] ++ stages) resp final.
Proof.
  intros Hk Hitem unaccounted H. unfold DatabaseStorage.storage,
    IStorage.deleteInventoryItem, DatabaseStorage.deleteInventoryItem,
    DatabaseStorage.getInventoryItem, DatabaseStorage.getDepartment.
  apply staged_assoc, staged_select. rewrite Hitem.
  apply staged_assoc, staged_select.
  unfold accounting_stages.
  destruct (departments t !! InventoryItem.departmentId item) as [dep|] eqn:Hd.
  - assert (E : unaccounted
                = set_departments
                    <[InventoryItem.departmentId item := remove_item dep]> t).
    { unfold unaccounted, set_departments.
      by rewrite (alter_present remove_item _ _ _ Hd). }
    revert H. rewrite E. intros H.
    do 2 apply staged_assoc. rewrite (Hk _ _ Hd).
    apply (staged_updateDepartment _ dep); [exact Hd|].
    apply staged_bind_ret, staged_statement. exact H.
  - assert (E : unaccounted = t).
    { unfold unaccounted, set_departments.
      rewrite (alter_absent remove_item _ _ Hd). by destruct t. }
    revert H. rewrite E. intros H.
    apply staged_assoc, staged_bind_ret, staged_statement. exact H.
Qed.

End Staged.
(** C1 (as amended): [DatabaseStorage] and the routes apply the steps of an
    inventory operation one statement at a time, each persisted at once,
    and nothing is rolled back.  For every caller that passes the checks of
    the route (an administrator, or for creation and update a member of the
    department), and whatever statements fail: when a statement fails, the
    request is answered 500 and the tables hold the writes of the
    statements before it, no more and no less; when none fails, the request
    is answered 201 or 200 and all the writes are there.  The lists give,
    statement by statement, the tables that the statement finds:
    - creation: the membership read (not for an administrator), the read of
      the company, the counter update, the insertion of the item, the read
      of the department, the accounting update (only when the department is
      found), the read of the department name, the log write.  So a failing
      insertion leaves the counter advanced without an item; a failing read
      of the department or a failing accounting update leaves the item and
      the advanced counter with the department counters as they were; a
      failing log write leaves also the department counters adjusted.  When
      the department is not found the accounting is skipped and the
      creation completes;
    - update: the read of the item, the membership read, the update of the
      row, the read of the department name, the log write.  A failure after
      the update leaves the rewritten row without a log row;
    - deletion: the read of the item, the read of the department name, the
      second read of the item, the read of the department, the accounting
      update (only when the department is found), the deleting statement,
      the log write.  A failing deleting statement leaves the department
      counters decremented and the row in place; a failing log write leaves
      the row deleted without a log row;
    - a creation for a company that is not registered writes nothing and is
      answered 500. *)
Theorem steps_persist_without_rollback
    (parse : PartialInventoryItem.t -> option InsertInventoryItem.t)
    (user : User.t) (t : Tables) (faults : list bool) :
  departments_keyed t ->
  (forall t_item t_log req_body departmentId itemData c,
     PartialInventoryItem.departmentId req_body = Some departmentId ->
     departmentId <> 0 ->
     User.role user = "admin" \/ member t (User.id user) departmentId ->
     parse (spread_partial_identity req_body (User.companyId user) (User.id user))
     = Some itemData ->
     companies t !! InsertInventoryItem.companyId itemData = Some c ->
     let item :=
       inserted_item t_item itemData (inventoryItemIdCounter t)
         (render_asset_id (Company.assetIdPattern c) (Company.currentAssetId c)) in
     let bumped :=
       set_companies <[InsertInventoryItem.companyId itemData := bump_counter c]> t in
     let inserted := after_insert t (InsertInventoryItem.companyId itemData) c item in
     let accounted :=
       set_departments (alter add_item (InsertInventoryItem.departmentId itemData))
         inserted in
     post_inventory DatabaseStorage.storage parse t_item t_log user req_body
       (mkDb t faults)
     = outcome faults
         (access_stages user t ++ [t; t; bumped; inserted]
            ++ accounting_stages t (InsertInventoryItem.departmentId itemData) inserted
            ++ [accounted; accounted])
         (mkResponse 201 (ItemJson item))
         (after_log accounted t_log
            (audit_entry "added" (InventoryItem.id item) (InventoryItem.assetId item)
               (InventoryItem.name item)
               (recorded_department_name accounted (InventoryItem.departmentId item))
               user))) /\
  (forall t_item t_log itemId req_body old,
     inventoryItems t !! itemId = Some old ->
     InventoryItem.companyId old = User.companyId user ->
     User.role user = "admin" \/
     member t (User.id user) (InventoryItem.departmentId old) ->
     let row :=
       with_updatedAt (spread_item old (with_updatedBy req_body (User.id user)))
         t_item in
     let updated := set_inventoryItems <[itemId := row]> t in
     put_inventory DatabaseStorage.storage t_item t_log user itemId req_body
       (mkDb t faults)
     = outcome faults
         ([t] ++ access_stages user t ++ [t; updated; updated])
         (mkResponse 200 (ItemJson row))
         (after_log updated t_log
            (audit_entry "updated" (InventoryItem.id row) (InventoryItem.assetId row)
               (InventoryItem.name row)
               (recorded_department_name updated (InventoryItem.departmentId row))
               user))) /\
  (forall t_log itemId existing,
     User.role user = "admin" ->
     inventoryItems t !! itemId = Some existing ->
     InventoryItem.companyId existing = User.companyId user ->
     let unaccounted :=
       set_departments (alter remove_item (InventoryItem.departmentId existing)) t in
     let deleted := set_inventoryItems (delete itemId) unaccounted in
     delete_inventory DatabaseStorage.storage t_log user itemId (mkDb t faults)
     = outcome faults
         ([t; t; t; t]
            ++ accounting_stages t (InventoryItem.departmentId existing) t
            ++ [unaccounted; deleted])
         (mkResponse 200 (Message "Item deleted successfully"))
         (after_log deleted t_log
            (audit_entry "removed" itemId (InventoryItem.assetId existing)
               (InventoryItem.name existing)
               (recorded_department_name t (InventoryItem.departmentId existing))
               user))) /\
  (forall t_item t_log req_body departmentId itemData,
     PartialInventoryItem.departmentId req_body = Some departmentId ->
     departmentId <> 0 ->
     User.role user = "admin" \/ member t (User.id user) departmentId ->
     parse (spread_partial_identity req_body (User.companyId user) (User.id user))
     = Some itemData ->
     companies t !! InsertInventoryItem.companyId itemData = None ->
     post_inventory DatabaseStorage.storage parse t_item t_log user req_body
       (mkDb t faults)
     = outcome faults (access_stages user t ++ [t])
         (mkResponse 500 (Message "Server error")) t).
Proof.
  intros Hk. split; [|split; [|split]].
  - intros t_item t_log req_body departmentId itemData c Hbody Hnz Haccess Hparse Hc
      item bumped inserted accounted.
    unfold post_inventory. rewrite Hbody, decide_False by done. revert faults.
    apply (staged_access catch_post eq_refl); [exact Haccess|].
    change (negb true) with false. cbv beta iota. rewrite Hparse.
    apply (staged_createInventoryItem catch_post eq_refl _ _ c); [exact Hk|exact Hc|].
    apply (staged_departmentName_of catch_post eq_refl).
    apply (staged_createActivityLog catch_post eq_refl).
    apply staged_ret.
  - intros t_item t_log itemId req_body old Hold Hcompany Haccess row updated.
    unfold put_inventory. revert faults.
    unfold DatabaseStorage.storage at 1, IStorage.getInventoryItem,
      DatabaseStorage.getInventoryItem.
    apply (staged_select catch_500 eq_refl). rewrite Hold.
    rewrite bool_decide_eq_true_2 by done. change (negb true) with false. cbv beta iota.
    apply (staged_access catch_500 eq_refl); [exact Haccess|].
    change (negb true) with false. cbv beta iota.
    apply (staged_updateInventoryItem catch_500 eq_refl _ _ _ old); [exact Hold|].
    apply (staged_departmentName_of catch_500 eq_refl).
    apply (staged_createActivityLog catch_500 eq_refl).
    apply staged_ret.
  - intros t_log itemId existing Hadmin Hex Hcompany unaccounted deleted.
    unfold delete_inventory. revert faults.
    unfold DatabaseStorage.storage at 1, IStorage.getInventoryItem,
      DatabaseStorage.getInventoryItem.
    apply (staged_select catch_500 eq_refl). rewrite Hex.
    rewrite !bool_decide_eq_true_2 by done. change (negb true) with false.
    cbv beta iota zeta.
    apply (staged_departmentName_of catch_500 eq_refl).
    apply (staged_deleteInventoryItem catch_500 eq_refl _ existing); [exact Hk|exact Hex|].
    apply (staged_createActivityLog catch_500 eq_refl).
    apply staged_ret.
  - intros t_item t_log req_body departmentId itemData Hbody Hnz Haccess Hparse Hc.
    unfold post_inventory. rewrite Hbody, decide_False by done. revert faults.
    apply (staged_access catch_post eq_refl); [exact Haccess|].
    change (negb true) with false. cbv beta iota. rewrite Hparse.
    unfold DatabaseStorage.storage, IStorage.createInventoryItem,
      DatabaseStorage.createInventoryItem, DatabaseStorage.generateAssetId,
      DatabaseStorage.getCompany.
    do 2 apply staged_assoc. apply (staged_select catch_post eq_refl). rewrite Hc.
    exact (staged_throw catch_post t
             (not_found "Company" (InsertInventoryItem.companyId itemData))).
Qed.

Lemma steps_persist_without_rollback_witness :
  let out :=
    post_inventory DatabaseStorage.storage parse_required 30 31 bob body_widget
      (mkDb staffed_tables [false; false; false; true]) in
  status out.1 = 500 /\
  (Company.currentAssetId <$> companies staffed_tables !! 1) = Some 2 /\
  (Company.currentAssetId <$> companies (tables out.2) !! 1) = Some 3 /\
  inventoryItems (tables out.2) = inventoryItems staffed_tables /\
  departments (tables out.2) = departments staffed_tables /\
  activityLogs (tables out.2) = activityLogs staffed_tables.
Proof.
  intros out.
  assert (Hkeyed : departments_keyed staffed_tables).
  { unfold departments_keyed. apply (bool_decide_unpack _). vm_compute. exact I. }
  assert (Hmember : member staffed_tables (User.id bob) 1).
  { unfold member. apply (bool_decide_unpack _). vm_compute. exact I. }
  pose proof (proj1 (steps_persist_without_rollback parse_required bob staffed_tables
                       [false; false; false; true] Hkeyed)
                30 31 body_widget 1
                {| InsertInventoryItem.companyId := 1;
                   InsertInventoryItem.departmentId := 1;
                   InsertInventoryItem.name := "Widget";
                   InsertInventoryItem.description := None;
                   InsertInventoryItem.quantity := 1;
                   InsertInventoryItem.unitPrice := None;
                   InsertInventoryItem.location := None;
                   InsertInventoryItem.purchaseDate := None;
                   InsertInventoryItem.status := None;
                   InsertInventoryItem.customFields := None;
                   InsertInventoryItem.createdBy := 2;
                   InsertInventoryItem.updatedBy := 2 |}
                (acme_company "A-####" 2)
                ltac:(reflexivity) ltac:(lia) (or_intror Hmember)
                ltac:(vm_compute; reflexivity) ltac:(vm_compute; reflexivity))
    as Hrun.
  unfold out. rewrite Hrun. vm_compute. repeat split; reflexivity.
Defined.

(** C1 (as stated, refuted): the accounting statement of a creation fails
    after the item row is written; the request is answered 500 and the item
    row is in the table all the same. *)
Lemma creation_failure_keeps_item_row :
  ~ (forall parse t_item t_log user req_body d resp d',
       post_inventory DatabaseStorage.storage parse t_item t_log user req_body d
       = (resp, d') ->
       status resp = 201 \/ inventoryItems (tables d') = inventoryItems (tables d)).
Proof.
  intros H.
  assert (exists resp d' row,
            post_inventory DatabaseStorage.storage parse_required 10 11 ada body_widget
              (mkDb acme_tables [false; false; false; false; true]) = (resp, d') /\
            status resp = 500 /\
            inventoryItems (tables d') !! 1 = Some row /\
            inventoryItems acme_tables !! 1 = None)
    as (resp & d' & row & Hrun & Hst & Hrow & Hnone).
  { vm_compute. eexists _, _, _. repeat split; reflexivity. }
  destruct (H _ _ _ _ _ _ _ _ Hrun) as [H201|Hsame].
  - rewrite Hst in H201. discriminate.
  - rewrite Hsame in Hrow. change (inventoryItems acme_tables !! 1 = Some row) in Hrow.
    rewrite Hnone in Hrow. discriminate.
Qed.

(** * Further properties of the storage classes and the routes *)

(** ** Well-formed stores *)

Lemma map_Forall_bound_insert {A} (m : gmap Z A) (n : Z) (x : A) :
  map_Forall (fun k _ => k < n) m ->
  map_Forall (fun k _ => k < n + 1) (<[n := x]> m).
Proof.
  intros H. apply map_Forall_insert_2; [lia|].
  intros k y Hk. apply H in Hk. simpl in Hk. lia.
Qed.

Lemma map_Forall_bound_delete {A} (m : gmap Z A) (n k : Z) :
  map_Forall (fun k _ => k < n) m -> map_Forall (fun k _ => k < n) (delete k m).
Proof. intros H. by apply map_Forall_delete. Qed.

Lemma map_Forall_bound_overwrite {A} (m : gmap Z A) (n k : Z) (x y : A) :
  m !! k = Some y ->
  map_Forall (fun k _ => k < n) m -> map_Forall (fun k _ => k < n) (<[k := x]> m).
Proof.
  intros Hk H. apply map_Forall_insert_2; [|done]. by apply H in Hk.
Qed.

Lemma map_Forall_bound_weaken {A} (m : gmap Z A) (n : Z) :
  map_Forall (fun k _ => k < n) m -> map_Forall (fun k _ => k < n + 1) m.
Proof. intros H k y Hk. apply H in Hk. simpl in Hk. lia. Qed.

Local Abbreviation keeps P := (fun s s' : Tables => P s -> P s').

Global Instance keeps_preorder (P : Tables -> Prop) : PreOrder (keeps P).
Proof. split; [by intros s | intros s1 s2 s3 H1 H2 H; auto]. Qed.

Ltac wf_unfold :=
  unfold well_formed, ids_fresh, departments_keyed, counters_nonneg, log_ids_fresh.

Ltac wf_solve :=
  repeat match goal with
         | |- _ /\ _ => split
         end;
  simpl;
  first
    [ assumption
    | by apply map_Forall_bound_insert
    | by apply map_Forall_bound_weaken
    | by apply map_Forall_bound_delete
    | by eapply map_Forall_bound_overwrite
    | idtac ].

Lemma Mem_createDepartment_wf now departmentData :
  steps (keeps well_formed) (MemStorage.createDepartment now departmentData).
Proof.
  intros s r s'. unfold MemStorage.createDepartment, bind, gets, modify, ret.
  intros [= <- <-]. wf_unfold.
  intros ((Hu & Hc & Hd & Hud & Hcf & Hi & Hl) & Hk & Hn). wf_solve.
  - apply map_Forall_insert_2; [done|]. exact Hk.
  - apply map_Forall_insert_2; [simpl; lia|]. exact Hn.
Qed.

Lemma Mem_createCompany_wf now now_department companyData :
  steps (keeps well_formed) (MemStorage.createCompany now now_department companyData).
Proof.
  intros s r s'.
  unfold MemStorage.createCompany, MemStorage.createDepartment, bind, gets, modify, ret.
  intros [= <- <-]. wf_unfold.
  intros ((Hu & Hc & Hd & Hud & Hcf & Hi & Hl) & Hk & Hn). wf_solve.
  - apply map_Forall_insert_2; [done|]. exact Hk.
  - apply map_Forall_insert_2; [simpl; lia|]. exact Hn.
Qed.

Lemma Mem_createUser_wf now userData :
  steps (keeps well_formed) (MemStorageQueries.createUser now userData).
Proof.
  intros s r s'. unfold MemStorageQueries.createUser, bind, gets, modify, ret.
  intros [= <- <-]. wf_unfold.
  intros ((Hu & Hc & Hd & Hud & Hcf & Hi & Hl) & Hk & Hn). wf_solve.
Qed.

Lemma Mem_assignUserToDepartment_wf now userId departmentId :
  steps (keeps well_formed) (MemStorage.assignUserToDepartment now userId departmentId).
Proof.
  intros s r s'. unfold MemStorage.assignUserToDepartment, bind, gets, modify, ret.
  intros [= <- <-]. wf_unfold.
  intros ((Hu & Hc & Hd & Hud & Hcf & Hi & Hl) & Hk & Hn). wf_solve.
Qed.

Lemma Mem_createCustomField_wf now fieldData :
  steps (keeps well_formed) (MemStorageQueries.createCustomField now fieldData).
Proof.
  intros s r s'. unfold MemStorageQueries.createCustomField, bind, gets, modify, ret.
  intros [= <- <-]. wf_unfold.
  intros ((Hu & Hc & Hd & Hud & Hcf & Hi & Hl) & Hk & Hn). wf_solve.
Qed.

Lemma Mem_createActivityLog_wf now logData :
  steps (keeps well_formed) (MemStorage.createActivityLog now logData).
Proof.
  intros s r s'. unfold_mem. intros [= <- <-]. wf_unfold.
  intros ((Hu & Hc & Hd & Hud & Hcf & Hi & Hl) & Hk & Hn). wf_solve.
Qed.

Lemma Mem_updateInventoryItem_wf now id data :
  steps (keeps well_formed) (MemStorage.updateInventoryItem now id data).
Proof.
  intros s r s'. unfold_mem.
  destruct (inventoryItems s !! id) as [old|] eqn:Hold; intros [= <- <-]; [|done].
  wf_unfold. intros ((Hu & Hc & Hd & Hud & Hcf & Hi & Hl) & Hk & Hn). wf_solve.
Qed.

(** Rewriting a department row under its id, with counters that are not
    negative, keeps the store well-formed. *)
Lemma set_department_row_wf s k row row' :
  well_formed s ->
  departments s !! k = Some row ->
  Department.id row' = k ->
  0 <= Department.assetCount row' -> 0 <= Department.capacityUsed row' ->
  well_formed (set_departments <[k := row']> s).
Proof.
  wf_unfold. intros ((Hu & Hc & Hd & Hud & Hcf & Hi & Hl) & Hk & Hn) Hrow ? ? ?.
  wf_solve.
  - by apply map_Forall_insert_2.
  - by apply map_Forall_insert_2.
Qed.

Lemma Mem_createInventoryItem_wf now itemData :
  steps (keeps well_formed) (MemStorage.createInventoryItem now itemData).
Proof.
  intros s r s' Hrun Hwf. revert Hrun. unfold_mem. simpl.
  destruct (companies s !! InsertInventoryItem.companyId itemData) as [c|] eqn:Hc; simpl.
  2:{ intros [= <- <-]. revert Hwf. wf_unfold.
      intros ((Hu & Hc' & Hd & Hud & Hcf & Hi & Hl) & Hk & Hn). wf_solve. }
  set (item := InventoryItem.mk _ _ _ _ _ _ _ _ _ _ _ _ _ _ _ _).
  set (c' := Company.mk _ _ _ _ _ _ _).
  assert (Hins : well_formed
            (set_inventoryItems <[inventoryItemIdCounter s := item]>
               (set_companies <[InsertInventoryItem.companyId itemData := c']>
                  (set_inventoryItemIdCounter (inventoryItemIdCounter s + 1) s)))).
  { revert Hwf. wf_unfold.
    intros ((Hu & Hc' & Hd & Hud & Hcf & Hi & Hl) & Hk & Hn). wf_solve. }
  destruct (departments s !! InsertInventoryItem.departmentId itemData) as [d|] eqn:Hd;
    simpl; [|by intros [= <- <-]].
  destruct (departments s !! Department.id d) as [row|] eqn:Hrow; simpl;
    intros [= <- <-]; [|done].
  pose proof Hwf as (_ & Hk & Hn). destruct (Hn _ _ Hd).
  eapply set_department_row_wf; [exact Hins|exact Hrow|..]; simpl;
    [by apply Hk in Hrow|lia..].
Qed.

Lemma Mem_deleteInventoryItem_wf id :
  steps (keeps well_formed) (MemStorage.deleteInventoryItem id).
Proof.
  intros s r s' Hrun Hwf. revert Hrun. unfold_mem. simpl.
  destruct (inventoryItems s !! id) as [item|] eqn:Hitem; simpl; [|by intros [= <- <-]].
  assert (Hdel : forall t, well_formed t -> well_formed (set_inventoryItems (delete id) t)).
  { intros t. wf_unfold.
    intros ((Hu & Hc' & Hd & Hud & Hcf & Hi & Hl) & Hk & Hn). wf_solve. }
  destruct (departments s !! InventoryItem.departmentId item) as [d|] eqn:Hd;
    simpl; [|intros [= <- <-]; by apply Hdel].
  destruct (departments s !! Department.id d) as [row|] eqn:Hrow; simpl;
    intros [= <- <-]; [|done].
  pose proof Hwf as (_ & Hk & _).
  apply Hdel. eapply set_department_row_wf; [done|exact Hrow|..]; simpl;
    [by apply Hk in Hrow|lia..].
Qed.

Lemma steps_unchanged {A} (R : Tables -> Tables -> Prop) `{!Reflexive R} (m : M Tables A) :
  (forall s, (m s).2 = s) -> steps R m.
Proof. intros H s r s' E. specialize (H s). rewrite E in H. simpl in H. by subst. Qed.

Lemma Mem_getDepartment_unchanged id companyId s :
  (MemStorage.getDepartment id companyId s).2 = s.
Proof.
  unfold MemStorage.getDepartment, bind, gets, ret.
  destruct (departments s !! id), companyId; simpl; try done. by destruct (decide _).
Qed.

Ltac mem_route_steps :=
  repeat first
    [ apply steps_ret; apply _
    | apply steps_throw; apply _
    | apply Mem_createInventoryItem_wf
    | apply Mem_updateInventoryItem_wf
    | apply Mem_deleteInventoryItem_wf
    | apply Mem_createActivityLog_wf
    | apply Mem_createDepartment_wf
    | apply steps_unchanged; [apply _ | done || apply Mem_getDepartment_unchanged]
    | apply steps_bind; [apply _ | | intros ?]
    | match goal with
      | |- steps _ (match ?x with _ => _ end) => destruct x
      end ].

Lemma Mem_hasDepartmentAccess_wf user departmentId :
  steps (keeps well_formed) (hasDepartmentAccess MemStorage.storage user departmentId).
Proof. unfold hasDepartmentAccess. simpl. mem_route_steps. Qed.

Lemma Mem_departmentName_of_wf departmentId :
  steps (keeps well_formed) (departmentName_of MemStorage.storage departmentId).
Proof. unfold departmentName_of. simpl. mem_route_steps. Qed.

Lemma post_inventory_wf parse t_item t_log user req_body s :
  well_formed s ->
  well_formed (post_inventory MemStorage.storage parse t_item t_log user req_body s).2.
Proof.
  intros Hwf.
  destruct (post_inventory MemStorage.storage parse t_item t_log user req_body s)
    as [resp s'] eqn:E.
  revert E Hwf. unfold post_inventory. apply (steps_try_catch (keeps well_formed)).
  simpl.
  repeat first
    [ apply Mem_hasDepartmentAccess_wf | apply Mem_departmentName_of_wf
    | progress mem_route_steps ].
Qed.

Lemma put_inventory_wf t_item t_log user itemId req_body s :
  well_formed s ->
  well_formed (put_inventory MemStorage.storage t_item t_log user itemId req_body s).2.
Proof.
  intros Hwf.
  destruct (put_inventory MemStorage.storage t_item t_log user itemId req_body s)
    as [resp s'] eqn:E.
  revert E Hwf. unfold put_inventory. apply (steps_try_catch (keeps well_formed)).
  simpl.
  repeat first
    [ apply Mem_hasDepartmentAccess_wf | apply Mem_departmentName_of_wf
    | progress mem_route_steps ].
Qed.

Lemma delete_inventory_wf t_log user itemId s :
  well_formed s ->
  well_formed (delete_inventory MemStorage.storage t_log user itemId s).2.
Proof.
  intros Hwf.
  destruct (delete_inventory MemStorage.storage t_log user itemId s) as [resp s'] eqn:E.
  revert E Hwf. unfold delete_inventory. apply (steps_try_catch (keeps well_formed)).
  simpl.
  repeat first
    [ apply Mem_hasDepartmentAccess_wf | apply Mem_departmentName_of_wf
    | progress mem_route_steps ].
Qed.

Lemma post_departments_wf parse now user req_body s :
  well_formed s -> well_formed (post_departments parse now user req_body s).2.
Proof.
  intros Hwf.
  destruct (post_departments parse now user req_body s) as [resp s'] eqn:E.
  revert E Hwf. unfold post_departments. apply (steps_try_catch (keeps well_formed)).
  mem_route_steps.
Qed.

Lemma new_tables_well_formed : well_formed new_tables.
Proof.
  wf_unfold. repeat match goal with |- _ /\ _ => split end; apply map_Forall_empty.
Qed.

Lemma steps_snd {A} (P : Tables -> Prop) (m : M Tables A) s :
  steps (keeps P) m -> P s -> P (m s).2.
Proof. intros H. destruct (m s) as [r s'] eqn:E. by apply (H _ _ _ E). Qed.

(** X1: every store that a fresh [MemStorage] reaches through
    [createCompany], [createUser], [assignUserToDepartment],
    [createCustomField] and the writing routes (department creation, item
    creation, update and deletion), whatever their arguments and outcomes, is
    well-formed: every row sits under an id below its table's counter (so the
    next id handed out is free), every department row carries the id it is
    stored under, and no department counter is negative. *)
Theorem reachable_well_formed
    (parse_item : PartialInventoryItem.t -> option InsertInventoryItem.t)
    (parse_department : PartialDepartment.t -> option InsertDepartment.t)
    (s : Tables) :
  reachable parse_item parse_department s -> well_formed s.
Proof.
  induction 1.
  - apply new_tables_well_formed.
  - by apply steps_snd; [apply Mem_createCompany_wf|].
  - by apply steps_snd; [apply Mem_createUser_wf|].
  - by apply steps_snd; [apply Mem_assignUserToDepartment_wf|].
  - by apply steps_snd; [apply Mem_createCustomField_wf|].
  - by apply post_departments_wf.
  - by apply post_inventory_wf.
  - by apply put_inventory_wf.
  - by apply delete_inventory_wf.
Qed.

Lemma reachable_well_formed_witness :
  well_formed
    (post_inventory MemStorage.storage parse_required 10 11 ada body_widget acme_tables).2.
Proof.
  apply (reachable_well_formed parse_required (fun _ => None)).
  apply reach_post_inventory.
  apply (reach_createCompany _ _ 0 0 acme new_tables).
  apply reach_new.
Defined.

(** ** Registering a company *)

(** X2: [createCompany] on a well-formed store takes the next company id,
    which holds no company, and the next department id, which holds no
    department; it stores the company with the name of the data, the date
    it read, counter 1, and the pattern, tier and status of the data, or
    ["A-####"], "free" and "active" where the data leave one out or give
    the empty text; it adds for the company a department "General" with
    both counters 0 and the date that [createDepartment] read, and changes
    no other company or department.  The first asset id then issued for
    the company is its pattern filled with 1. *)
Theorem createCompany_registers (now now_department : Date)
    (companyData : InsertCompany.t) (s : Tables) :
  well_formed s ->
  exists company s',
    MemStorage.createCompany now now_department companyData s = (Ok company, s') /\
    Company.id company = companyIdCounter s /\
    Company.name company = InsertCompany.name companyData /\
    Company.createdAt company = now /\
    Company.currentAssetId company = 1 /\
    Company.assetIdPattern company
    = match InsertCompany.assetIdPattern companyData with
      | Some pattern => if decide (pattern = "") then "A-####" else pattern
      | None => "A-####"
      end /\
    Company.subscriptionTier company
    = match InsertCompany.subscriptionTier companyData with
      | Some tier => if decide (tier = "") then "free" else tier
      | None => "free"
      end /\
    Company.subscriptionStatus company
    = match InsertCompany.subscriptionStatus companyData with
      | Some status => if decide (status = "") then "active" else status
      | None => "active"
      end /\
    companies s !! companyIdCounter s = None /\
    companies s' = <[companyIdCounter s := company]> (companies s) /\
    departments s !! departmentIdCounter s = None /\
    departments s'
    = <[departmentIdCounter s :=
          {| Department.id := departmentIdCounter s;
             Department.companyId := companyIdCounter s;
             Department.name := "General";
             Department.assetCount := 0;
             Department.capacityUsed := 0;
             Department.createdAt := now_department |}]>
        (departments s) /\
    (MemStorage.generateAssetId (Company.id company) s').1
    = Ok (render_asset_id (Company.assetIdPattern company) 1).
Proof.
  intros ((Hu & Hc & Hd & _) & _ & _).
  eexists _, _. split.
  { unfold MemStorage.createCompany, MemStorage.createDepartment, bind, gets, modify, ret.
    simpl. reflexivity. }
  simpl. repeat match goal with |- _ /\ _ => split end; try reflexivity.
  - destruct (companies s !! companyIdCounter s) eqn:E; [|done]. apply Hc in E. lia.
  - destruct (departments s !! departmentIdCounter s) eqn:E; [|done]. apply Hd in E. lia.
  - unfold_mem. simpl. by rewrite lookup_insert_eq.
Qed.

Lemma createCompany_registers_witness :
  exists company s',
    MemStorage.createCompany 3 4 bolt acme_tables = (Ok company, s') /\
    Company.assetIdPattern company = "A-####" /\
    Company.subscriptionTier company = "pro" /\
    Company.subscriptionStatus company = "active" /\
    (Department.createdAt <$> departments s' !! 2) = Some 4 /\
    (MemStorage.generateAssetId (Company.id company) s').1 = Ok "A-0001".
Proof.
  destruct (createCompany_registers 3 4 bolt acme_tables
              ltac:(unfold well_formed, ids_fresh, departments_keyed, counters_nonneg,
                      log_ids_fresh;
                    apply (bool_decide_unpack _); vm_compute; exact I))
    as (company & s' & Hrun & _ & _ & _ & _ & Hp & Ht & Hs & _ & _ & _ & Hd & Hfirst).
  exists company, s'. split; [exact Hrun|].
  split; [exact Hp|]. split; [exact Ht|]. split; [exact Hs|]. split.
  - rewrite Hd. vm_compute. reflexivity.
  - rewrite Hfirst, Hp. vm_compute. reflexivity.
Defined.

(** ** Items: create, look up, delete *)

Lemma add_then_remove_item d :
  0 <= Department.assetCount d -> 0 <= Department.capacityUsed d ->
  remove_item (add_item d) = d.
Proof.
  intros ? ?. destruct d. unfold remove_item, add_item. simpl in *. f_equal; lia.
Qed.

(** X3: on a well-formed store, a creation for a registered company stores
    the item under an id that held none, leaves every other item as it was,
    and [getInventoryItem] then returns the item.  Deleting it right away
    succeeds and restores the items table and every department row (the
    accounting of the deletion undoes that of the creation); a second
    deletion of the same id throws "not found" and changes nothing. *)
Theorem create_then_delete_restores
    (now : Date) (itemData : InsertInventoryItem.t) (s : Tables) (c : Company.t) :
  well_formed s ->
  companies s !! InsertInventoryItem.companyId itemData = Some c ->
  exists item s1 s2,
    MemStorage.createInventoryItem now itemData s = (Ok item, s1) /\
    inventoryItems s !! InventoryItem.id item = None /\
    MemStorage.getInventoryItem (InventoryItem.id item) s1 = (Ok (Some item), s1) /\
    (forall k, k <> InventoryItem.id item ->
       inventoryItems s1 !! k = inventoryItems s !! k) /\
    MemStorage.deleteInventoryItem (InventoryItem.id item) s1 = (Ok tt, s2) /\
    inventoryItems s2 = inventoryItems s /\
    departments s2 = departments s /\
    MemStorage.deleteInventoryItem (InventoryItem.id item) s2
    = (Throw (not_found "Inventory item" (InventoryItem.id item)), s2).
Proof.
  intros Hwf Hc. pose proof Hwf as ((_ & _ & _ & _ & _ & Hi & _) & Hk & Hn).
  destruct (Mem_createInventoryItem_Some now itemData s c Hk Hc)
    as (item & Hcreate & Hid & _ & Hdep & _).
  match type of Hcreate with _ = (_, ?t) => set (s1 := t) in * end.
  assert (Hfree : inventoryItems s !! inventoryItemIdCounter s = None).
  { destruct (inventoryItems s !! inventoryItemIdCounter s) eqn:E; [|done].
    apply Hi in E. lia. }
  assert (Hstored : inventoryItems s1 !! InventoryItem.id item = Some item).
  { rewrite Hid. simpl. apply lookup_insert_eq. }
  assert (Hk1 : departments_keyed s1).
  { intros j d. apply alter_add_item_keyed, Hk. }
  pose proof (Mem_deleteInventoryItem_Some _ s1 item Hk1 Hstored) as Hdel.
  match type of Hdel with _ = (_, ?t) => set (s2 := t) in * end.
  exists item, s1, s2. split; [done|]. split; [by rewrite Hid|]. split.
  { unfold MemStorage.getInventoryItem, gets. by rewrite Hstored. }
  split.
  { intros k Hne. simpl. rewrite lookup_insert_ne; [done|]. by rewrite <- Hid. }
  split; [done|].
  assert (Hitems2 : inventoryItems s2 = inventoryItems s).
  { simpl. rewrite Hid, delete_insert_eq. by apply delete_id. }
  split; [done|]. split.
  - simpl. rewrite Hdep. apply map_eq. intros k.
    destruct (decide (InsertInventoryItem.departmentId itemData = k)) as [<-|?].
    + rewrite lookup_alter, decide_True, lookup_alter, decide_True by done.
      destruct (departments s !! InsertInventoryItem.departmentId itemData) as [d|] eqn:Hd;
        [|done].
      simpl. f_equal. destruct (Hn _ _ Hd). by apply add_then_remove_item.
    + by rewrite lookup_alter, decide_False, lookup_alter, decide_False.
  - unfold_mem. replace (inventoryItems s2 !! InventoryItem.id item) with (@None InventoryItem.t);
      [done|].
    by rewrite Hitems2, Hid.
Qed.

Lemma create_then_delete_restores_witness :
  exists item s1 s2,
    MemStorage.createInventoryItem 10 (widget 1) acme_tables = (Ok item, s1) /\
    MemStorage.deleteInventoryItem (InventoryItem.id item) s1 = (Ok tt, s2) /\
    inventoryItems s2 = inventoryItems acme_tables /\
    departments s2 = departments acme_tables.
Proof.
  destruct (create_then_delete_restores 10 (widget 1) acme_tables
              (acme_company "A-####" 1)
              ltac:(unfold well_formed, ids_fresh, departments_keyed, counters_nonneg,
                      log_ids_fresh;
                    apply (bool_decide_unpack _); vm_compute; exact I)
              ltac:(vm_compute; reflexivity))
    as (item & s1 & s2 & H1 & _ & _ & _ & H2 & H3 & H4 & _).
  by exists item, s1, s2.
Defined.

(** ** The department counters as a cache of the live items *)

Lemma values_insert_fresh {A} (m : gmap Z A) (k : Z) (x : A) :
  m !! k = None -> values (<[k := x]> m) ≡ₚ x :: values m.
Proof.
  intros H. rewrite !values_Permutation, map_to_list_insert by done. done.
Qed.









(** ** The list queries *)

Lemma insert_newest_first_Permutation x l : insert_newest_first x l ≡ₚ x :: l.
Proof.
  induction l as [|y l IH]; simpl; [done|].
  destruct (decide _); [done|]. rewrite IH. apply Permutation_swap.
Qed.

Lemma sort_newest_first_Permutation l : sort_newest_first l ≡ₚ l.
Proof.
  induction l as [|x l IH]; simpl; [done|].
  by rewrite insert_newest_first_Permutation, IH.
Qed.

Lemma insert_newest_first_sorted x l :
  StronglySorted not_older l -> StronglySorted not_older (insert_newest_first x l).
Proof.
  induction 1 as [|y l Hs IH Hall]; simpl.
  - by repeat constructor.
  - destruct (decide _) as [Hle|Hgt].
    + constructor; [by constructor|]. constructor; [unfold not_older; lia|].
      eapply Forall_impl; [exact Hall|]. unfold not_older. intros z Hz. lia.
    + constructor; [done|]. rewrite insert_newest_first_Permutation.
      constructor; [unfold not_older; lia|done].
Qed.

Lemma sort_newest_first_sorted l : StronglySorted not_older (sort_newest_first l).
Proof.
  induction l as [|x l IH]; simpl; [constructor|].
  by apply insert_newest_first_sorted.
Qed.

Lemma Mem_getActivityLogsByCompany_scoped companyId limit s :
  exists logs,
    MemStorageQueries.getActivityLogsByCompany companyId limit s = (Ok logs, s) /\
    forall log, log ∈ logs ->
      ActivityLog.companyId log = companyId /\
      exists k, activityLogs s !! k = Some log.
Proof.
  eexists. split; [reflexivity|]. intros log Hin.
  assert (log ∈ filter (fun log => ActivityLog.companyId log = companyId)
                  (values (activityLogs s))) as Hmine.
  { rewrite <- (sort_newest_first_Permutation _).
    unfold slice0 in Hin. destruct (decide _); by apply subseteq_take in Hin. }
  apply list_elem_of_filter in Hmine as [Hc Hv]. split; [done|].
  by apply elem_of_values.
Qed.

(** X5. [MemStorage.getActivityLogsByCompany] writes nothing and returns a
    prefix of the company's stored log rows arranged most recent first:
    the rows returned and the rows left out are together exactly the stored
    rows of that company, no row left out is more recent than a row
    returned, and every row returned is a stored row of that company.  With
    a limit that is not negative (10 when none is passed) it returns that
    many rows, or all of them when there are fewer; with a negative limit
    it leaves out that many of the oldest rows instead. *)
Theorem getActivityLogsByCompany_newest_first (companyId : Z) (limit : option Z)
    (s : Tables) :
  exists logs rest,
    MemStorageQueries.getActivityLogsByCompany companyId limit s = (Ok logs, s) /\
    logs ++ rest ≡ₚ filter (fun log => ActivityLog.companyId log = companyId)
                      (values (activityLogs s)) /\
    StronglySorted not_older (logs ++ rest) /\
    (forall log, log ∈ logs ->
       ActivityLog.companyId log = companyId /\
       exists k, activityLogs s !! k = Some log) /\
    (0 <= default 10 limit ->
       length logs = Nat.min (Z.to_nat (default 10 limit)) (length (logs ++ rest))) /\
    (default 10 limit < 0 ->
       length rest = Nat.min (Z.to_nat (- default 10 limit)) (length (logs ++ rest))).
Proof.
  set (mine := filter (fun log => ActivityLog.companyId log = companyId)
                 (values (activityLogs s))).
  set (n := if decide (default 10 limit < 0)
            then Z.to_nat (Z.max (Z.of_nat (length (sort_newest_first mine))
                                  + default 10 limit) 0)
            else Z.to_nat (default 10 limit)).
  exists (take n (sort_newest_first mine)), (drop n (sort_newest_first mine)).
  rewrite take_drop.
  split; [|split; [|split; [|split; [|split]]]].
  - unfold MemStorageQueries.getActivityLogsByCompany, gets, slice0. subst n mine.
    by destruct (decide _).
  - apply sort_newest_first_Permutation.
  - apply sort_newest_first_sorted.
  - intros log Hin.
    assert (log ∈ mine) as Hmine.
    { rewrite <- (sort_newest_first_Permutation mine).
      rewrite <- (take_drop n (sort_newest_first mine)). apply elem_of_app. by left. }
    apply list_elem_of_filter in Hmine as [Hc Hv]. split; [done|].
    by apply elem_of_values.
  - intros Hpos. subst n. rewrite decide_False by lia. apply length_take.
  - intros Hneg. subst n. rewrite decide_True by done. rewrite length_drop. lia.
Qed.

(** X6. The list routes of a [MemStorage] answer 200 and write nothing, and
    they are scoped to the caller's company: [GET /api/inventory] returns
    exactly the stored items whose company is the caller's,
    [GET /api/departments] exactly the stored departments of that company,
    and every row that [GET /api/activity] returns is a stored log row of
    that company. *)
Theorem list_routes_tenant_scoped (user : User.t) (limit : option Z) (s : Tables) :
  exists items depts logs,
    get_inventory user s = (mkReply 200 (PItems items), s) /\
    (forall item, item ∈ items <->
       InventoryItem.companyId item = User.companyId user /\
       exists k, inventoryItems s !! k = Some item) /\
    get_departments user s = (mkReply 200 (PDepartments depts), s) /\
    (forall dept, dept ∈ depts <->
       Department.companyId dept = User.companyId user /\
       exists k, departments s !! k = Some dept) /\
    get_activity user limit s = (mkReply 200 (PLogs logs), s) /\
    (forall log, log ∈ logs ->
       ActivityLog.companyId log = User.companyId user /\
       exists k, activityLogs s !! k = Some log).
Proof.
  destruct (Mem_getActivityLogsByCompany_scoped (User.companyId user)
              (Some (default 10 limit)) s) as (logs & Hrun & Hlogs).
  eexists _, _, logs. split; [reflexivity|]. split.
  { intros item. by rewrite list_elem_of_filter, elem_of_values. }
  split; [reflexivity|]. split.
  { intros dept. by rewrite list_elem_of_filter, elem_of_values. }
  split; [|exact Hlogs].
  unfold get_activity, try_catch, bind. by rewrite Hrun.
Qed.

(** ** Who may write *)

Lemma Mem_hasDepartmentAccess_employee user departmentId s :
  User.role user <> "admin" ->
  hasDepartmentAccess MemStorage.storage user departmentId s
  = (Ok (bool_decide (member s (User.id user) departmentId)), s).
Proof.
  intros Hrole. unfold hasDepartmentAccess. rewrite decide_False by done.
  unfold MemStorage.storage, IStorage.getUserDepartments. unfold_mem.
  do 2 f_equal. apply existsb_member.
Qed.

(** X7. [POST /api/inventory] answers 400 "Department ID is required" when
    the request body has no [departmentId] or has the department id 0,
    before any call of the storage: whatever the storage class, whoever the
    caller, the state is the one the request found. *)
Theorem post_inventory_requires_department {S : Type} (storage : IStorage.t S)
    (parse : PartialInventoryItem.t -> option InsertInventoryItem.t)
    (t_item t_log : Date) (user : User.t) (req_body : PartialInventoryItem.t) (s : S) :
  PartialInventoryItem.departmentId req_body = None \/
  PartialInventoryItem.departmentId req_body = Some 0 ->
  post_inventory storage parse t_item t_log user req_body s
  = (mkResponse 400 (Message "Department ID is required"), s).
Proof.
  intros [H|H]; unfold post_inventory, try_catch; rewrite H; reflexivity.
Qed.

Lemma post_inventory_requires_department_witness :
  post_inventory DatabaseStorage.storage parse_required 10 11 ada
    (with_updatedBy body_forge 1) (mkDb lab_tables [true])
  = (mkResponse 400 (Message "Department ID is required"), mkDb lab_tables [true]).
Proof.
  apply post_inventory_requires_department. left. reflexivity.
Defined.

(** X8. [DELETE /api/inventory/:id] for an item of the caller's own company
    is answered 403 "Only admins can delete items" when the caller's role
    is not "admin", department memberships or not; with either storage
    class nothing is deleted and nothing is logged: the tables are the ones
    the request found. *)
Theorem delete_inventory_admin_only {S : Type} (storage : IStorage.t S)
    (view : S -> Tables) (t_log : Date) (user : User.t) (itemId : Z)
    (item : InventoryItem.t) (s s1 : S) :
  Lawful storage view ->
  IStorage.getInventoryItem storage itemId s = (Ok (Some item), s1) ->
  InventoryItem.companyId item = User.companyId user ->
  User.role user <> "admin" ->
  delete_inventory storage t_log user itemId s
  = (mkResponse 403 (Message "Only admins can delete items"), s1) /\
  view s1 = view s.
Proof.
  intros Hlaw Hget Hc Hrole. split.
  - unfold delete_inventory, try_catch. rewrite (bind_eq _ _ _ _ _ Hget).
    rewrite bool_decide_eq_true_2 by done. simpl.
    by rewrite bool_decide_eq_false_2.
  - by destruct (law_getInventoryItem _ _ Hlaw _ _ _ _ Hget).
Qed.

Lemma delete_inventory_admin_only_witness :
  delete_inventory MemStorage.storage 30 bob 1 staffed_tables
  = (mkResponse 403 (Message "Only admins can delete items"), staffed_tables) /\
  member staffed_tables 2 1.
Proof.
  assert (exists item, inventoryItems staffed_tables !! 1 = Some item /\
                       InventoryItem.companyId item = 1) as (item & Hitem & Hc).
  { vm_compute. eexists. split; reflexivity. }
  split.
  - apply (delete_inventory_admin_only MemStorage.storage (fun s => s) 30 bob 1 item).
    + exact Mem_lawful.
    + unfold MemStorage.storage, IStorage.getInventoryItem. unfold_mem. by rewrite Hitem.
    + exact Hc.
    + discriminate.
  - unfold member. apply (bool_decide_unpack _). vm_compute. exact I.
Defined.

(** X9. With a [MemStorage], [POST /api/inventory] by a caller whose role
    is not "admin", for a department id that is not 0, is answered 403
    "You don't have access to this department" exactly when no membership
    row assigns the caller to that department; the refusal writes
    nothing. *)
Theorem post_inventory_employee_membership
    (parse : PartialInventoryItem.t -> option InsertInventoryItem.t)
    (t_item t_log : Date) (user : User.t) (req_body : PartialInventoryItem.t)
    (departmentId : Z) (s : Tables) :
  User.role user <> "admin" ->
  PartialInventoryItem.departmentId req_body = Some departmentId ->
  departmentId <> 0 ->
  (~ member s (User.id user) departmentId ->
     post_inventory MemStorage.storage parse t_item t_log user req_body s
     = (mkResponse 403 (Message "You don't have access to this department"), s)) /\
  (member s (User.id user) departmentId ->
     status (post_inventory MemStorage.storage parse t_item t_log user req_body s).1
     <> 403).
Proof.
  intros Hrole Hd Hnz. unfold post_inventory, try_catch. rewrite Hd.
  rewrite decide_False by done.
  rewrite (bind_eq _ _ _ _ _ (Mem_hasDepartmentAccess_employee _ _ _ Hrole)).
  split; intros Hm.
  - by rewrite bool_decide_eq_false_2.
  - rewrite bool_decide_eq_true_2 by done. simpl.
    destruct (parse _) as [itemData|]; [|simpl; done].
    do 3 (match goal with
          | |- context [bind ?m ?k ?s0] =>
              let H := fresh in
              destruct (m s0) as [[?|e] ?] eqn:H;
              [erewrite bind_eq by exact H
              |erewrite bind_throw by exact H; destruct e; simpl; done]
          end).
    simpl. done.
Qed.

Lemma post_inventory_employee_membership_witness :
  post_inventory MemStorage.storage parse_required 30 31 bob body_move staffed_tables
  = (mkResponse 403 (Message "You don't have access to this department"),
     staffed_tables) /\
  status (post_inventory MemStorage.storage parse_required 30 31 bob body_widget
            staffed_tables).1 <> 403.
Proof.
  split.
  - apply (post_inventory_employee_membership parse_required 30 31 bob body_move 2);
      [discriminate | reflexivity | lia |].
    unfold member. apply (bool_decide_unpack _). vm_compute. exact I.
  - apply (post_inventory_employee_membership parse_required 30 31 bob body_widget 1);
      [discriminate | reflexivity | lia |].
    unfold member. apply (bool_decide_unpack _). vm_compute. exact I.
Defined.

Lemma Mem_departmentName_of_run departmentId s :
  departmentName_of MemStorage.storage departmentId s
  = (Ok (str_or (Department.name <$> departments s !! departmentId) "Unknown"), s).
Proof.
  unfold departmentName_of, MemStorage.storage, IStorage.getDepartment. unfold_mem.
  by destruct (departments s !! departmentId).
Qed.

(** X10. With a [MemStorage], [PUT /api/inventory/:id] by a caller whose
    role is not "admin" decides on the department the item is stored in,
    not on the one the payload names.  Without a membership row for the
    stored department the answer is 403 and nothing is written, whatever
    the payload.  With one, the answer is 200 and the row stored under the
    id is the old row overwritten by the payload's fields, [updatedBy]
    forced to the caller and [updatedAt] to the date of the write: the
    payload's department id, when it has one, becomes the item's department
    without a membership check. *)
Theorem put_inventory_checks_stored_department (t_item t_log : Date) (user : User.t)
    (itemId : Z) (req_body : PartialInventoryItem.t) (item : InventoryItem.t)
    (s : Tables) :
  User.role user <> "admin" ->
  inventoryItems s !! itemId = Some item ->
  InventoryItem.companyId item = User.companyId user ->
  (~ member s (User.id user) (InventoryItem.departmentId item) ->
     put_inventory MemStorage.storage t_item t_log user itemId req_body s
     = (mkResponse 403 (Message "You don't have access to this department"), s)) /\
  (member s (User.id user) (InventoryItem.departmentId item) ->
     exists row s',
       put_inventory MemStorage.storage t_item t_log user itemId req_body s
       = (mkResponse 200 (ItemJson row), s') /\
       row = with_updatedAt (spread_item item (with_updatedBy req_body (User.id user)))
               t_item /\
       inventoryItems s' = <[itemId := row]> (inventoryItems s) /\
       departments s' = departments s /\
       InventoryItem.departmentId row
       = default (InventoryItem.departmentId item)
           (PartialInventoryItem.departmentId req_body) /\
       InventoryItem.updatedBy row = User.id user /\
       InventoryItem.updatedAt row = t_item).
Proof.
  intros Hrole Hitem Hc. unfold put_inventory, try_catch.
  rewrite (bind_eq _ _ s (Some item) s)
    by (unfold MemStorage.storage, IStorage.getInventoryItem; unfold_mem;
        by rewrite Hitem).
  cbv beta iota. rewrite bool_decide_eq_true_2 by done. change (negb true) with false. cbv beta iota.
  rewrite (bind_eq _ _ _ _ _ (Mem_hasDepartmentAccess_employee _ _ _ Hrole)).
  split; intros Hm.
  - by rewrite bool_decide_eq_false_2.
  - rewrite bool_decide_eq_true_2 by done. cbv beta iota. change (negb true) with false. cbv beta iota.
    eexists _, _. split; [|split; [reflexivity|]].
    + erewrite bind_eq.
      2:{ unfold MemStorage.storage, IStorage.updateInventoryItem. unfold_mem.
          rewrite Hitem. reflexivity. }
      erewrite bind_eq by apply Mem_departmentName_of_run.
      reflexivity.
    + simpl. repeat split; reflexivity.
Qed.

Lemma put_inventory_checks_stored_department_witness :
  exists row s',
    put_inventory MemStorage.storage 30 31 bob 1 body_move staffed_tables
    = (mkResponse 200 (ItemJson row), s') /\
    InventoryItem.departmentId row = 2 /\
    ~ member staffed_tables 2 2.
Proof.
  assert (exists item, inventoryItems staffed_tables !! 1 = Some item /\
                       InventoryItem.companyId item = 1 /\
                       InventoryItem.departmentId item = 1)
    as (item & Hitem & Hc & Hd).
  { vm_compute. eexists. repeat split; reflexivity. }
  assert (Hm : member staffed_tables (User.id bob) (InventoryItem.departmentId item)).
  { rewrite Hd. unfold member. apply (bool_decide_unpack _). vm_compute. exact I. }
  destruct (put_inventory_checks_stored_department 30 31 bob 1 body_move item
              staffed_tables ltac:(discriminate) Hitem Hc)
    as [_ Hput].
  destruct (Hput Hm) as (row & s' & Hrun & _ & _ & _ & Hrow & _).
  exists row, s'. split; [exact Hrun|]. split.
  - rewrite Hrow. reflexivity.
  - unfold member. apply (bool_decide_unpack _). vm_compute. exact I.
Defined.

(** X11. [POST /api/departments] on a well-formed [MemStorage]: a caller
    whose role is not "admin" is answered 403 and a body that the schema
    rejects is answered 400, both without a write; otherwise the answer is
    201 with a department stored under an id that was free, its two
    counters at 0 whatever the body says, no other department or item
    touched, and from then on [GET /api/departments] lists it for the
    callers of its company and for no others. *)
Theorem post_departments_outcomes
    (parse : PartialDepartment.t -> option InsertDepartment.t) (now : Date)
    (user : User.t) (req_body : PartialDepartment.t) (s : Tables) :
  well_formed s ->
  (User.role user <> "admin" ->
     post_departments parse now user req_body s
     = (mkReply 403 (PMessage "Only admins can create departments"), s)) /\
  (User.role user = "admin" ->
     parse (spread_department_body req_body (User.companyId user)) = None ->
     post_departments parse now user req_body s = (mkReply 400 PZodErrors, s)) /\
  (User.role user = "admin" ->
     forall data,
       parse (spread_department_body req_body (User.companyId user)) = Some data ->
       exists s',
         post_departments parse now user req_body s
         = (mkReply 201
              (PDepartment
                 (Department.mk (departmentIdCounter s) (InsertDepartment.companyId data)
                    (InsertDepartment.name data) 0 0 now)), s') /\
         departments s !! departmentIdCounter s = None /\
         departments s'
         = <[departmentIdCounter s :=
               Department.mk (departmentIdCounter s) (InsertDepartment.companyId data)
                 (InsertDepartment.name data) 0 0 now]> (departments s) /\
         inventoryItems s' = inventoryItems s /\
         forall reader, exists depts,
           get_departments reader s' = (mkReply 200 (PDepartments depts), s') /\
           (Department.mk (departmentIdCounter s) (InsertDepartment.companyId data)
              (InsertDepartment.name data) 0 0 now ∈ depts
            <-> User.companyId reader = InsertDepartment.companyId data)).
Proof.
  intros ((_ & _ & Hd & _) & _ & _). unfold post_departments, try_catch.
  split; [|split].
  - intros Hrole. by rewrite bool_decide_eq_false_2.
  - intros Hrole Hp. rewrite bool_decide_eq_true_2 by done. simpl. by rewrite Hp.
  - intros Hrole data Hp. rewrite bool_decide_eq_true_2 by done. simpl. rewrite Hp.
    eexists. split; [reflexivity|]. split; [|split; [reflexivity|split; [reflexivity|]]].
    + destruct (departments s !! departmentIdCounter s) eqn:E; [|done].
      apply Hd in E. lia.
    + intros reader. eexists. split; [reflexivity|].
      rewrite list_elem_of_filter, elem_of_values. simpl. split; [by intros [-> _]|].
      intros ->. split; [done|]. exists (departmentIdCounter s).
      apply lookup_insert_eq.
Qed.

Lemma post_departments_outcomes_witness :
  exists s',
    post_departments parse_named 40 ada body_lab acme_tables
    = (mkReply 201 (PDepartment (Department.mk 2 1 "Lab" 0 0 40)), s') /\
    post_departments parse_named 40 bob body_lab acme_tables
    = (mkReply 403 (PMessage "Only admins can create departments"), acme_tables).
Proof.
  assert (Hwf : well_formed acme_tables).
  { unfold well_formed, ids_fresh, departments_keyed, counters_nonneg, log_ids_fresh.
    apply (bool_decide_unpack _). vm_compute. exact I. }
  destruct (post_departments_outcomes parse_named 40 ada body_lab acme_tables Hwf)
    as (_ & _ & Hadmin).
  destruct (Hadmin eq_refl
              {| InsertDepartment.name := "Lab"; InsertDepartment.companyId := 1 |}
              eq_refl) as (s' & Hrun & _).
  exists s'. split; [exact Hrun|].
  apply (post_departments_outcomes parse_named 40 bob body_lab acme_tables Hwf).
  discriminate.
Defined.

(** ** Custom fields and users *)

Lemma elem_of_values_insert_fresh {A} (m : gmap Z A) (k : Z) (x y : A) :
  m !! k = None -> y ∈ values (<[k := x]> m) <-> y = x \/ y ∈ values m.
Proof.
  intros H. rewrite (values_insert_fresh _ _ _ H). apply elem_of_cons.
Qed.

(** X12. [MemStorage.createCustomField] on a well-formed store stores the
    field under an id that was free, with a department only when the data
    names one other than 0.  A field without department is from then on
    listed by [getCustomFieldsByCompany] for its company and by no
    [getCustomFieldsByDepartment]; a field with a department is listed by
    [getCustomFieldsByDepartment] for that department alone and by no
    [getCustomFieldsByCompany]; the fields listed before are listed as
    before. *)
Theorem createCustomField_scope (now : Date) (fieldData : InsertCustomField.t)
    (s : Tables) :
  well_formed s ->
  exists field s',
    MemStorageQueries.createCustomField now fieldData s = (Ok field, s') /\
    customFields s !! CustomField.id field = None /\
    customFields s' !! CustomField.id field = Some field /\
    CustomField.departmentId field
    = match InsertCustomField.departmentId fieldData with
      | Some d => if decide (d = 0) then None else Some d
      | None => None
      end /\
    CustomField.departmentId field <> Some 0 /\
    (forall companyId, exists fields before,
       MemStorageQueries.getCustomFieldsByCompany companyId s' = (Ok fields, s') /\
       MemStorageQueries.getCustomFieldsByCompany companyId s = (Ok before, s) /\
       forall f, f ∈ fields <->
         f ∈ before \/
         (f = field /\ InsertCustomField.companyId fieldData = companyId /\
          CustomField.departmentId field = None)) /\
    (forall departmentId, exists fields before,
       MemStorageQueries.getCustomFieldsByDepartment departmentId s' = (Ok fields, s') /\
       MemStorageQueries.getCustomFieldsByDepartment departmentId s = (Ok before, s) /\
       forall f, f ∈ fields <->
         f ∈ before \/ (f = field /\ CustomField.departmentId field = Some departmentId)).
Proof.
  intros ((_ & _ & _ & _ & Hf & _) & _ & _).
  assert (Hfree : customFields s !! customFieldIdCounter s = None).
  { destruct (customFields s !! customFieldIdCounter s) eqn:E; [|done].
    apply Hf in E. lia. }
  eexists _, _. split.
  { cbv [MemStorageQueries.createCustomField bind gets modify ret]. reflexivity. }
  simpl.
  assert (Hnz : num_or_null (InsertCustomField.departmentId fieldData) <> Some 0).
  { unfold num_or_null. destruct (InsertCustomField.departmentId fieldData) as [d|];
      [|done]. destruct (decide (d = 0)); congruence. }
  split; [exact Hfree|]. split; [apply lookup_insert_eq|]. split; [reflexivity|].
  split; [exact Hnz|]. split.
  - intros companyId. eexists _, _. split; [reflexivity|]. split; [reflexivity|].
    intros f. rewrite !list_elem_of_filter. simpl.
    rewrite (elem_of_values_insert_fresh _ _ _ _ Hfree). split.
    + intros [[Hc Hn] [->|Hin]]; [right|left; done]. simpl in *.
      split; [done|]. split; [done|].
      unfold MemStorageQueries.no_department in Hn. simpl in Hn.
      destruct (num_or_null _) as [d|]; [|done].
      apply bool_decide_eq_true in Hn. congruence.
    + intros [[Hp Hin]|(-> & Hc & Hn)]; [split; [done|by right]|].
      split; [|by left]. simpl. split; [done|].
      unfold MemStorageQueries.no_department. simpl. by rewrite Hn.
  - intros departmentId. eexists _, _. split; [reflexivity|]. split; [reflexivity|].
    intros f. rewrite !list_elem_of_filter. simpl.
    rewrite (elem_of_values_insert_fresh _ _ _ _ Hfree). split.
    + intros [Hp [->|Hin]]; [right|left]; done.
    + intros [[Hp Hin]|[-> Hp]]; [split; [done|by right]|split; [done|by left]].
Qed.

Lemma createCustomField_scope_witness :
  exists field s',
    MemStorageQueries.createCustomField 50
      (InsertCustomField.mk 1 (Some 0) "Colour" "text" None None) lab_tables
    = (Ok field, s') /\
    CustomField.departmentId field = None /\
    CustomField.required field = false.
Proof.
  assert (Hwf : well_formed lab_tables).
  { unfold well_formed, ids_fresh, departments_keyed, counters_nonneg, log_ids_fresh.
    apply (bool_decide_unpack _). vm_compute. exact I. }
  destruct (createCustomField_scope 50
              (InsertCustomField.mk 1 (Some 0) "Colour" "text" None None) lab_tables Hwf)
    as (field & s' & Hrun & _ & _ & Hd & _).
  exists field, s'. split; [exact Hrun|]. split; [exact Hd|].
  injection Hrun as <- _. reflexivity.
Defined.

Lemma Mem_getUserByEmail_spec (toLowerCase : string -> string) email s :
  exists r,
    MemStorageQueries.getUserByEmail toLowerCase email s = (Ok r, s) /\
    match r with
    | Some found =>
        toLowerCase (User.email found) = toLowerCase email /\
        exists k, users s !! k = Some found
    | None =>
        forall k u, users s !! k = Some u ->
          toLowerCase (User.email u) <> toLowerCase email
    end.
Proof.
  eexists. split; [reflexivity|].
  destruct (filter _ (values (users s))) as [|found l] eqn:E; simpl.
  - intros k u Hu Hmatch.
    assert (u ∈ filter (fun user => toLowerCase (User.email user) = toLowerCase email)
                  (values (users s))) as Hin.
    { apply list_elem_of_filter. split; [done|]. apply elem_of_values. by exists k. }
    rewrite E in Hin. by apply elem_of_nil in Hin.
  - assert (found ∈ filter (fun user => toLowerCase (User.email user) = toLowerCase email)
                  (values (users s))) as Hin by (rewrite E; left).
    apply list_elem_of_filter in Hin as [Hm Hin]. split; [done|].
    by apply elem_of_values.
Qed.

(** X13. [MemStorage.createUser] on a well-formed store stores the user
    under an id that was free, with the role "employee" when the data has no
    role or an empty one; [getUser] then returns this user, and
    [getUserByEmail] finds a stored user for every spelling of the address
    that differs in letter case only.  [getUserByEmail] returns a stored
    user whose address matches without regard to case, and returns
    nothing only when no stored user has such an address. *)
Theorem createUser_then_found (toLowerCase : string -> string) (now : Date)
    (userData : InsertUser.t) (s : Tables) :
  well_formed s ->
  exists user s',
    MemStorageQueries.createUser now userData s = (Ok user, s') /\
    users s !! User.id user = None /\
    MemStorageQueries.getUser (User.id user) s' = (Ok (Some user), s') /\
    User.role user
    = match InsertUser.role userData with
      | Some role => if decide (role = "") then "employee" else role
      | None => "employee"
      end /\
    (forall id, id <> User.id user ->
       MemStorageQueries.getUser id s' = ((MemStorageQueries.getUser id s).1, s')) /\
    (forall email r,
       MemStorageQueries.getUserByEmail toLowerCase email s' = (r, s') ->
       match r with
       | Ok (Some found) =>
           toLowerCase (User.email found) = toLowerCase email /\
           exists k, users s' !! k = Some found
       | Ok None =>
           toLowerCase (InsertUser.email userData) <> toLowerCase email /\
           forall k u, users s !! k = Some u ->
             toLowerCase (User.email u) <> toLowerCase email
       | Throw _ => False
       end).
Proof.
  intros ((Hu & _) & _ & _).
  assert (Hfree : users s !! userIdCounter s = None).
  { destruct (users s !! userIdCounter s) eqn:E; [|done]. apply Hu in E. lia. }
  eexists _, _. split.
  { cbv [MemStorageQueries.createUser bind gets modify ret]. reflexivity. }
  simpl. split; [exact Hfree|]. split.
  { unfold MemStorageQueries.getUser, gets. simpl. by rewrite lookup_insert_eq. }
  split; [reflexivity|]. split.
  { intros id Hne. unfold MemStorageQueries.getUser, gets. simpl.
    by rewrite lookup_insert_ne. }
  intros email r Hrun.
  match type of Hrun with
  | _ ?s1 = _ =>
      destruct (Mem_getUserByEmail_spec toLowerCase email s1) as (o & Hspec & Ho)
  end.
  rewrite Hspec in Hrun. injection Hrun as <-.
  destruct o as [found|]; [exact Ho|]. simpl in Ho. split.
  - exact (Ho (userIdCounter s) _ (lookup_insert_eq _ _ _)).
  - intros k u Hk. apply (Ho k). rewrite lookup_insert_ne; [done|]. congruence.
Qed.

Lemma createUser_then_found_witness :
  exists user s',
    MemStorageQueries.createUser 60
      (InsertUser.mk 1 "Cy" "Cy@Acme.test" "" (Some "")) acme_tables
    = (Ok user, s') /\
    User.role user = "employee" /\
    MemStorageQueries.getUser 1 s' = (Ok (Some user), s').
Proof.
  assert (Hwf : well_formed acme_tables).
  { unfold well_formed, ids_fresh, departments_keyed, counters_nonneg, log_ids_fresh.
    apply (bool_decide_unpack _). vm_compute. exact I. }
  destruct (createUser_then_found (fun e => e) 60
              (InsertUser.mk 1 "Cy" "Cy@Acme.test" "" (Some "")) acme_tables Hwf)
    as (user & s' & Hrun & _ & Hget & Hrole & _).
  exists user, s'. split; [exact Hrun|]. split; [exact Hrole|].
  injection Hrun as <- _. exact Hget.
Defined.

(** ** The two storage classes side by side *)

(** X14. [MemStorage.getDepartment] called with a company id returns no
    department when the stored department belongs to another company, and
    the stored department when called without one, as the routes do;
    [DatabaseStorage.getDepartment] has no such guard: when its statement
    does not fail it returns the stored row whatever company id is
    passed. *)
Theorem getDepartment_company_guard (id companyId : Z) (dept : Department.t)
    (t : Tables) :
  departments t !! id = Some dept ->
  Department.companyId dept <> companyId ->
  MemStorage.getDepartment id (Some companyId) t = (Ok None, t) /\
  MemStorage.getDepartment id (Some (Department.companyId dept)) t = (Ok (Some dept), t) /\
  MemStorage.getDepartment id None t = (Ok (Some dept), t) /\
  DatabaseStorage.getDepartment id (Some companyId) (mkDb t [])
  = (Ok (Some dept), mkDb t []).
Proof.
  intros Hd Hne. unfold MemStorage.getDepartment, bind, gets, ret.
  rewrite Hd, decide_False, decide_True by done.
  repeat split. unfold_db. simpl. by rewrite Hd.
Qed.

Lemma getDepartment_company_guard_witness :
  MemStorage.getDepartment 1 (Some 2) acme_tables = (Ok None, acme_tables) /\
  DatabaseStorage.getDepartment 1 (Some 2) (mkDb acme_tables [])
  = (Ok (Some general_department), mkDb acme_tables []).
Proof.
  assert (Hd : departments acme_tables !! 1 = Some general_department)
    by (vm_compute; reflexivity).
  destruct (getDepartment_company_guard 1 2 general_department acme_tables Hd
              ltac:(vm_compute; lia))
    as (Hmem & _ & _ & Hdb).
  split; [exact Hmem | exact Hdb].
Defined.

Ltac run_create Hc Hd :=
  cbn -[alter insert lookup]; rewrite Hc; cbn -[alter insert lookup];
  rewrite Hd; cbn -[alter insert lookup].

(** X15. Item creation in the two storage classes, from the same tables
    with keyed departments and no failing statement.  For a registered
    company both return the same row and leave the same tables, except for
    a unit price of 0, which [MemStorage] stores as no price and
    [DatabaseStorage] as 0.  For a company that is not registered both
    throw the same error, but [MemStorage] has already used up an item id
    while [DatabaseStorage] leaves its tables as they were. *)
Theorem createInventoryItem_storages_agree (now : Date)
    (itemData : InsertInventoryItem.t) (t : Tables) :
  departments_keyed t ->
  (forall c, companies t !! InsertInventoryItem.companyId itemData = Some c ->
     exists item t',
       DatabaseStorage.createInventoryItem now itemData (mkDb t [])
       = (Ok item, mkDb t' []) /\
       InventoryItem.unitPrice item = InsertInventoryItem.unitPrice itemData /\
       (InsertInventoryItem.unitPrice itemData <> Some 0 ->
          MemStorage.createInventoryItem now itemData t = (Ok item, t')) /\
       (InsertInventoryItem.unitPrice itemData = Some 0 ->
          exists item_mem t_mem,
            MemStorage.createInventoryItem now itemData t = (Ok item_mem, t_mem) /\
            InventoryItem.unitPrice item_mem = None /\
            InventoryItem.assetId item_mem = InventoryItem.assetId item /\
            InventoryItem.id item_mem = InventoryItem.id item /\
            companies t_mem = companies t' /\
            departments t_mem = departments t' /\
            inventoryItemIdCounter t_mem = inventoryItemIdCounter t')) /\
  (companies t !! InsertInventoryItem.companyId itemData = None ->
     DatabaseStorage.createInventoryItem now itemData (mkDb t [])
     = (Throw (not_found "Company" (InsertInventoryItem.companyId itemData)),
        mkDb t []) /\
     MemStorage.createInventoryItem now itemData t
     = (Throw (not_found "Company" (InsertInventoryItem.companyId itemData)),
        set_inventoryItemIdCounter (inventoryItemIdCounter t + 1) t)).
Proof.
  intros Hk. split.
  - intros c Hc.
    destruct (departments t !! InsertInventoryItem.departmentId itemData) as [d|] eqn:Hd.
    + eexists _, (set_departments
                    <[InsertInventoryItem.departmentId itemData := _]>
                    (set_inventoryItems <[inventoryItemIdCounter t := _]>
                       (set_companies
                          <[InsertInventoryItem.companyId itemData := bump_counter c]>
                          (set_inventoryItemIdCounter (inventoryItemIdCounter t + 1) t)))).
      split.
      { unfold_db. cbn [faults tables]. run_create Hc Hd.
        rewrite (Hk _ _ Hd), lookup_alter, decide_True, Hd by done.
        cbn -[alter insert lookup].
        do 2 f_equal. unfold set_departments, set_inventoryItems, set_companies,
          set_inventoryItemIdCounter. cbn -[alter insert lookup]. f_equal.
        - by rewrite (alter_present _ _ _ _ Hc).
        - by rewrite (alter_present (fun row => spread_department row _) _ _ _ Hd). }
      split; [reflexivity|]. split.
      * intros Hp. unfold_mem. run_create Hc Hd. rewrite (Hk _ _ Hd), Hd.
        unfold num_or_null.
        destruct (InsertInventoryItem.unitPrice itemData) as [p|]; [|reflexivity].
        destruct (decide (p = 0)); [congruence|reflexivity].
      * intros Hp. eexists _, _. split.
        -- unfold_mem. run_create Hc Hd. rewrite (Hk _ _ Hd), Hd, Hp. reflexivity.
        -- simpl. repeat split; reflexivity.
    + eexists _, (set_inventoryItems <[inventoryItemIdCounter t := _]>
                    (set_companies
                       <[InsertInventoryItem.companyId itemData := bump_counter c]>
                       (set_inventoryItemIdCounter (inventoryItemIdCounter t + 1) t))).
      split.
      { unfold_db. cbn [faults tables]. run_create Hc Hd.
        do 2 f_equal. unfold set_departments, set_inventoryItems, set_companies,
          set_inventoryItemIdCounter. cbn -[alter insert lookup]. f_equal.
        by rewrite (alter_present _ _ _ _ Hc). }
      split; [reflexivity|]. split.
      * intros Hp. unfold_mem. run_create Hc Hd.
        unfold num_or_null.
        destruct (InsertInventoryItem.unitPrice itemData) as [p|]; [|reflexivity].
        destruct (decide (p = 0)); [congruence|reflexivity].
      * intros Hp. eexists _, _. split.
        -- unfold_mem. run_create Hc Hd. rewrite Hp. reflexivity.
        -- simpl. repeat split; reflexivity.
  - intros Hc. split; [|by apply Mem_createInventoryItem_None].
    unfold_db. cbn [faults tables]. cbn -[alter insert lookup]. by rewrite Hc.
Qed.

Lemma createInventoryItem_storages_agree_witness :
  exists item t',
    DatabaseStorage.createInventoryItem 70 (widget 1) (mkDb lab_tables [])
    = (Ok item, mkDb t' []) /\
    MemStorage.createInventoryItem 70 (widget 1) lab_tables = (Ok item, t').
Proof.
  assert (Hk : departments_keyed lab_tables).
  { unfold departments_keyed. apply (bool_decide_unpack _). vm_compute. exact I. }
  assert (exists c, companies lab_tables !! InsertInventoryItem.companyId (widget 1)
                    = Some c) as [c Hc].
  { vm_compute. eexists. reflexivity. }
  destruct (createInventoryItem_storages_agree 70 (widget 1) lab_tables Hk) as [Hreg _].
  destruct (Hreg c Hc) as (item & t' & Hdb & _ & Hmem & _).
  exists item, t'. split; [exact Hdb|]. apply Hmem. discriminate.
Defined.

(** ** Composition of the writes with the reads *)

(** X16. With a [MemStorage], [PUT /api/inventory/:id] by an admin copies
    a [companyId] of the payload onto the item like any other field: the
    answer is 200, and from then on the item is listed by
    [GET /api/inventory] for the callers of the payload's company, while
    the caller's own further update and deletion requests for this id are
    answered 403 "Access denied". *)
Theorem put_inventory_payload_moves_tenant (t_item t_log : Date) (user : User.t)
    (itemId other : Z) (req_body : PartialInventoryItem.t) (item : InventoryItem.t)
    (s : Tables) :
  User.role user = "admin" ->
  inventoryItems s !! itemId = Some item ->
  InventoryItem.companyId item = User.companyId user ->
  PartialInventoryItem.companyId req_body = Some other ->
  other <> User.companyId user ->
  exists row s',
    put_inventory MemStorage.storage t_item t_log user itemId req_body s
    = (mkResponse 200 (ItemJson row), s') /\
    InventoryItem.companyId row = other /\
    inventoryItems s' !! itemId = Some row /\
    (forall reader, User.companyId reader = other ->
       exists items,
         get_inventory reader s' = (mkReply 200 (PItems items), s') /\ row ∈ items) /\
    (forall t_item' t_log' req_body',
       put_inventory MemStorage.storage t_item' t_log' user itemId req_body' s'
       = (mkResponse 403 (Message "Access denied"), s')) /\
    (forall t_log',
       delete_inventory MemStorage.storage t_log' user itemId s'
       = (mkResponse 403 (Message "Access denied"), s')).
Proof.
  intros Hrole Hitem Hc Hbody Hne.
  assert (Hrun : exists s',
    put_inventory MemStorage.storage t_item t_log user itemId req_body s
    = (mkResponse 200
         (ItemJson (with_updatedAt
                      (spread_item item (with_updatedBy req_body (User.id user)))
                      t_item)), s') /\
    inventoryItems s'
    = <[itemId := with_updatedAt
                    (spread_item item (with_updatedBy req_body (User.id user)))
                    t_item]> (inventoryItems s)).
  { unfold put_inventory, try_catch.
    rewrite (bind_eq _ _ s (Some item) s)
      by (unfold MemStorage.storage, IStorage.getInventoryItem; unfold_mem;
          by rewrite Hitem).
    cbv beta iota. rewrite bool_decide_eq_true_2 by done.
    change (negb true) with false. cbv beta iota.
    unfold hasDepartmentAccess. rewrite decide_True by done.
    rewrite (bind_eq _ _ s true s) by done.
    change (negb true) with false. cbv beta iota.
    eexists. split.
    - erewrite bind_eq.
      2:{ unfold MemStorage.storage, IStorage.updateInventoryItem. unfold_mem.
          rewrite Hitem. reflexivity. }
      erewrite bind_eq by apply Mem_departmentName_of_run.
      reflexivity.
    - reflexivity. }
  destruct Hrun as (s' & Hrun & Hitems).
  set (row := with_updatedAt
                (spread_item item (with_updatedBy req_body (User.id user))) t_item) in *.
  assert (Hrow : InventoryItem.companyId row = other).
  { subst row. simpl. by rewrite Hbody. }
  assert (Hstored : inventoryItems s' !! itemId = Some row).
  { rewrite Hitems. apply lookup_insert_eq. }
  assert (Hget : IStorage.getInventoryItem MemStorage.storage itemId s'
                 = (Ok (Some row), s')).
  { unfold MemStorage.storage, IStorage.getInventoryItem. unfold_mem.
    by rewrite Hstored. }
  exists row, s'. split; [exact Hrun|]. split; [exact Hrow|]. split; [exact Hstored|].
  split; [|split].
  - intros reader Hreader. eexists. split; [reflexivity|].
    apply list_elem_of_filter. split; [congruence|].
    apply elem_of_values. by exists itemId.
  - intros t_item' t_log' req_body'. unfold put_inventory, try_catch.
    rewrite (bind_eq _ _ _ _ _ Hget). cbv beta iota.
    rewrite bool_decide_eq_false_2 by congruence. reflexivity.
  - intros t_log'. unfold delete_inventory, try_catch.
    rewrite (bind_eq _ _ _ _ _ Hget). cbv beta iota.
    rewrite bool_decide_eq_false_2 by congruence. reflexivity.
Qed.

Lemma put_inventory_payload_moves_tenant_witness :
  exists row s',
    put_inventory MemStorage.storage 30 31 ada 1
      (spread_partial_identity body_forge 2 7) lab_tables
    = (mkResponse 200 (ItemJson row), s') /\
    InventoryItem.companyId row = 2 /\
    delete_inventory MemStorage.storage 40 ada 1 s'
    = (mkResponse 403 (Message "Access denied"), s').
Proof.
  assert (exists item, inventoryItems lab_tables !! 1 = Some item /\
                       InventoryItem.companyId item = User.companyId ada)
    as (item & Hitem & Hc).
  { vm_compute. eexists. split; reflexivity. }
  destruct (put_inventory_payload_moves_tenant 30 31 ada 1 2
              (spread_partial_identity body_forge 2 7) item lab_tables
              eq_refl Hitem Hc eq_refl ltac:(vm_compute; lia))
    as (row & s' & Hrun & Hrow & _ & _ & _ & Hdel).
  exists row, s'. split; [exact Hrun|]. split; [exact Hrow|]. apply Hdel.
Defined.

(** X17. [MemStorage.createActivityLog] followed by
    [getActivityLogsByCompany]: on a store with fresh log ids, a log row
    written at a date later than every stored row's is the first row of
    its company's feed, for every positive limit and for the default one. *)
Theorem newest_log_listed_first (now : Date) (logData : InsertActivityLog.t)
    (limit : option Z) (s : Tables) :
  log_ids_fresh s ->
  (forall k row, activityLogs s !! k = Some row -> ActivityLog.createdAt row < now) ->
  0 < default 10 limit ->
  exists row s' logs,
    MemStorage.createActivityLog now logData s = (Ok row, s') /\
    row = spread_log logData (activityLogIdCounter s) now /\
    MemStorageQueries.getActivityLogsByCompany (InsertActivityLog.companyId logData)
      limit s'
    = (Ok (row :: logs), s').
Proof.
  intros Hfresh Hold Hlimit.
  assert (Hfree : activityLogs s !! activityLogIdCounter s = None).
  { destruct (activityLogs s !! activityLogIdCounter s) eqn:E; [|done].
    apply Hfresh in E. lia. }
  set (row := spread_log logData (activityLogIdCounter s) now).
  set (s' := set_activityLogs <[activityLogIdCounter s := row]>
               (set_activityLogIdCounter (activityLogIdCounter s + 1) s)).
  set (mine := filter (fun log => ActivityLog.companyId log
                                  = InsertActivityLog.companyId logData)
                 (values (activityLogs s'))).
  assert (Hin : row ∈ mine).
  { apply list_elem_of_filter. split; [done|]. apply elem_of_values.
    exists (activityLogIdCounter s). apply lookup_insert_eq. }
  assert (Hhead : exists tl, sort_newest_first mine = row :: tl).
  { pose proof (sort_newest_first_sorted mine) as Hsorted.
    pose proof (sort_newest_first_Permutation mine) as Hperm.
    rewrite <- Hperm in Hin.
    destruct (sort_newest_first mine) as [|h tl]; [by apply elem_of_nil in Hin|].
    exists tl. f_equal.
    assert (Hh : h ∈ mine) by (rewrite <- Hperm; left).
    apply list_elem_of_filter in Hh as [_ Hh].
    apply (elem_of_values_insert_fresh _ _ _ _ Hfree) in Hh as [->|Hh]; [done|].
    apply elem_of_values in Hh as [k Hk]. apply Hold in Hk.
    apply StronglySorted_inv in Hsorted as [_ Hall].
    apply elem_of_cons in Hin as [->|Hin]; [done|].
    rewrite Forall_forall in Hall. apply Hall in Hin.
    unfold not_older in Hin. simpl in Hin. lia. }
  destruct Hhead as [tl Htl].
  exists row, s', (take (Nat.pred (Z.to_nat (default 10 limit))) tl).
  split; [reflexivity|]. split; [reflexivity|].
  unfold MemStorageQueries.getActivityLogsByCompany, gets, slice0.
  rewrite decide_False by lia. fold mine. rewrite Htl.
  destruct (Z.to_nat (default 10 limit)) as [|n] eqn:En; [lia|]. reflexivity.
Qed.

Lemma newest_log_listed_first_witness :
  exists row s' logs,
    MemStorage.createActivityLog 99
      (InsertActivityLog.mk "added" 1 "A-0001" "Widget" "General" 1 "Ada" 1)
      (post_inventory MemStorage.storage parse_required 10 11 ada body_widget
         acme_tables).2
    = (Ok row, s') /\
    MemStorageQueries.getActivityLogsByCompany 1 (Some 1) s' = (Ok (row :: logs), s').
Proof.
  set (s := (post_inventory MemStorage.storage parse_required 10 11 ada body_widget
               acme_tables).2).
  assert (Hfresh : log_ids_fresh s).
  { unfold log_ids_fresh. apply (bool_decide_unpack _). vm_compute. exact I. }
  assert (Hold : forall k row, activityLogs s !! k = Some row ->
                               ActivityLog.createdAt row < 99).
  { apply (bool_decide_unpack
             (map_Forall (fun _ row => ActivityLog.createdAt row < 99) (activityLogs s))).
    vm_compute. exact I. }
  destruct (newest_log_listed_first 99
              (InsertActivityLog.mk "added" 1 "A-0001" "Widget" "General" 1 "Ada" 1)
              (Some 1) s Hfresh Hold ltac:(simpl; lia))
    as (row & s' & logs & Hrun & _ & Hlist).
  exists row, s', logs. split; [exact Hrun | exact Hlist].
Defined.

(** X18. [GET /api/company] answers 200 with the stored company of the
    caller, or 404 "Company not found" when there is none, and writes
    nothing, with a [MemStorage] and with a [DatabaseStorage] whose
    statement does not fail; when the statement fails the answer is 500
    "Server error" and the tables are as they were. *)
Theorem get_company_either_storage (user : User.t) (t : Tables) (rest : list bool) :
  get_company MemStorage.storage user t
  = (match companies t !! User.companyId user with
     | Some company => mkReply 200 (PCompany company)
     | None => mkReply 404 (PMessage "Company not found")
     end, t) /\
  get_company DatabaseStorage.storage user (mkDb t (false :: rest))
  = ((get_company MemStorage.storage user t).1, mkDb t rest) /\
  get_company DatabaseStorage.storage user (mkDb t [])
  = ((get_company MemStorage.storage user t).1, mkDb t []) /\
  get_company DatabaseStorage.storage user (mkDb t (true :: rest))
  = (mkReply 500 (PMessage "Server error"), mkDb t rest).
Proof.
  unfold get_company, try_catch, MemStorage.storage, DatabaseStorage.storage,
    IStorage.getCompany, MemStorage.getCompany, DatabaseStorage.getCompany,
    select_by_id, statement, bind, gets, ret.
  cbn [faults tables fst snd].
  destruct (companies t !! User.companyId user); repeat split; reflexivity.
Qed.

(** ** The inventory list page *)

Lemma chunks_concat {A} (k : nat) : forall (n : nat) (l : list A),
  (length l <= n * k)%nat ->
  concat ((fun i => take k (drop (i * k) l)) <$> seq 0 n) = l.
Proof.
  induction n as [|n IH]; intros l Hlen.
  - destruct l; [done|simpl in Hlen; lia].
  - cbn [seq fmap list_fmap concat]. rewrite <- fmap_S_seq, <- list_fmap_compose.
    rewrite (list_fmap_ext _ (fun i => take k (drop (i * k) (drop k l))) (seq 0 n)).
    + rewrite IH by (rewrite length_drop; lia). simpl. apply take_drop.
    + intros i x _. simpl. by rewrite drop_drop.
Qed.

Lemma paginatedItems_chunk {A} (l : list A) (i : nat) :
  InventoryList.paginatedItems l (Z.of_nat i + 1) = take 10 (drop (i * 10) l).
Proof.
  unfold InventoryList.paginatedItems, slice, InventoryList.itemsPerPage.
  rewrite !decide_False by lia.
  destruct (decide (length l <= i * 10)%nat) as [Hge|Hlt].
  - rewrite (drop_ge l (i * 10)) by done. rewrite drop_ge by lia.
    by rewrite !take_nil.
  - replace (Z.to_nat (Z.min ((Z.of_nat i + 1 - 1) * 10) (Z.of_nat (length l))))
      with (i * 10)%nat by lia.
    destruct (decide (length l <= i * 10 + 10)%nat).
    + rewrite !take_ge; [done| |]; rewrite length_drop; lia.
    + f_equal. lia.
Qed.

(** X19. The pages of the inventory list: the pages 1 to [totalPages], one
    after the other, are the filtered items in their order, each item on
    one page, and [totalPages] is positive exactly when the filtered list
    is not empty; every one of these pages holds at least one and at most
    ten items and ends at the item whose number the footer shows after
    "to", while the footer's first number is 1 on every page; every later
    page is empty.  From a page in this range the "Previous" and "Next"
    buttons lead to a page in this range: the neighbouring page, or the
    same page at either end. *)
Theorem inventory_pages_partition {A} (filteredItems : list A) :
  concat (InventoryList.paginatedItems filteredItems
            <$> seqZ 1 (InventoryList.totalPages filteredItems)) = filteredItems /\
  (0 < InventoryList.totalPages filteredItems <-> filteredItems <> []) /\
  (forall p, 1 <= p <= InventoryList.totalPages filteredItems ->
     (1 <= length (InventoryList.paginatedItems filteredItems p) <= 10)%nat /\
     (p - 1) * 10 + Z.of_nat (length (InventoryList.paginatedItems filteredItems p))
     = InventoryList.showing_to filteredItems p /\
     InventoryList.showing_from filteredItems = 1 /\
     1 <= InventoryList.previous p <= InventoryList.totalPages filteredItems /\
     (1 < p -> InventoryList.previous p = p - 1) /\
     1 <= InventoryList.next filteredItems p <= InventoryList.totalPages filteredItems /\
     (p < InventoryList.totalPages filteredItems ->
        InventoryList.next filteredItems p = p + 1)) /\
  (forall p, InventoryList.totalPages filteredItems < p ->
     InventoryList.paginatedItems filteredItems p = []).
Proof.
  set (n := length filteredItems).
  assert (Htotal : InventoryList.totalPages filteredItems = (Z.of_nat n + 9) / 10).
  { unfold InventoryList.totalPages, InventoryList.itemsPerPage. fold n.
    pose proof (Z.div_mod (- Z.of_nat n) 10 ltac:(lia)).
    pose proof (Z.mod_pos_bound (- Z.of_nat n) 10 ltac:(lia)).
    pose proof (Z.div_mod (Z.of_nat n + 9) 10 ltac:(lia)).
    pose proof (Z.mod_pos_bound (Z.of_nat n + 9) 10 ltac:(lia)).
    lia. }
  assert (Hlow : 10 * InventoryList.totalPages filteredItems < Z.of_nat n + 10).
  { rewrite Htotal. pose proof (Z.div_mod (Z.of_nat n + 9) 10 ltac:(lia)).
    pose proof (Z.mod_pos_bound (Z.of_nat n + 9) 10 ltac:(lia)). lia. }
  assert (Hhigh : Z.of_nat n <= 10 * InventoryList.totalPages filteredItems).
  { rewrite Htotal. pose proof (Z.div_mod (Z.of_nat n + 9) 10 ltac:(lia)).
    pose proof (Z.mod_pos_bound (Z.of_nat n + 9) 10 ltac:(lia)). lia. }
  assert (Hchunk : forall p, 1 <= p ->
            InventoryList.paginatedItems filteredItems p
            = take 10 (drop (Z.to_nat (p - 1) * 10) filteredItems)).
  { intros p Hp. rewrite <- paginatedItems_chunk. f_equal. lia. }
  split; [|split; [|split]].
  - unfold seqZ. rewrite <- list_fmap_compose.
    rewrite (list_fmap_ext _ (fun i => take 10 (drop (i * 10) filteredItems))
               (seq 0 (Z.to_nat (InventoryList.totalPages filteredItems)))).
    + apply chunks_concat. fold n. lia.
    + intros i x _. simpl. apply paginatedItems_chunk.
  - split.
    + intros Hpos ->. simpl in *. subst n. simpl in *. lia.
    + intros Hne. destruct filteredItems; [done|]. subst n. simpl in *. lia.
  - intros p Hp. rewrite (Hchunk p) by lia.
    rewrite length_take, length_drop. fold n.
    unfold InventoryList.showing_to, InventoryList.showing_from,
      InventoryList.previous, InventoryList.next, InventoryList.itemsPerPage.
    fold n. lia.
  - intros p Hp. rewrite (Hchunk p) by lia.
    rewrite drop_ge; [done|]. fold n. lia.
Qed.

(** ** The dashboard *)

Lemma length_filter_ext {A} (P Q : A -> Prop) `{!forall x, Decision (P x)}
    `{!forall x, Decision (Q x)} (l : list A) :
  (forall x, x ∈ l -> P x <-> Q x) -> length (filter P l) = length (filter Q l).
Proof.
  induction l as [|x l IH]; intros Hext; [done|].
  rewrite !filter_cons.
  assert (Hl : length (filter P l) = length (filter Q l)).
  { apply IH. intros y Hy. apply Hext. by right. }
  pose proof (Hext x ltac:(left)) as Hx.
  destruct (decide (P x)), (decide (Q x)); simpl; rewrite ?Hl; tauto || done.
Qed.

Lemma length_filter_le {A} (P : A -> Prop) `{!forall x, Decision (P x)} (l : list A) :
  (length (filter P l) <= length l)%nat.
Proof. apply sublist_length, sublist_filter. Qed.

Lemma sum_list_cons (x : Z) (l : list Z) : sum_list (x :: l) = x + sum_list l.
Proof. reflexivity. Qed.

Lemma sum_filter_by_key {A} (key : A -> Z) (ids : list Z) (items : list A) :
  NoDup ids ->
  sum_list ((fun i => Z.of_nat (length (filter (fun it => key it = i) items))) <$> ids)
  = Z.of_nat (length (filter (fun it => key it ∈ ids) items)).
Proof.
  induction 1 as [|i ids Hi Hnd IH].
  - simpl. induction items as [|it items IHi]; [done|].
    rewrite filter_cons. destruct (decide _) as [Hin|]; [|done].
    by apply elem_of_nil in Hin.
  - rewrite fmap_cons, sum_list_cons, IH. clear IH.
    induction items as [|it items IHi]; [done|].
    rewrite !filter_cons.
    destruct (decide (key it = i)) as [Heq|Hne],
             (decide (key it ∈ ids)) as [Hin|Hnin],
             (decide (key it ∈ i :: ids)) as [Hc|Hnc];
      simpl length; try lia; exfalso.
    + apply Hi. by rewrite <- Heq.
    + apply Hi. by rewrite <- Heq.
    + apply Hnc. rewrite Heq. left.
    + apply Hnc. by right.
    + apply elem_of_cons in Hc as [?|?]; done.
Qed.

Lemma values_keyed_NoDup (m : gmap Z Department.t) :
  (forall k d, m !! k = Some d -> Department.id d = k) ->
  NoDup (Department.id <$> values m).
Proof.
  intros Hk. rewrite values_Permutation, <- list_fmap_compose.
  rewrite (list_fmap_ext _ fst (map_to_list m)); [apply NoDup_fst_map_to_list|].
  intros i [k d] Hin. simpl. apply Hk.
  apply elem_of_map_to_list. by apply list_elem_of_lookup_2 in Hin.
Qed.

Lemma sum_list_scale (c : Z) (l : list Z) :
  sum_list ((fun x => c * x) <$> l) = c * sum_list l.
Proof.
  induction l as [|x l IH]; [simpl; lia|].
  rewrite fmap_cons, !sum_list_cons, IH. lia.
Qed.

(** X20. [GET /api/dashboard] over a [MemStorage] answers 200 and writes
    nothing; its total is the number of items that [GET /api/inventory]
    lists for the caller, the count of low-stock items and the count of
    items added this month are at most the total, there is one department
    entry for each department that [GET /api/departments] lists, carrying
    that department's id, name and counters, and the recent activity is the
    feed of [GET /api/activity] for the limit 5, so at most five rows. *)
Theorem get_dashboard_counts (first_day_of_month : Date -> Date) (now : Date)
    (user : User.t) (s : Tables) :
  exists dash items depts logs,
    get_dashboard first_day_of_month now user s = (mkReply 200 (PDashboard dash), s) /\
    get_inventory user s = (mkReply 200 (PItems items), s) /\
    get_departments user s = (mkReply 200 (PDepartments depts), s) /\
    get_activity user (Some 5) s = (mkReply 200 (PLogs logs), s) /\
    Dashboard.totalItems dash = length items /\
    (Dashboard.lowStockItems dash <= Dashboard.totalItems dash)%nat /\
    (Dashboard.itemsAddedThisMonth dash <= Dashboard.totalItems dash)%nat /\
    Dashboard.departmentCount dash = length depts /\
    Dashboard.departmentStats dash = department_stat <$> depts /\
    Dashboard.recentActivity dash = logs /\
    (length logs <= 5)%nat.
Proof.
  eexists _, _, _, _.
  split; [reflexivity|]. split; [reflexivity|]. split; [reflexivity|].
  split; [reflexivity|]. simpl.
  split; [reflexivity|]. split; [apply length_filter_le|].
  split; [apply length_filter_le|]. split; [reflexivity|]. split; [reflexivity|].
  split; [reflexivity|].
  unfold slice0. rewrite decide_False by lia. rewrite length_take. lia.
Qed.

(** X21. On a well-formed [MemStorage] whose department counters agree with
    the live items and whose items each sit in a department of their own
    company, the dashboard adds up: the asset counts of the department
    entries sum to the total number of items, and the capacities used to
    ten times that. *)
Theorem get_dashboard_adds_up (first_day_of_month : Date -> Date) (now : Date)
    (user : User.t) (s : Tables) :
  well_formed s -> counters_consistent s -> items_in_own_company s ->
  exists dash,
    get_dashboard first_day_of_month now user s = (mkReply 200 (PDashboard dash), s) /\
    sum_list (DepartmentStat.assetCount <$> Dashboard.departmentStats dash)
    = Z.of_nat (Dashboard.totalItems dash) /\
    sum_list (DepartmentStat.capacityUsed <$> Dashboard.departmentStats dash)
    = 10 * Z.of_nat (Dashboard.totalItems dash).
Proof.
  intros (_ & Hk & _) Hcons Hown. eexists. split; [reflexivity|]. simpl.
  set (c := User.companyId user).
  set (ds := filter (fun dept => Department.companyId dept = c) (values (departments s))).
  set (items := values (inventoryItems s)).
  assert (Hds : forall d, d ∈ ds ->
            departments s !! Department.id d = Some d /\ Department.companyId d = c).
  { intros d [Hc Hin]%list_elem_of_filter. apply elem_of_values in Hin as [k Hd].
    by rewrite (Hk _ _ Hd). }
  assert (Hcount : DepartmentStat.assetCount <$> (department_stat <$> ds)
            = (fun i => Z.of_nat (length (filter
                 (fun it => InventoryItem.departmentId it = i) items)))
              <$> (Department.id <$> ds)).
  { rewrite <- !list_fmap_compose. apply list_fmap_ext. intros i d Hd. simpl.
    apply list_elem_of_lookup_2, Hds in Hd as [Hd _].
    by destruct (Hcons _ _ Hd) as [-> _]. }
  assert (Hcap : DepartmentStat.capacityUsed <$> (department_stat <$> ds)
            = (fun x => 10 * x) <$> (DepartmentStat.assetCount <$> (department_stat <$> ds))).
  { rewrite <- !list_fmap_compose. apply list_fmap_ext. intros i d Hd. simpl.
    apply list_elem_of_lookup_2, Hds in Hd as [Hd _].
    destruct (Hcons _ _ Hd) as [-> ->]. done. }
  assert (Hsum : sum_list (DepartmentStat.assetCount <$> (department_stat <$> ds))
            = Z.of_nat (length (filter (fun item => InventoryItem.companyId item = c)
                                  items))).
  { rewrite Hcount, sum_filter_by_key.
    2:{ eapply sublist_NoDup; [apply (values_keyed_NoDup _ Hk)|].
        apply fmap_sublist, sublist_filter. }
    f_equal. apply length_filter_ext. intros item Hitem.
    apply elem_of_values in Hitem as [j Hj]. pose proof (Hown _ _ Hj) as Hhome.
    simpl in Hhome.
    destruct (departments s !! InventoryItem.departmentId item) as [d|] eqn:Hd;
      [|done].
    injection Hhome as Hhome. split.
    - intros (d' & Hid & Hin)%list_elem_of_fmap. apply Hds in Hin as [Hd' Hc'].
      rewrite <- Hid, Hd in Hd'. injection Hd' as <-. congruence.
    - intros Hc. apply list_elem_of_fmap. exists d. split; [by rewrite (Hk _ _ Hd)|].
      apply list_elem_of_filter. split; [congruence|].
      apply elem_of_values. eauto. }
  split; [exact Hsum|]. by rewrite Hcap, sum_list_scale, Hsum.
Qed.

Lemma get_dashboard_adds_up_witness :
  exists dash,
    get_dashboard (month_from 0) 50 ada lab_tables
    = (mkReply 200 (PDashboard dash), lab_tables) /\
    sum_list (DepartmentStat.assetCount <$> Dashboard.departmentStats dash) = 1 /\
    Dashboard.totalItems dash = 1%nat /\
    length (Dashboard.departmentStats dash) = 2%nat.
Proof.
  assert (Hwf : well_formed lab_tables).
  { unfold well_formed, ids_fresh, departments_keyed, counters_nonneg, log_ids_fresh.
    apply (bool_decide_unpack _). vm_compute. exact I. }
  assert (Hcons : counters_consistent lab_tables).
  { unfold counters_consistent. apply (bool_decide_unpack _). vm_compute. exact I. }
  assert (Hown : items_in_own_company lab_tables).
  { unfold items_in_own_company. apply (bool_decide_unpack _). vm_compute. exact I. }
  destruct (get_dashboard_adds_up (month_from 0) 50 ada lab_tables Hwf Hcons Hown)
    as (dash & Hrun & Hsum & _).
  exists dash. split; [exact Hrun|].
  assert (Htotal : Dashboard.totalItems dash = 1%nat /\
                   length (Dashboard.departmentStats dash) = 2%nat).
  { injection Hrun as <-. vm_compute. split; reflexivity. }
  destruct Htotal as [Htotal Hlen]. rewrite Hsum, Htotal. repeat split; done.
Defined.
